(** * Fusion 360 to PyChrono export scripts: a shallow embedding

    The development follows four modules of the repository:

    - [utils.py]: [validate_json_export], [convert_units],
      [get_model_summary], [print_model_summary], [create_export_config]
      and the command line;
    - [pychrono_loader.py]: [load_model_from_json], [create_body_from_data]
      and [create_joint_from_data];
    - [CableExport.py]: [run];
    - [ExportToPyChrono.py]: [extract_model_data], [extract_body_data],
      [extract_joint_data], and the paths that [run] and
      [export_geometries] write to.

    Python values that come out of [json.load] are an inductive type,
    exceptions are an error monad with the class hierarchy that [except]
    clauses test, dictionaries owned by the code ([to_meters], [body_map],
    the file system) are finite maps.

    Numbers: Python floats are embedded as exact rationals ([Qc]); a decimal
    literal stands for its exact value and rounding, infinities and NaN are
    outside the model. The one exception is [Binary64.convert_units], which
    computes on binary64 floats and on integers of any size. *)

From Stdlib Require Import QArith Qcanon String Ascii ZArith List Lia.
From Stdlib Require Floats.
From stdpp Require Import gmap strings list fin_maps pretty.

Open Scope string_scope.

(** ** Python exceptions *)

(** The exception classes that the modelled code can meet. *)
Inductive exn_class :=
| BaseException | Exception | KeyboardInterrupt
| TypeError | AttributeError | ImportError
| LookupError | KeyError
| ValueError | JSONDecodeError | UnicodeDecodeError | UnicodeEncodeError
| OSError | FileNotFoundError
| ArithmeticError | ZeroDivisionError | OverflowError.

Global Instance exn_class_eq_dec : EqDecision exn_class.
Proof. solve_decision. Defined.

(** The method resolution order of each class: the class followed by its bases. *)
Definition mro (c : exn_class) : list exn_class :=
  match c with
  | BaseException => [BaseException]
  | Exception => [Exception; BaseException]
  | KeyboardInterrupt => [KeyboardInterrupt; BaseException]
  | TypeError => [TypeError; Exception; BaseException]
  | AttributeError => [AttributeError; Exception; BaseException]
  | ImportError => [ImportError; Exception; BaseException]
  | LookupError => [LookupError; Exception; BaseException]
  | KeyError => [KeyError; LookupError; Exception; BaseException]
  | ValueError => [ValueError; Exception; BaseException]
  | JSONDecodeError => [JSONDecodeError; ValueError; Exception; BaseException]
  | UnicodeDecodeError => [UnicodeDecodeError; ValueError; Exception; BaseException]
  | UnicodeEncodeError => [UnicodeEncodeError; ValueError; Exception; BaseException]
  | OSError => [OSError; Exception; BaseException]
  | FileNotFoundError => [FileNotFoundError; OSError; Exception; BaseException]
  | ArithmeticError => [ArithmeticError; Exception; BaseException]
  | ZeroDivisionError => [ZeroDivisionError; ArithmeticError; Exception; BaseException]
  | OverflowError => [OverflowError; ArithmeticError; Exception; BaseException]
  end.

(** An exception object: raised by the interpreter or a library ([Builtin],
    the message text is theirs), or by a [raise] statement of the repository
    with the message it builds ([User]). *)
Inductive exn :=
| Builtin (c : exn_class)
| User (c : exn_class) (msg : string).

Definition class_of (e : exn) : exn_class :=
  match e with Builtin c => c | User c _ => c end.

(** [except C] catches [e] when the class of [e] derives from [C]. *)
Definition caught_by (e : exn) (c : exn_class) : bool :=
  bool_decide (c ∈ mro (class_of e)).

Inductive result (A : Type) :=
| Ok (a : A)
| Raise (e : exn).
Arguments Ok {A} a.
Arguments Raise {A} e.

Global Instance result_ret : MRet result := fun A a => Ok a.
Global Instance result_bind : MBind result := fun A B f m =>
  match m with
  | Ok a => f a
  | Raise e => Raise e
  end.
Global Instance result_fmap : FMap result := fun A B f m =>
  match m with
  | Ok a => Ok (f a)
  | Raise e => Raise e
  end.

Definition raises {A} (m : result A) : Prop :=
  match m with Ok _ => False | Raise _ => True end.

(** ** Python values read from JSON *)

Set Warnings "-register-all".

(** [JObj] keeps the items of a [dict] in insertion order; a lookup takes the
    first binding of a key. *)
Inductive json :=
| JNull
| JBool (b : bool)
| JNum (q : Qc)
| JStr (s : string)
| JArr (l : list json)
| JObj (kvs : list (string * json)).

(** A float literal of the source, as the rational it denotes. *)
Definition float (q : Q) : Qc := Q2Qc q.

(** [bool(v)]. *)
Definition truthy (v : json) : bool :=
  match v with
  | JNull => false
  | JBool b => b
  | JNum q => negb (bool_decide (q = Q2Qc 0))
  | JStr s => negb (bool_decide (s = EmptyString))
  | JArr l => match l with [] => false | _ => true end
  | JObj kvs => match kvs with [] => false | _ => true end
  end.

Fixpoint dict_lookup (k : string) (kvs : list (string * json)) : option json :=
  match kvs with
  | [] => None
  | (k', v) :: rest => if bool_decide (k' = k) then Some v else dict_lookup k rest
  end.

(** [d.get(k, dflt)]; only a [dict] has the method. *)
Definition py_get (d : json) (k : string) (dflt : json) : result json :=
  match d with
  | JObj kvs => Ok (default dflt (dict_lookup k kvs))
  | _ => Raise (Builtin AttributeError)
  end.

(** [d[k]] for a string [k]. *)
Definition py_getitem (d : json) (k : string) : result json :=
  match d with
  | JObj kvs =>
      match dict_lookup k kvs with
      | Some v => Ok v
      | None => Raise (Builtin KeyError)
      end
  | _ => Raise (Builtin TypeError)
  end.

(** [sub in s] on strings: [sub] occurs in [s] as a contiguous run. *)
Fixpoint is_substring (sub s : string) : bool :=
  String.prefix sub s ||
  match s with
  | EmptyString => false
  | String _ s' => is_substring sub s'
  end.

Definition is_str (k : string) (v : json) : bool :=
  match v with JStr s => bool_decide (s = k) | _ => false end.

(** [k in v] for a string [k]: key test on a [dict], element test on a
    [list], substring test on a [str]; other values are not containers. *)
Definition py_in (k : string) (v : json) : result bool :=
  match v with
  | JObj kvs => Ok (bool_decide (is_Some (dict_lookup k kvs)))
  | JArr l => Ok (existsb (is_str k) l)
  | JStr s => Ok (is_substring k s)
  | _ => Raise (Builtin TypeError)
  end.

(** [isinstance(v, list)]. *)
Definition is_list (v : json) : bool :=
  match v with JArr _ => true | _ => false end.

(** The items a [for] loop draws from [v]: the elements of a [list], the keys
    of a [dict], the characters of a [str]. *)
Definition py_iter (v : json) : result (list json) :=
  match v with
  | JArr l => Ok l
  | JObj kvs => Ok (map (fun kv => JStr (fst kv)) kvs)
  | JStr s => Ok (map (fun c => JStr (String c EmptyString)) (list_ascii_of_string s))
  | _ => Raise (Builtin TypeError)
  end.

(** The number a value stands for in arithmetic; [bool] is a subclass of
    [int]. *)
Definition as_number (v : json) : result Qc :=
  match v with
  | JNum q => Ok q
  | JBool b => Ok (if b then Q2Qc 1 else Q2Qc 0)
  | _ => Raise (Builtin TypeError)
  end.

(** [a / b] on numbers. *)
Definition truediv (a b : Qc) : result Qc :=
  if bool_decide (b = Q2Qc 0) then Raise (Builtin ZeroDivisionError)
  else Ok (a / b)%Qc.

(** [v / d] for a value [v] and a float [d]. *)
Definition py_truediv (v : json) (d : Qc) : result Qc :=
  a ← as_number v; truediv a d.

(** ** utils.py *)

(** *** convert_units *)

Definition to_meters : gmap string Qc :=
  list_to_map
    [("mm", float 0.001); ("cm", float 0.01); ("m", float 1.0);
     ("in", float 0.0254); ("ft", float 0.3048)].

Definition convert_units (value : Qc) (from_unit to_unit : string) : result Qc :=
  match to_meters !! from_unit, to_meters !! to_unit with
  | Some from_factor, Some to_factor =>
      let value_in_meters := (value * from_factor)%Qc in
      truediv value_in_meters to_factor
  | _, _ =>
      Raise (User ValueError
               ("Unsupported unit conversion: " +:+ from_unit +:+ " to " +:+ to_unit))
  end.

(** The unit names of the conversion table. *)
Definition supported_units : list string := ["mm"; "cm"; "m"; "in"; "ft"].

(** *** convert_units on the numbers of Python *)

(** [convert_units] above reads the function over exact rationals. What
    follows is the function on the numbers that Python passes to it: an
    [int] of any size, or a [float], which is an IEEE 754 binary64 value
    whose operations round to nearest, ties to even. *)
Inductive number :=
| PyInt (z : Z)
| PyFloat (x : PrimFloat.float).

Module Binary64.
Import PrimFloat.
#[local] Set Warnings "-inexact-float".

(** The conversion that arithmetic applies to an [int] operand beside a
    [float]: the nearest binary64 value, and an [OverflowError] for an
    [int] beyond the range of [float]. *)
Definition float_of_int (z : Z) : result float :=
  match SpecFloat.binary_normalize FloatOps.prec FloatOps.emax z 0 false with
  | SpecFloat.S754_infinity _ => Raise (Builtin OverflowError)
  | x => Ok (FloatOps.SF2Prim x)
  end.

Definition as_float (value : number) : result float :=
  match value with
  | PyInt z => float_of_int z
  | PyFloat x => Ok x
  end.

(** [a * b] for a number [a] and a float [b]; the product of two floats
    never raises, an overflow gives an infinity. *)
Definition py_mul (a : number) (b : float) : result float :=
  x ← as_float a; Ok (x * b)%float.

(** [a / b] on floats. *)
Definition truediv (a b : float) : result float :=
  if is_zero b then Raise (Builtin ZeroDivisionError) else Ok (a / b)%float.

Definition to_meters : gmap string float :=
  list_to_map
    [("mm", 0.001%float); ("cm", 0.01%float); ("m", 1.0%float);
     ("in", 0.0254%float); ("ft", 0.3048%float)].

Definition convert_units (value : number) (from_unit to_unit : string) : result float :=
  match to_meters !! from_unit, to_meters !! to_unit with
  | Some from_factor, Some to_factor =>
      value_in_meters ← py_mul value from_factor;
      truediv value_in_meters to_factor
  | _, _ =>
      Raise (User ValueError
               ("Unsupported unit conversion: " +:+ from_unit +:+ " to " +:+ to_unit))
  end.
End Binary64.

(** *** validate_json_export *)

(** What [open] followed by [json.load] finds at a path. A path bound to no
    file is absent from the file system map. *)
Inductive file :=
| Unreadable                (* [open] fails with an [OSError] other than not-found *)
| Undecodable               (* the bytes are not text in the expected encoding *)
| Malformed                 (* the text is not JSON *)
| Document (v : json).      (* the text parses to [v] *)

Definition read_json (fs : gmap string file) (path : string) : result json :=
  match fs !! path with
  | None => Raise (Builtin FileNotFoundError)
  | Some Unreadable => Raise (Builtin OSError)
  | Some Undecodable => Raise (Builtin UnicodeDecodeError)
  | Some Malformed => Raise (Builtin JSONDecodeError)
  | Some (Document v) => Ok v
  end.

Definition required_fields : list string :=
  ["model_name"; "bodies"; "joints"; "metadata"].

Definition missing_field_message (field : string) : string :=
  "Missing required field: " +:+ field.

Section Validate.
(** [str(e)] of an exception and [str(v)] of a value that is not a string
    are texts of the interpreter. *)
Variable exn_str : exn -> string.
Variable py_repr : json -> string.
Variable fs : gmap string file.

(** [f"{v}"]. *)
Definition py_format (v : json) : string :=
  match v with
  | JStr s => s
  | _ => py_repr v
  end.

(** A loop body either returns from the function ([Some]) or falls through
    to the next iteration ([None]). *)
Fixpoint check_required (fields : list string) (data : json)
  : result (option (bool * string)) :=
  match fields with
  | [] => Ok None
  | field :: rest =>
      present ← py_in field data;
      if negb present then Ok (Some (false, missing_field_message field))
      else check_required rest data
  end.

Fixpoint check_bodies (i : nat) (bodies : list json)
  : result (option (bool * string)) :=
  match bodies with
  | [] => Ok None
  | body :: rest =>
      has_name ← py_in "name" body;
      if negb has_name then
        Ok (Some (false, "Body " +:+ pretty i +:+ " missing 'name' field"))
      else
        has_mass ← py_in "mass_properties" body;
        if negb has_mass then
          name ← py_getitem body "name";
          Ok (Some (false, "Body " +:+ py_format name +:+ " missing 'mass_properties'"))
        else check_bodies (S i) rest
  end.

Fixpoint check_joints (i : nat) (joints : list json)
  : result (option (bool * string)) :=
  match joints with
  | [] => Ok None
  | joint :: rest =>
      has_name ← py_in "name" joint;
      if negb has_name then
        Ok (Some (false, "Joint " +:+ pretty i +:+ " missing 'name' field"))
      else
        has_type ← py_in "type" joint;
        if negb has_type then
          name ← py_get joint "name" (JNum (Q2Qc (inject_Z (Z.of_nat i))));
          Ok (Some (false, "Joint " +:+ py_format name +:+ " missing 'type' field"))
        else check_joints (S i) rest
  end.

(** The body of the [try] statement. *)
Definition validate_try (json_path : string) : result (bool * string) :=
  data ← read_json fs json_path;
  r ← check_required required_fields data;
  match r with
  | Some out => Ok out
  | None =>
      bodies ← py_getitem data "bodies";
      match bodies with
      | JArr bodies =>
          r ← check_bodies 0 bodies;
          match r with
          | Some out => Ok out
          | None =>
              joints ← py_getitem data "joints";
              match joints with
              | JArr joints =>
                  r ← check_joints 0 joints;
                  match r with
                  | Some out => Ok out
                  | None => Ok (true, "Valid")
                  end
              | _ => Ok (false, "joints must be a list")
              end
          end
      | _ => Ok (false, "bodies must be a list")
      end
  end.

(** The [except] clauses, tried in order; an exception that none of them
    catches leaves the function. *)
Definition validate_json_export (json_path : string) : result (bool * string) :=
  match validate_try json_path with
  | Ok out => Ok out
  | Raise e =>
      if caught_by e JSONDecodeError then
        Ok (false, "JSON parsing error: " +:+ exn_str e)
      else if caught_by e FileNotFoundError then
        Ok (false, "File not found: " +:+ json_path)
      else if caught_by e Exception then
        Ok (false, "Validation error: " +:+ exn_str e)
      else Raise e
  end.
End Validate.

(** *** get_model_summary *)

(** [len(v)]; the keys of a [dict] are distinct and a string is taken to
    be ASCII. *)
Definition py_len (v : json) : result nat :=
  match v with
  | JArr l => Ok (length l)
  | JObj kvs => Ok (length kvs)
  | JStr s => Ok (String.length s)
  | _ => Raise (Builtin TypeError)
  end.

(** [[item[key] for item in items]]. *)
Fixpoint py_getitem_each (items : list json) (key : string) : result (list json) :=
  match items with
  | [] => Ok []
  | item :: rest =>
      v ← py_getitem item key;
      vs ← py_getitem_each rest key;
      Ok (v :: vs)
  end.

(** [sum(body.get('mass_properties', {}).get('mass', 0) for body in bodies)],
    with the running total. *)
Fixpoint sum_masses (bodies : list json) (total : Qc) : result Qc :=
  match bodies with
  | [] => Ok total
  | body :: rest =>
      mass_props ← py_get body "mass_properties" (JObj []);
      mass ← py_get mass_props "mass" (JNum (float 0));
      mass ← as_number mass;
      sum_masses rest (total + mass)%Qc
  end.

(** The dictionary [summary] when it is complete. *)
Record summary :=
  { summary_model_name : json;
    summary_num_bodies : nat;
    summary_num_joints : nat;
    summary_units : json;
    summary_bodies : list json;
    summary_joints : list json;
    summary_total_mass : Qc }.

(** The dictionary that [get_model_summary] returns: the summary, or the
    single key [error]. *)
Inductive summary_dict :=
| Summary (s : summary)
| SummaryError (message : string).

Section Summary.
Variable exn_str : exn -> string.
Variable fs : gmap string file.

(** The body of the [try] statement. *)
Definition summary_try (json_path : string) : result summary :=
  data ← read_json fs json_path;
  model_name ← py_get data "model_name" (JStr "Unknown");
  bodies ← py_get data "bodies" (JArr []);
  num_bodies ← py_len bodies;
  joints ← py_get data "joints" (JArr []);
  num_joints ← py_len joints;
  metadata ← py_get data "metadata" (JObj []);
  units ← py_get metadata "units" (JStr "unknown");
  bodies ← py_get data "bodies" (JArr []);
  bodies ← py_iter bodies;
  body_names ← py_getitem_each bodies "name";
  joints ← py_get data "joints" (JArr []);
  joints ← py_iter joints;
  joint_names ← py_getitem_each joints "name";
  bodies ← py_get data "bodies" (JArr []);
  bodies ← py_iter bodies;
  total_mass ← sum_masses bodies (float 0);
  Ok {| summary_model_name := model_name;
        summary_num_bodies := num_bodies;
        summary_num_joints := num_joints;
        summary_units := units;
        summary_bodies := body_names;
        summary_joints := joint_names;
        summary_total_mass := total_mass |}.

Definition get_model_summary (json_path : string) : result summary_dict :=
  match summary_try json_path with
  | Ok s => Ok (Summary s)
  | Raise e =>
      if caught_by e Exception then Ok (SummaryError (exn_str e))
      else Raise e
  end.
End Summary.

(** ** pychrono_loader.py *)

(** *** The part of the simulation engine that the loader drives *)

(** The engine is a library outside the repository. Its objects are records
    of what the loader sets on them, and a setter updates its field. *)

Record ChVectorD := { vx : Qc; vy : Qc; vz : Qc }.

Inductive mesh_loader := LoadSTLMesh | LoadWavefrontMesh.

Record ChTriangleMeshConnected :=
  { mesh_file : string; mesh_loaded_by : mesh_loader }.

Record ChBody :=
  { body_name : string;
    body_mass : Qc;
    body_pos : ChVectorD;
    body_inertiaXX : ChVectorD;
    body_collide : bool;
    body_collision_mesh : option ChTriangleMeshConnected;
    body_visual_shape : option ChTriangleMeshConnected;
    body_fixed : bool }.

(** Modelled from the spec: the constructor [chrono.ChBody()] belongs to the
    engine and is not in the repository. A body on which no setter is called
    has mass 1.0 and inertia diagonal (1, 1, 1). In the other fields it
    starts at the origin, without a name, not colliding and free to move. *)
Definition ChBody_new : ChBody :=
  {| body_name := EmptyString;
     body_mass := float 1.0;
     body_pos := {| vx := float 0; vy := float 0; vz := float 0 |};
     body_inertiaXX := {| vx := float 1.0; vy := float 1.0; vz := float 1.0 |};
     body_collide := false;
     body_collision_mesh := None;
     body_visual_shape := None;
     body_fixed := false |}.

Definition SetName (b : ChBody) (n : string) : ChBody :=
  {| body_name := n; body_mass := body_mass b; body_pos := body_pos b;
     body_inertiaXX := body_inertiaXX b; body_collide := body_collide b;
     body_collision_mesh := body_collision_mesh b;
     body_visual_shape := body_visual_shape b; body_fixed := body_fixed b |}.

Definition SetMass (b : ChBody) (m : Qc) : ChBody :=
  {| body_name := body_name b; body_mass := m; body_pos := body_pos b;
     body_inertiaXX := body_inertiaXX b; body_collide := body_collide b;
     body_collision_mesh := body_collision_mesh b;
     body_visual_shape := body_visual_shape b; body_fixed := body_fixed b |}.

Definition SetPos (b : ChBody) (p : ChVectorD) : ChBody :=
  {| body_name := body_name b; body_mass := body_mass b; body_pos := p;
     body_inertiaXX := body_inertiaXX b; body_collide := body_collide b;
     body_collision_mesh := body_collision_mesh b;
     body_visual_shape := body_visual_shape b; body_fixed := body_fixed b |}.

Definition SetInertiaXX (b : ChBody) (i : ChVectorD) : ChBody :=
  {| body_name := body_name b; body_mass := body_mass b; body_pos := body_pos b;
     body_inertiaXX := i; body_collide := body_collide b;
     body_collision_mesh := body_collision_mesh b;
     body_visual_shape := body_visual_shape b; body_fixed := body_fixed b |}.

(** [SetCollide(True)], the collision model built from the mesh, and the
    visual shape ([AddVisualShape], or [AddAsset] where the engine lacks it). *)
Definition attach_mesh (b : ChBody) (m : ChTriangleMeshConnected) : ChBody :=
  {| body_name := body_name b; body_mass := body_mass b; body_pos := body_pos b;
     body_inertiaXX := body_inertiaXX b; body_collide := true;
     body_collision_mesh := Some m;
     body_visual_shape := Some m; body_fixed := body_fixed b |}.

Definition SetBodyFixed (b : ChBody) (f : bool) : ChBody :=
  {| body_name := body_name b; body_mass := body_mass b; body_pos := body_pos b;
     body_inertiaXX := body_inertiaXX b; body_collide := body_collide b;
     body_collision_mesh := body_collision_mesh b;
     body_visual_shape := body_visual_shape b; body_fixed := f |}.

Inductive link_class := ChLinkLockRevolute | ChLinkLockLock | ChLinkLockPrismatic.

(** A constraint holds references to the two bodies it was initialized with;
    a reference is the position of the body in the system. *)
Record ChLink :=
  { link_class_of : link_class;
    link_body_one : nat;
    link_body_two : nat;
    link_origin : ChVectorD;
    link_name : string }.

Record ChSystem :=
  { G_acc : ChVectorD;
    sys_bodies : list ChBody;
    sys_links : list ChLink }.

Definition ChSystemNSC (g : ChVectorD) : ChSystem :=
  {| G_acc := g; sys_bodies := []; sys_links := [] |}.

(** [system.Add(body)]; the result also gives the reference to the body. *)
Definition add_body (system : ChSystem) (b : ChBody) : nat * ChSystem :=
  (length (sys_bodies system),
   {| G_acc := G_acc system;
      sys_bodies := sys_bodies system ++ [b];
      sys_links := sys_links system |}).

(** [system.Add(joint)]. *)
Definition add_link (system : ChSystem) (l : ChLink) : ChSystem :=
  {| G_acc := G_acc system;
     sys_bodies := sys_bodies system;
     sys_links := sys_links system ++ [l] |}.

(** The engine's wrappers accept a [str] where a name is expected and a
    number where a [double] is expected; [os.path.join] accepts a [str]. *)
Definition as_str (v : json) : result string :=
  match v with
  | JStr s => Ok s
  | _ => Raise (Builtin TypeError)
  end.

(** *** os.path, POSIX flavour *)

Definition ends_with (suffix s : string) : bool :=
  String.prefix (String.rev suffix) (String.rev s).

Definition path_join (a b : string) : string :=
  if String.prefix "/" b then b
  else if bool_decide (a = EmptyString) || ends_with "/" a then a +:+ b
  else a +:+ "/" +:+ b.

Fixpoint drop_to_sep (s : string) : string :=
  match s with
  | EmptyString => EmptyString
  | String c s' => if bool_decide (c = "/"%char) then s else drop_to_sep s'
  end.

Fixpoint lstrip_sep (s : string) : string :=
  match s with
  | EmptyString => EmptyString
  | String c s' => if bool_decide (c = "/"%char) then lstrip_sep s' else s
  end.

Definition path_dirname (p : string) : string :=
  let head := drop_to_sep (String.rev p) in
  let stripped := lstrip_sep head in
  if bool_decide (stripped = EmptyString) then String.rev head else String.rev stripped.

Definition ascii_lower (c : ascii) : ascii :=
  let n := nat_of_ascii c in
  if (65 <=? n)%nat && (n <=? 90)%nat then ascii_of_nat (n + 32) else c.

Fixpoint lower (s : string) : string :=
  match s with
  | EmptyString => EmptyString
  | String c s' => String (ascii_lower c) (lower s')
  end.

(** *** The loader *)

(** [ChVectorD(d.get('x', 0) / 1000.0, d.get('y', 0) / 1000.0,
    d.get('z', 0) / 1000.0)]: the expression the source writes for the centre
    of mass, for the translation and for the joint origin. *)
Definition mm_to_m_vector (d : json) : result ChVectorD :=
  x ← py_get d "x" (JNum (float 0));
  x ← py_truediv x (float 1000.0);
  y ← py_get d "y" (JNum (float 0));
  y ← py_truediv y (float 1000.0);
  z ← py_get d "z" (JNum (float 0));
  z ← py_truediv z (float 1000.0);
  Ok {| vx := x; vy := y; vz := z |}.

(** [body_map.get(key)]: a [list] or a [dict] cannot be hashed; a key that is
    not a string equals no body name. *)
Definition body_map_get (body_map : gmap string nat) (key : json)
  : result (option nat) :=
  match key with
  | JStr s => Ok (body_map !! s)
  | JArr _ | JObj _ => Raise (Builtin TypeError)
  | _ => Ok None
  end.

(** [k1 in v or k2 in v]. *)
Definition py_in_or (k1 k2 : string) (v : json) : result bool :=
  b ← py_in k1 v;
  if (b : bool) then Ok true else py_in k2 v.

(** [# Set mass properties]: the block of [create_body_from_data] under
    [if mass_props:]. *)
Definition set_mass_properties (body : ChBody) (mass_props : json) : result ChBody :=
  if truthy mass_props then
    mass ← py_get mass_props "mass" (JNum (float 1.0));
    mass ← as_number mass;
    let body := SetMass body mass in
    com ← py_get mass_props "center_of_mass" (JObj []);
    body ←
      (if truthy com then
         pos ← mm_to_m_vector com;
         Ok (SetPos body pos)
       else Ok body);
    inertia ← py_get mass_props "moments_of_inertia" (JObj []);
    if truthy inertia then
      xx ← py_get inertia "xx" (JNum (float 1.0));
      yy ← py_get inertia "yy" (JNum (float 1.0));
      zz ← py_get inertia "zz" (JNum (float 1.0));
      xx ← as_number xx;
      yy ← as_number yy;
      zz ← as_number zz;
      Ok (SetInertiaXX body {| vx := xx; vy := yy; vz := zz |})
    else Ok body
  else Ok body.

(** [# Apply transformation if present]: the block under [if transform:]. *)
Definition apply_transformation (body : ChBody) (transform : json) : result ChBody :=
  if truthy transform then
    translation ← py_get transform "translation" (JObj []);
    if truthy translation then
      pos ← mm_to_m_vector translation;
      Ok (SetPos body pos)
    else Ok body
  else Ok body.

(** [os.path.join(os.path.dirname(json_path), 'geometries')]. *)
Definition default_geometry_dir (json_path : string) : string :=
  path_join (path_dirname json_path) "geometries".

Section Loader.
(** The outcome of [import pychrono], and whether the installed engine
    has the method [LoadSTLMesh]. *)
Variable PYCHRONO_AVAILABLE : bool.
Variable has_LoadSTLMesh : bool.
Variable fs : gmap string file.

(** [os.path.exists]. *)
Definition path_exists (p : string) : bool := bool_decide (is_Some (fs !! p)).

Definition load_mesh (stl_path : string) : ChTriangleMeshConnected :=
  if ends_with ".stl" (lower stl_path) then
    if has_LoadSTLMesh
    then {| mesh_file := stl_path; mesh_loaded_by := LoadSTLMesh |}
    else {| mesh_file := stl_path; mesh_loaded_by := LoadWavefrontMesh |}
  else {| mesh_file := stl_path; mesh_loaded_by := LoadWavefrontMesh |}.

(** [# Load collision geometry from STL if available]: the block under
    [if geom_file:]. *)
Definition load_collision_geometry (body : ChBody) (geom_file : json)
    (geometry_dir : string) : result ChBody :=
  if truthy geom_file then
    geom_file ← as_str geom_file;
    let stl_path := path_join geometry_dir geom_file in
    if path_exists stl_path then Ok (attach_mesh body (load_mesh stl_path))
    else Ok body
  else Ok body.

(** The statements of [create_body_from_data] up to [system.Add(body)]. *)
Definition build_body (body_data : json) (geometry_dir : string) : result ChBody :=
  let body := ChBody_new in
  name ← py_getitem body_data "name";
  name ← as_str name;
  let body := SetName body name in
  mass_props ← py_get body_data "mass_properties" (JObj []);
  body ← set_mass_properties body mass_props;
  transform ← py_get body_data "transform" (JObj []);
  body ← apply_transformation body transform;
  geom_file ← py_get body_data "geometry_file" JNull;
  body ← load_collision_geometry body geom_file geometry_dir;
  is_fixed ← py_get body_data "is_fixed" (JBool false);
  Ok (if truthy is_fixed then SetBodyFixed body true else body).

Definition create_body_from_data (body_data : json) (geometry_dir : string)
    (system : ChSystem) : result (nat * ChSystem) :=
  body ← build_body body_data geometry_dir;
  Ok (add_body system body).

Definition create_joint_from_data (joint_data : json)
    (body_map : gmap string nat) (system : ChSystem)
  : result (option ChLink * ChSystem) :=
  joint_type ← py_get joint_data "type" (JStr EmptyString);
  body_one_name ← py_get joint_data "body_one" JNull;
  body_two_name ← py_get joint_data "body_two" JNull;
  if negb (truthy body_one_name) || negb (truthy body_two_name) then
    Ok (None, system)
  else
    body_one ← body_map_get body_map body_one_name;
    body_two ← body_map_get body_map body_two_name;
    match body_one, body_two with
    | Some body_one, Some body_two =>
        origin ← py_get joint_data "origin" (JObj []);
        origin_pos ← mm_to_m_vector origin;
        is_revolute ← py_in_or "Revolute" "RevoluteJointType" joint_type;
        joint ←
          (if (is_revolute : bool) then Ok (Some ChLinkLockRevolute)
           else
             is_rigid ← py_in_or "Rigid" "RigidJointType" joint_type;
             if (is_rigid : bool) then Ok (Some ChLinkLockLock)
             else
               is_slider ← py_in_or "Slider" "SliderJointType" joint_type;
               if (is_slider : bool) then Ok (Some ChLinkLockPrismatic)
               else Ok None);
        match joint with
        | Some class =>
            name ← py_get joint_data "name" (JStr EmptyString);
            name ← as_str name;
            let joint :=
              {| link_class_of := class;
                 link_body_one := body_one;
                 link_body_two := body_two;
                 link_origin := origin_pos;
                 link_name := name |} in
            Ok (Some joint, add_link system joint)
        | None => Ok (None, system)
        end
    | _, _ => Ok (None, system)
    end.

(** The first loop of [load_model_from_json]. A body object is always
    true, so every body that was created is registered. *)
Fixpoint create_bodies (bodies : list json) (geometry_dir : string)
    (body_map : gmap string nat) (system : ChSystem)
  : result (gmap string nat * ChSystem) :=
  match bodies with
  | [] => Ok (body_map, system)
  | body_data :: rest =>
      '(body, system) ← create_body_from_data body_data geometry_dir system;
      name ← py_getitem body_data "name";
      name ← as_str name;
      create_bodies rest geometry_dir (<[name := body]> body_map) system
  end.

(** The second loop. *)
Fixpoint create_joints (joints : list json) (body_map : gmap string nat)
    (system : ChSystem) : result ChSystem :=
  match joints with
  | [] => Ok system
  | joint_data :: rest =>
      '(joint, system) ← create_joint_from_data joint_data body_map system;
      create_joints rest body_map system
  end.

Definition load_model_from_json (json_path : string) (geometry_dir : option string)
  : result ChSystem :=
  if negb PYCHRONO_AVAILABLE then
    Raise (User ImportError "PyChrono is not installed. Please install it first.")
  else
    model_data ← read_json fs json_path;
    let system :=
      ChSystemNSC {| vx := float 0; vy := float (-9.81); vz := float 0 |} in
    let geometry_dir :=
      match geometry_dir with
      | None => default_geometry_dir json_path
      | Some d => d
      end in
    bodies ← py_get model_data "bodies" (JArr []);
    bodies ← py_iter bodies;
    '(body_map, system) ← create_bodies bodies geometry_dir ∅ system;
    joints ← py_get model_data "joints" (JArr []);
    joints ← py_iter joints;
    create_joints joints body_map system.
End Loader.

(** ** CableExport.py *)

Record Point3D := { px : Qc; py : Qc; pz : Qc }.

(** A selected entity: a sketch line with the world geometry of its two end
    points, or anything else. *)
Inductive entity :=
| SketchLine (start_point end_point : Point3D)
| OtherEntity.

(** The answer of the save dialog. *)
Inductive dialog_result :=
| DialogOK (filename : string)
| DialogCancel.

(** What the script does to the outside world. *)
Inductive effect :=
| MessageBox (text : string)
| WriteFile (filename content : string).

Definition newline : string := String (ascii_of_nat 10) EmptyString.

Definition csv_header : string := "StartX,StartY,StartZ,EndX,EndY,EndZ".

Section CableExport.
(** [str(x)] of a float, and the text of [traceback.format_exc()]. *)
Variable float_repr : Qc -> string.
Variable format_exc : string.

Definition csv_row (start_point end_point : Point3D) : string :=
  let sx := (px start_point / float 100.0)%Qc in
  let sy := (py start_point / float 100.0)%Qc in
  let sz := (pz start_point / float 100.0)%Qc in
  let ex := (px end_point / float 100.0)%Qc in
  let ey := (py end_point / float 100.0)%Qc in
  let ez := (pz end_point / float 100.0)%Qc in
  float_repr sx +:+ "," +:+ float_repr sy +:+ "," +:+ float_repr sz +:+ "," +:+
  float_repr ex +:+ "," +:+ float_repr ey +:+ "," +:+ float_repr ez +:+ newline.

(** The loop over the selection: the text written after the header and the
    number of lines exported. *)
Fixpoint write_rows (sel : list entity) (count : nat) : string * nat :=
  match sel with
  | [] => (EmptyString, count)
  | SketchLine start_point end_point :: rest =>
      let '(text, count') := write_rows rest (S count) in
      (csv_row start_point end_point +:+ text, count')
  | OtherEntity :: rest => write_rows rest count
  end.

(** [run]: [sel] is the active selection, [dialog] the answer the save
    dialog gives when shown, [writable] whether the chosen file can be
    opened for writing. *)
Definition run (sel : list entity) (dialog : dialog_result) (writable : bool)
  : list effect :=
  match sel with
  | [] => [MessageBox "Error: Please first select the cable lines in the sketch!"]
  | _ =>
      match dialog with
      | DialogCancel => []
      | DialogOK filename =>
          if writable then
            let '(text, count) := write_rows sel 0 in
            [WriteFile filename (csv_header +:+ newline +:+ text);
             MessageBox ("Success! Coordinates of " +:+ pretty count +:+
                         " cables exported to:" +:+ newline +:+ filename)]
          else [MessageBox ("An error occurred:" +:+ newline +:+ format_exc)]
      end
  end.
End CableExport.

(** The text of a float whose value is a whole number: its digits, then
    [.0]. *)
Definition whole_float_repr (q : Qc) : string :=
  pretty (Qnum q) +:+ ".0".

(** ** utils.py: the printed summary, the configuration file and the command line *)

(** [s * n]. *)
Fixpoint py_str_mul (s : string) (n : nat) : string :=
  match n with
  | O => EmptyString
  | S n' => s +:+ py_str_mul s n'
  end.

(** What the command line does to the outside world, in order: a line
    that [print] wrote, a value that [json.dump] wrote to a file. *)
Inductive action :=
| PrintLine (text : string)
| DumpJson (path : string) (value : json).

(** How the process ends: by running off the end of the script, by
    [sys.exit(code)], or by an exception that nothing catches. *)
Inductive termination :=
| Finished
| SysExit (code : nat)
| Uncaught (e : exn).


(** The dictionary [config] of [create_export_config]. *)
Definition default_config : json :=
  JObj
    [("export_settings",
      JObj [("export_stl", JBool true);
            ("stl_quality", JStr "medium");
            ("export_mass_properties", JBool true);
            ("export_joints", JBool true);
            ("export_materials", JBool true);
            ("unit_conversion", JObj [("from", JStr "mm"); ("to", JStr "m")])]);
     ("simulation_settings",
      JObj [("gravity", JArr [JNum (float 0); JNum (float (-9.81)); JNum (float 0)]);
            ("time_step", JNum (float 0.01));
            ("solver_type", JStr "NSC");
            ("default_material",
             JObj [("friction", JNum (float 0.5));
                   ("restitution", JNum (float 0.1))])])].

Section CommandLine.
(** Texts of the interpreter: [str(e)] and [str(v)] of a value that is not
    a string. *)
Variable exn_str : exn -> string.
Variable py_repr : json -> string.
(** [f"{x:.2f}"]: the text, or the exception that the formatting raises (an
    [int] beyond the range of [float] cannot be formatted as a float). *)
Variable format_2f : Qc -> result string.
(** What [print(text)] does once the script has done [done]: [None] when
    the line is written, or the exception that [print] raises (the stream
    cannot encode the text, or cannot be written to). *)
Variable stdout : list action -> string -> option exn.
Variable fs : gmap string file.
(** Whether [open(path, 'w')] succeeds. *)
Variable writable : string -> bool.

(** A run of [print] calls after [done]: what has been done when the run
    ends, and the exception of the call that failed, if one did. *)
Fixpoint print_lines (texts : list string) (done : list action)
  : list action * option exn :=
  match texts with
  | [] => (done, None)
  | text :: rest =>
      match stdout done text with
      | Some e => (done, Some e)
      | None => print_lines rest (done ++ [PrintLine text])
      end
  end.

(** [print_model_summary], called after [done]. The total mass is formatted
    when the sixth line is built, after five lines are printed. *)
Definition print_model_summary (json_path : string) (done : list action)
  : list action * option exn :=
  match get_model_summary exn_str fs json_path with
  | Raise e => (done, Some e)
  | Ok (SummaryError message) =>
      print_lines ["Error reading model: " +:+ message] done
  | Ok (Summary s) =>
      match
        print_lines
          [py_str_mul "=" 60;
           "Model Summary";
           py_str_mul "=" 60;
           "Model Name: " +:+ py_format py_repr (summary_model_name s);
           "Units: " +:+ py_format py_repr (summary_units s)] done
      with
      | (done, Some e) => (done, Some e)
      | (done, None) =>
          match format_2f (summary_total_mass s) with
          | Raise e => (done, Some e)
          | Ok total_mass =>
              print_lines
                (["Total Mass: " +:+ total_mass +:+ " kg";
                  newline +:+ "Bodies (" +:+ pretty (summary_num_bodies s) +:+ "):"]
                 ++ map (fun body_name => "  - " +:+ py_format py_repr body_name)
                      (summary_bodies s)
                 ++ [newline +:+ "Joints (" +:+ pretty (summary_num_joints s) +:+ "):"]
                 ++ map (fun joint_name => "  - " +:+ py_format py_repr joint_name)
                      (summary_joints s)
                 ++ [py_str_mul "=" 60])%list done
          end
      end
  end.

(** [create_export_config], called after [done]; [open] fails with an
    [OSError] when the path cannot be written. *)
Definition create_export_config (output_path : string) (done : list action)
  : list action * option exn :=
  if writable output_path then
    print_lines ["Configuration file created: " +:+ output_path]
      (done ++ [DumpJson output_path default_config])
  else (done, Some (Builtin OSError)).

Definition banner : list string :=
  [py_str_mul "=" 60;
   "Fusion 360 to PyChrono - Utility Functions";
   py_str_mul "=" 60].

Definition usage : list string :=
  [newline +:+ "Usage:";
   "  python utils.py <command> [arguments]";
   newline +:+ "Commands:";
   "  validate <json_file>  - Validate exported JSON file";
   "  summary <json_file>   - Print model summary";
   "  config [output_path]  - Create default config file";
   newline +:+ "Examples:";
   "  python utils.py validate model_pychrono.json";
   "  python utils.py summary model_pychrono.json";
   "  python utils.py config export_config.json"].

(** How the script ends after a step: with the exception that the step
    raised, which nothing catches, or else as [otherwise] says. *)
Definition ends (step : list action * option exn) (otherwise : termination)
  : list action * termination :=
  match step with
  | (done, Some e) => (done, Uncaught e)
  | (done, None) => (done, otherwise)
  end.

(** The script under [if __name__ == "__main__":], for the argument vector
    [argv]: what it does and how it ends. [argv] is taken to be ASCII, where
    [lower] is [str.lower]. *)
Definition main (argv : list string) : list action * termination :=
  match print_lines banner [] with
  | (done, Some e) => (done, Uncaught e)
  | (done, None) =>
      match argv with
      | [] | [_] => ends (print_lines usage done) (SysExit 1)
      | _ :: arg1 :: rest =>
          let command := lower arg1 in
          if bool_decide (command = "validate") then
            match rest with
            | [] =>
                ends (print_lines ["Error: Please provide JSON file path"] done)
                  (SysExit 1)
            | json_path :: _ =>
                match validate_json_export exn_str py_repr fs json_path with
                | Ok (true, message) =>
                    ends (print_lines ["✓ Valid export file: " +:+ json_path] done)
                      Finished
                | Ok (false, message) =>
                    ends (print_lines ["✗ Invalid export file: " +:+ message] done)
                      (SysExit 1)
                | Raise e => (done, Uncaught e)
                end
            end
          else if bool_decide (command = "summary") then
            match rest with
            | [] =>
                ends (print_lines ["Error: Please provide JSON file path"] done)
                  (SysExit 1)
            | json_path :: _ => ends (print_model_summary json_path done) Finished
            end
          else if bool_decide (command = "config") then
            let output_path :=
              match rest with
              | output_path :: _ => output_path
              | [] => "export_config.json"
              end in
            ends (create_export_config output_path done) Finished
          else
            ends (print_lines ["Error: Unknown command '" +:+ command +:+ "'"] done)
              (SysExit 1)
      end
  end.
End CommandLine.

(** ** ExportToPyChrono.py *)

(** *** The part of the CAD host that the exporter reads *)

(** The host is outside the repository. Its objects are records of the
    attributes that the script reads; reading an attribute raises only
    where a variant says so. *)

(** What [getXYZMomentsOfInertia] gives: an exception, a false return value,
    or the six moments. *)
Inductive moments :=
| MomentsRaise
| MomentsUnavailable
| Moments (xx yy zz xy yz xz : Qc).

(** [body.physicalProperties]: a false value, an object whose attributes
    raise when read, or the properties. *)
Inductive physical_properties :=
| NoProperties
| PropertiesRaise
| Properties (mass volume area density : Qc) (centerOfMass : Point3D)
             (inertia : moments).

Record Material := { material_name : string; material_id : string }.

Record BRepBody :=
  { brep_name : string;
    brep_isVisible : bool;
    brep_isSolid : bool;
    brep_physicalProperties : physical_properties;
    brep_material : option Material }.

(** An occurrence, with the translation of its transform. *)
Record Occurrence :=
  { occ_name : string;
    occ_bodies : list BRepBody;
    occ_translation : Point3D }.

(** A joint: [joint_type] is the text of
    [jointMotion.jointType.toString()]; the names of the two occurrences
    when the joint has them; the origin of [geometryOrOriginOne] when both
    are there. *)
Record Joint :=
  { joint_name : string;
    joint_type : string;
    joint_isSuppressed : bool;
    joint_occurrenceOne : option string;
    joint_occurrenceTwo : option string;
    joint_origin : option Point3D }.

Record Component :=
  { comp_name : string;
    comp_allOccurrences : list Occurrence;
    comp_bodies : list BRepBody;
    comp_allJoints : list Joint }.

(** *** The exporter *)

Definition point_to_json (p : Point3D) : json :=
  JObj [("x", JNum (px p)); ("y", JNum (py p)); ("z", JNum (pz p))].

(** The value of [body_data['mass_properties']] when [extract_body_data]
    returns: the empty dictionary unless the properties were read; the
    moments are added when the host returns them. *)
Definition mass_properties_to_json (p : physical_properties) : json :=
  match p with
  | NoProperties | PropertiesRaise => JObj []
  | Properties mass volume area density centerOfMass inertia =>
      JObj ([("mass", JNum mass);
             ("volume", JNum volume);
             ("area", JNum area);
             ("density", JNum density);
             ("center_of_mass", point_to_json centerOfMass)]
            ++ match inertia with
               | Moments xx yy zz xy yz xz =>
                   [("moments_of_inertia",
                     JObj [("xx", JNum xx); ("yy", JNum yy); ("zz", JNum zz);
                           ("xy", JNum xy); ("yz", JNum yz); ("xz", JNum xz)])]
               | MomentsRaise | MomentsUnavailable => []
               end)%list
  end.

Definition extract_body_data (body : BRepBody) (occurrence : option Occurrence) : json :=
  JObj ([("name", JStr (brep_name body));
         ("is_visible", JBool (brep_isVisible body));
         ("mass_properties", mass_properties_to_json (brep_physicalProperties body));
         ("material",
          match brep_material body with
          | Some m => JObj [("name", JStr (material_name m)); ("id", JStr (material_id m))]
          | None => JNull
          end);
         ("geometry_file", JStr (brep_name body +:+ ".stl"))]
        ++ match occurrence with
           | Some occ =>
               [("transform",
                 JObj [("translation", point_to_json (occ_translation occ))])]
           | None => []
           end)%list.

Definition extract_joint_data (joint : Joint) : json :=
  JObj ([("name", JStr (joint_name joint));
         ("type", JStr (joint_type joint));
         ("is_suppressed", JBool (joint_isSuppressed joint))]
        ++ match joint_occurrenceOne joint with
           | Some name => [("body_one", JStr name)]
           | None => []
           end
        ++ match joint_occurrenceTwo joint with
           | Some name => [("body_two", JStr name)]
           | None => []
           end
        ++ match joint_origin joint with
           | Some origin => [("origin", point_to_json origin)]
           | None => []
           end)%list.

(** The solid bodies in the order of the two loops: those of the
    occurrences, each with its occurrence, then those of the root. *)
Definition solid_bodies (rootComp : Component) : list (BRepBody * option Occurrence) :=
  (flat_map (fun occurrence =>
               map (fun body => (body, Some occurrence))
                 (List.filter brep_isSolid (occ_bodies occurrence)))
     (comp_allOccurrences rootComp)
   ++ map (fun body => (body, None)) (List.filter brep_isSolid (comp_bodies rootComp)))%list.

(** [extract_model_data]; its argument [design] is not read. A body or
    joint dictionary is never empty, so each one is appended. *)
Definition extract_model_data (rootComp : Component) : json :=
  JObj [("model_name", JStr (comp_name rootComp));
        ("bodies",
         JArr (map (fun b => extract_body_data b.1 b.2) (solid_bodies rootComp)));
        ("joints", JArr (map extract_joint_data (comp_allJoints rootComp)));
        ("materials", JArr []);
        ("metadata",
         JObj [("exported_from", JStr "Autodesk Fusion 360");
               ("export_script", JStr "ExportToPyChrono.py");
               ("units", JStr "mm")])].

(** The paths [stl_path] under which [export_geometries] asks the host to
    write a mesh, in order: one for each solid body, under the directory
    [geometries]. *)
Definition export_geometries (rootComp : Component) (output_dir : string) : list string :=
  let geom_dir := path_join output_dir "geometries" in
  map (fun b => path_join geom_dir (brep_name b.1 +:+ ".stl")) (solid_bodies rootComp).

(** The path [output_path] of the document that [run] writes. *)
Definition export_json_path (rootComp : Component) (output_dir : string) : string :=
  path_join output_dir (comp_name rootComp +:+ "_pychrono.json").

(** ** Vocabulary for the statements *)

(** The fields of a body record that can give the position: the translation
    under [transform] and the centre of mass under [mass_properties], each
    when present and not empty. *)
Definition translation_of (body_data : list (string * json)) : option json :=
  match dict_lookup "transform" body_data with
  | Some (JObj transform) =>
      match dict_lookup "translation" transform with
      | Some translation => if truthy translation then Some translation else None
      | None => None
      end
  | _ => None
  end.

Definition center_of_mass_of (body_data : list (string * json)) : option json :=
  match dict_lookup "mass_properties" body_data with
  | Some (JObj mass_props) =>
      match dict_lookup "center_of_mass" mass_props with
      | Some com => if truthy com then Some com else None
      | None => None
      end
  | _ => None
  end.

(** The sketch lines of a selection, in selection order. *)
Fixpoint sketch_lines (sel : list entity) : list (Point3D * Point3D) :=
  match sel with
  | [] => []
  | SketchLine start_point end_point :: rest =>
      (start_point, end_point) :: sketch_lines rest
  | OtherEntity :: rest => sketch_lines rest
  end.

(** Whether a body record has a mass entry under [mass_properties]. *)
Definition has_mass (body_data : json) : bool :=
  match body_data with
  | JObj kvs =>
      match dict_lookup "mass_properties" kvs with
      | Some (JObj mass_props) => bool_decide (is_Some (dict_lookup "mass" mass_props))
      | _ => false
      end
  | _ => false
  end.

(** The mass that the loader gives to a body record without a mass entry:
    the default [1.0] of [mass_props.get('mass', 1.0)] when
    [mass_properties] is not empty, the mass of a fresh body otherwise. *)
Definition loader_default_mass (body_data : json) : Qc :=
  match body_data with
  | JObj kvs =>
      if truthy (default (JObj []) (dict_lookup "mass_properties" kvs))
      then float 1.0
      else body_mass ChBody_new
  | _ => body_mass ChBody_new
  end.

(** What the loader counts for a body record beyond its mass entry. *)
Definition mass_added_by_loader (body_data : json) : Qc :=
  if has_mass body_data then Q2Qc 0 else loader_default_mass body_data.

(** The sum of a list of numbers. *)
Definition Qc_sum (l : list Qc) : Qc := foldr Qcplus (Q2Qc 0) l.

(** The mass that [get_model_summary] counts for a body record. *)
Definition summary_mass (body_data : json) : result Qc :=
  mass_props ← py_get body_data "mass_properties" (JObj []);
  mass ← py_get mass_props "mass" (JNum (float 0));
  as_number mass.

(** The mass that the exporter writes for a body, and zero when it writes
    none. *)
Definition exported_mass (body : BRepBody) : Qc :=
  match brep_physicalProperties body with
  | Properties mass _ _ _ _ _ => mass
  | NoProperties | PropertiesRaise => Q2Qc 0
  end.

(** A computation that raises, if at all, an exception that
    [except Exception] catches. *)
Definition ordinary {A} (m : result A) : Prop :=
  forall e, m = Raise e -> caught_by e Exception = true.

(** ** Sample inputs *)

Definition num (z : Z) : json := JNum (Q2Qc (inject_Z z)).

Definition body_A : json :=
  JObj [("name", JStr "A"); ("is_visible", JBool true);
        ("mass_properties", JObj [("mass", num 2)])].

Definition body_B : json :=
  JObj [("name", JStr "B"); ("is_visible", JBool true);
        ("mass_properties", JObj [("mass", num 3)])].

Definition hinge : list (string * json) :=
  [("name", JStr "hinge"); ("type", JStr "RevoluteJointType");
   ("is_suppressed", JBool false);
   ("body_one", JStr "A"); ("body_two", JStr "B");
   ("origin", JObj [("x", num 1000); ("y", num 2000); ("z", num 3000)])].

Definition pendulum : list (string * json) :=
  [("model_name", JStr "pendulum");
   ("bodies", JArr [body_A; body_B]);
   ("joints", JArr [JObj hinge]);
   ("materials", JArr []);
   ("metadata", JObj [("units", JStr "mm")])].

(** A joint whose second body is not in the document. *)
Definition dangling : list (string * json) :=
  [("name", JStr "dangling"); ("type", JStr "RigidJointType");
   ("body_one", JStr "A"); ("body_two", JStr "C")].

(** A body as the exporter writes it for an occurrence: a centre of mass and
    a translation. *)
Definition occurrence_body : list (string * json) :=
  [("name", JStr "arm");
   ("mass_properties",
    JObj [("mass", num 2);
          ("center_of_mass", JObj [("x", num 1000); ("y", num 0); ("z", num 0)])]);
   ("transform",
    JObj [("translation", JObj [("x", num 2000); ("y", num 0); ("z", num 0)])])].

(** A body without the key [mass_properties]. *)
Definition bare_body : list (string * json) :=
  [("name", JStr "bare"); ("is_visible", JBool true)].

(** The pendulum with the dangling joint added before the hinge. *)
Definition pendulum_with_dangling : list (string * json) :=
  [("model_name", JStr "pendulum");
   ("bodies", JArr [body_A; body_B]);
   ("joints", JArr [JObj dangling; JObj hinge]);
   ("metadata", JObj [("units", JStr "mm")])].

(** A document with a body entry that is a number, and one with a body entry
    that is a list of strings. *)
Definition number_body_document : list (string * json) :=
  [("model_name", JStr "m"); ("bodies", JArr [num 7]);
   ("joints", JArr []); ("metadata", JObj [])].

Definition list_body_document : list (string * json) :=
  [("model_name", JStr "m");
   ("bodies", JArr [JArr [JStr "name"; JStr "mass_properties"]]);
   ("joints", JArr []); ("metadata", JObj [])].

(** A document without [joints] and [metadata], and one whose [bodies] is an
    object. *)
Definition no_joints_document : list (string * json) :=
  [("model_name", JStr "m"); ("bodies", JArr [])].

Definition bodies_object_document : list (string * json) :=
  [("model_name", JStr "m"); ("bodies", JObj []);
   ("joints", JArr []); ("metadata", JObj [])].

Definition sample_fs : gmap string file :=
  list_to_map
    [("model.json", Document (JObj pendulum));
     ("no_joints.json", Document (JObj no_joints_document));
     ("bodies_object.json", Document (JObj bodies_object_document));
     ("dangling.json", Document (JObj pendulum_with_dangling));
     ("number_body.json", Document (JObj number_body_document));
     ("list_body.json", Document (JObj list_body_document));
     ("scalar.json", Document (num 42));
     ("broken.json", Malformed)].

(** Stand-ins for the texts that the interpreter supplies. *)
Definition sample_exn_str (e : exn) : string :=
  match e with
  | User _ msg => msg
  | Builtin _ => "<text of the exception>"
  end.

Definition sample_py_repr (v : json) : string := "<text of the value>".

Definition cable : entity :=
  SketchLine {| px := Q2Qc 100; py := Q2Qc 200; pz := Q2Qc 300 |}
             {| px := Q2Qc 400; py := Q2Qc 500; pz := Q2Qc 600 |}.

(** Stand-ins for the text of a number under the format [.2f], for a
    standard output that takes every line, and for one that cannot encode
    the check mark. *)
Definition sample_format_2f (q : Qc) : result string := Ok "<two decimals>".

Definition any_stdout (done : list action) (text : string) : option exn := None.

Definition ascii_stdout (done : list action) (text : string) : option exn :=
  if String.prefix "✓" text then Some (Builtin UnicodeEncodeError) else None.

(** A document whose second body has no [mass_properties], one whose joint
    has no [type], and one whose second body has no [name]. *)
Definition massless_document : list (string * json) :=
  [("model_name", JStr "m"); ("bodies", JArr [body_A; JObj bare_body]);
   ("joints", JArr []); ("metadata", JObj [])].

Definition typeless_document : list (string * json) :=
  [("model_name", JStr "m"); ("bodies", JArr [body_A; body_B]);
   ("joints", JArr [JObj hinge; JObj [("name", JStr "loose")]]);
   ("metadata", JObj [])].

Definition nameless_document : list (string * json) :=
  [("model_name", JStr "m");
   ("bodies", JArr [body_A; JObj [("mass_properties", JObj [("mass", num 5)])]; body_B]);
   ("joints", JArr []); ("metadata", JObj [])].

Definition faulty_fs : gmap string file :=
  list_to_map
    [("massless.json", Document (JObj massless_document));
     ("typeless.json", Document (JObj typeless_document));
     ("nameless.json", Document (JObj nameless_document))].

(** A design as the host presents it: an occurrence [arm] with a solid body
    of the same name and a surface body, a solid body [base] in the root,
    and a revolute joint between the occurrences [arm] and [base]. *)
Definition arm_body : BRepBody :=
  {| brep_name := "arm";
     brep_isVisible := true;
     brep_isSolid := true;
     brep_physicalProperties :=
       Properties (Q2Qc 2) (Q2Qc 250) (Q2Qc 300) (Q2Qc 0.008)
         {| px := Q2Qc 1000; py := Q2Qc 0; pz := Q2Qc 0 |}
         (Moments (Q2Qc 4) (Q2Qc 5) (Q2Qc 6) (Q2Qc 0) (Q2Qc 0) (Q2Qc 0));
     brep_material := Some {| material_name := "Steel"; material_id := "PrismMaterial-018" |} |}.

Definition skin_body : BRepBody :=
  {| brep_name := "skin";
     brep_isVisible := true;
     brep_isSolid := false;
     brep_physicalProperties := NoProperties;
     brep_material := None |}.

Definition base_body : BRepBody :=
  {| brep_name := "base";
     brep_isVisible := true;
     brep_isSolid := true;
     brep_physicalProperties := PropertiesRaise;
     brep_material := None |}.

Definition crank : Component :=
  {| comp_name := "crank";
     comp_allOccurrences :=
       [ {| occ_name := "arm";
            occ_bodies := [arm_body; skin_body];
            occ_translation := {| px := Q2Qc 2000; py := Q2Qc 0; pz := Q2Qc 0 |} |} ];
     comp_bodies := [base_body];
     comp_allJoints :=
       [ {| joint_name := "pin";
            joint_type := "RevoluteJointType";
            joint_isSuppressed := false;
            joint_occurrenceOne := Some "arm";
            joint_occurrenceTwo := Some "base";
            joint_origin := Some {| px := Q2Qc 1000; py := Q2Qc 2000; pz := Q2Qc 3000 |} |} ] |}.

(** The folder [out] after the export of [crank]: the document and one mesh
    file for each solid body. *)
Definition exported_fs : gmap string file :=
  list_to_map
    ((export_json_path crank "out", Document (extract_model_data crank))
     :: map (fun stl_path => (stl_path, Malformed)) (export_geometries crank "out")).

(** * Properties *)

(** ** The error monad *)

Lemma bind_Ok {A B} (m : result A) (f : A -> result B) (b : B) :
  m ≫= f = Ok b -> exists a, m = Ok a /\ f a = Ok b.
Proof. destruct m as [a|e]; simpl; [eauto | discriminate]. Qed.

Tactic Notation "bind_inv" hyp(H) "as" ident(a) ident(Ha) :=
  apply bind_Ok in H as (a & Ha & H).

Lemma ordinary_Ok {A} (a : A) : ordinary (Ok a).
Proof. intros e H. discriminate H. Qed.

Lemma ordinary_bind {A B} (m : result A) (f : A -> result B) :
  ordinary m -> (forall a, m = Ok a -> ordinary (f a)) -> ordinary (m ≫= f).
Proof.
  intros Hm Hf e. destruct m as [a|e']; simpl.
  - by apply Hf.
  - intros [= ->]. by apply Hm.
Qed.

(** ** Python values *)

Lemma py_get_object kvs k dflt :
  py_get (JObj kvs) k dflt = Ok (default dflt (dict_lookup k kvs)).
Proof. reflexivity. Qed.

Lemma ordinary_py_in k v : ordinary (py_in k v).
Proof. intros e. destruct v; simpl; intros [= <-]; reflexivity. Qed.

Lemma ordinary_py_getitem d k : ordinary (py_getitem d k).
Proof.
  intros e. destruct d; simpl; try (intros [= <-]; reflexivity).
  destruct (dict_lookup k kvs); intros [= <-]; reflexivity.
Qed.

Lemma ordinary_py_get d k v : ordinary (py_get d k v).
Proof. intros e. destruct d; simpl; intros [= <-]; reflexivity. Qed.

Lemma ordinary_read_json fs path : ordinary (read_json fs path).
Proof.
  intros e. unfold read_json.
  destruct (fs !! path) as [[]|]; intros [= <-]; reflexivity.
Qed.

Create HintDb ordinary.
#[local] Hint Resolve ordinary_Ok ordinary_py_in ordinary_py_getitem ordinary_py_get
  ordinary_read_json : ordinary.

Ltac ordinary_step :=
  first
    [ apply ordinary_bind; [solve [auto with ordinary] | intros ? ?]
    | match goal with |- ordinary (if ?b then _ else _) => destruct b end
    | match goal with |- ordinary (match ?x with _ => _ end) => destruct x end
    | solve [auto with ordinary] ].

Lemma truediv_nonzero (a b : Qc) : b <> Q2Qc 0 -> truediv a b = Ok (a / b)%Qc.
Proof. intros H. unfold truediv. by rewrite bool_decide_eq_false_2. Qed.

(** ** convert_units *)

Lemma to_meters_supported (u : string) (f : Qc) :
  to_meters !! u = Some f -> u ∈ supported_units.
Proof.
  intros H. apply elem_of_list_to_map_2 in H.
  unfold supported_units.
  repeat (apply elem_of_cons in H as [H|H]; [inversion H; subst; set_solver|]).
  by apply elem_of_nil in H.
Qed.

Lemma supported_to_meters (u : string) :
  u ∈ supported_units -> exists f, to_meters !! u = Some f /\ f <> Q2Qc 0.
Proof.
  unfold supported_units. intros H.
  repeat (apply elem_of_cons in H as [->|H];
          [eexists; split; [reflexivity | intros E; discriminate E]|]).
  by apply elem_of_nil in H.
Qed.

Lemma convert_units_supported (x : Qc) (A B : string) :
  A ∈ supported_units -> B ∈ supported_units ->
  exists fa fb,
    to_meters !! A = Some fa /\ to_meters !! B = Some fb /\
    fa <> Q2Qc 0 /\ fb <> Q2Qc 0 /\
    convert_units x A B = Ok (x * fa / fb)%Qc.
Proof.
  intros [fa [Ha Hna]]%supported_to_meters [fb [Hb Hnb]]%supported_to_meters.
  exists fa, fb. repeat split; try done.
  unfold convert_units. rewrite Ha, Hb. simpl. by apply truediv_nonzero.
Qed.

Lemma convert_units_unsupported (x : Qc) (A B : string) :
  A ∉ supported_units \/ B ∉ supported_units ->
  convert_units x A B =
    Raise (User ValueError ("Unsupported unit conversion: " +:+ A +:+ " to " +:+ B)).
Proof.
  intros H. unfold convert_units.
  destruct (to_meters !! A) as [fa|] eqn:Ha; [|done].
  destruct (to_meters !! B) as [fb|] eqn:Hb; [|done].
  apply to_meters_supported in Ha, Hb. tauto.
Qed.

(** C4. Converting a value from unit A to unit B and back from B to A gives
    the value again, for all units A and B of the table (mm, cm, m, in, ft);
    over the rationals the equality is exact. *)
Theorem convert_units_round_trip (x : Qc) (A B : string) :
  A ∈ supported_units -> B ∈ supported_units ->
  (y ← convert_units x A B; convert_units y B A) = Ok x.
Proof.
  intros HA HB.
  destruct (convert_units_supported x A B HA HB)
    as (fa & fb & Ha & Hb & Hna & Hnb & ->).
  simpl. unfold convert_units. rewrite Ha, Hb. simpl.
  rewrite truediv_nonzero by done. f_equal. field. done.
Qed.

Lemma convert_units_round_trip_witness :
  (y ← convert_units (Q2Qc 5) "in" "ft"; convert_units y "ft" "in") = Ok (Q2Qc 5).
Proof.
  apply (convert_units_round_trip (Q2Qc 5) "in" "ft");
    unfold supported_units; set_solver.
Defined.

Example one_inch_in_mm : convert_units (Q2Qc 1) "in" "mm" = Ok (Q2Qc 25.4).
Proof. vm_compute. f_equal. apply Qc_is_canon. reflexivity. Qed.

Example furlong_is_unsupported :
  convert_units (Q2Qc 1) "furlong" "m" =
    Raise (User ValueError "Unsupported unit conversion: furlong to m").
Proof. reflexivity. Qed.

Section ConvertUnitsOnFloats.
Import PrimFloat.
#[local] Set Warnings "-inexact-float".

(** C5, as the spec states it, does not hold of the function on Python's
    numbers, and the statement proved is the amended one: [convert_units]
    raises a [ValueError] whenever one of the two unit names is outside the
    table. For two units of the table and a [float] it never raises and
    returns the product of the value and the source factor, divided by the
    target factor, each of the two operations rounded to binary64. An [int]
    is first converted to [float], which raises an [OverflowError] when the
    [int] is beyond the range of [float]. So the function raises exactly
    when a unit is outside the table or the value is such an [int]. *)
Theorem convert_units_raises_or_rounds
    (value : number) (from_unit to_unit : string) :
  (from_unit ∉ supported_units \/ to_unit ∉ supported_units ->
   Binary64.convert_units value from_unit to_unit =
     Raise (User ValueError
              ("Unsupported unit conversion: " +:+ from_unit +:+ " to " +:+ to_unit))) /\
  (from_unit ∈ supported_units -> to_unit ∈ supported_units ->
   exists from_factor to_factor,
     Binary64.to_meters !! from_unit = Some from_factor /\
     Binary64.to_meters !! to_unit = Some to_factor /\
     Binary64.convert_units value from_unit to_unit =
       match value with
       | PyFloat x => Ok (PrimFloat.div (PrimFloat.mul x from_factor) to_factor)
       | PyInt z =>
           x ← Binary64.float_of_int z;
           Ok (PrimFloat.div (PrimFloat.mul x from_factor) to_factor)
       end) /\
  (raises (Binary64.convert_units value from_unit to_unit) <->
   from_unit ∉ supported_units \/ to_unit ∉ supported_units \/
   exists z, value = PyInt z /\
             Binary64.float_of_int z = Raise (Builtin OverflowError)).
Proof.
  assert (Hsupported : forall u, u ∈ supported_units ->
            exists f, Binary64.to_meters !! u = Some f /\ PrimFloat.is_zero f = false).
  { unfold supported_units. intros u H.
    repeat (apply elem_of_cons in H as [->|H];
            [eexists; split; reflexivity|]).
    by apply elem_of_nil in H. }
  assert (Hkeys : forall u f, Binary64.to_meters !! u = Some f -> u ∈ supported_units).
  { intros u f H. apply elem_of_list_to_map_2 in H. unfold supported_units.
    repeat (apply elem_of_cons in H as [H|H];
            [injection H as -> _;
             repeat first [apply list_elem_of_here | apply list_elem_of_further]|]).
    by apply elem_of_nil in H. }
  assert (Hunsupported :
            from_unit ∉ supported_units \/ to_unit ∉ supported_units ->
            Binary64.convert_units value from_unit to_unit =
              Raise (User ValueError
                       ("Unsupported unit conversion: " +:+ from_unit +:+ " to " +:+ to_unit))).
  { intros H. unfold Binary64.convert_units.
    destruct (Binary64.to_meters !! from_unit) as [fa|] eqn:Ha; [|done].
    destruct (Binary64.to_meters !! to_unit) as [fb|] eqn:Hb; [|done].
    apply Hkeys in Ha, Hb. tauto. }
  assert (Hfloat : forall z e, Binary64.float_of_int z = Raise e ->
                               e = Builtin OverflowError).
  { intros z e. unfold Binary64.float_of_int.
    by destruct (SpecFloat.binary_normalize _ _ _ _ _); intros [= <-]. }
  split; [exact Hunsupported|].
  destruct (decide (from_unit ∈ supported_units)) as [Hf|Hf];
    [destruct (decide (to_unit ∈ supported_units)) as [Ht|Ht]|].
  - destruct (Hsupported _ Hf) as (fa & Ha & _).
    destruct (Hsupported _ Ht) as (fb & Hb & Hnz).
    assert (Heq : Binary64.convert_units value from_unit to_unit =
                  match value with
                  | PyFloat x => Ok (PrimFloat.div (PrimFloat.mul x fa) fb)
                  | PyInt z =>
                      x ← Binary64.float_of_int z;
                      Ok (PrimFloat.div (PrimFloat.mul x fa) fb)
                  end).
    { unfold Binary64.convert_units, Binary64.py_mul, Binary64.truediv.
      rewrite Ha, Hb.
      destruct value as [z|x]; cbn [Binary64.as_float mbind result_bind].
      - destruct (Binary64.float_of_int z); cbn [mbind result_bind]; [|done].
        by rewrite Hnz.
      - by rewrite Hnz. }
    split; [intros _ _; by exists fa, fb|].
    rewrite Heq. split.
    + destruct value as [z|x]; [|done].
      destruct (Binary64.float_of_int z) as [x|e] eqn:Hz; [done|].
      intros _. right. right. exists z. split; [done|].
      by rewrite (Hfloat _ _ Hz) in Hz.
    + intros [?|[?|(z & -> & ->)]]; done.
  - split; [tauto|]. rewrite Hunsupported by tauto. cbn. tauto.
  - split; [tauto|]. rewrite Hunsupported by tauto. cbn. tauto.
Qed.

Lemma convert_units_raises_or_rounds_witness :
  raises (Binary64.convert_units (PyFloat 1) "mm" "yard") /\
  (exists from_factor to_factor,
     Binary64.to_meters !! "in" = Some from_factor /\
     Binary64.to_meters !! "ft" = Some to_factor /\
     Binary64.convert_units (PyFloat 3) "in" "ft" =
       Ok (PrimFloat.div (PrimFloat.mul 3 from_factor) to_factor)) /\
  Binary64.convert_units (PyInt 3) "in" "ft" = Ok 0x1.ffffffffffffep-3%float.
Proof.
  split; [|split].
  - apply (convert_units_raises_or_rounds (PyFloat 1) "mm" "yard"). right. left.
    unfold supported_units.
    repeat (apply not_elem_of_cons; split; [discriminate|]). apply not_elem_of_nil.
  - apply (convert_units_raises_or_rounds (PyFloat 3) "in" "ft");
      unfold supported_units;
      repeat first [apply list_elem_of_here | apply list_elem_of_further].
  - reflexivity.
Defined.

(** C5, as the spec states it, does not hold. Three inches in feet: the
    function returns 0.24999999999999994, the value times the quotient of
    the factors is 0.25. And the [int] 10^400 in millimetres, two units of
    the table, raises an [OverflowError]. *)
Lemma convert_units_not_exact_nor_total :
  Binary64.to_meters !! "in" = Some 0.0254%float /\
  Binary64.to_meters !! "ft" = Some 0.3048%float /\
  Binary64.convert_units (PyFloat 3) "in" "ft" = Ok 0x1.ffffffffffffep-3%float /\
  PrimFloat.mul 3 (PrimFloat.div 0.0254 0.3048) = 0.25%float /\
  0x1.ffffffffffffep-3%float <> 0.25%float /\
  "mm" ∈ supported_units /\ "m" ∈ supported_units /\
  Binary64.convert_units (PyInt (10 ^ 400)) "mm" "m" = Raise (Builtin OverflowError).
Proof.
  split; [reflexivity|]. split; [reflexivity|]. split; [reflexivity|].
  split; [reflexivity|]. split; [|split; [|split]].
  - intros H. apply (f_equal (fun x => PrimFloat.eqb x 0.25)) in H.
    vm_compute in H. discriminate H.
  - unfold supported_units.
    repeat first [apply list_elem_of_here | apply list_elem_of_further].
  - unfold supported_units.
    repeat first [apply list_elem_of_here | apply list_elem_of_further].
  - vm_compute. reflexivity.
Qed.

(** The same conversion over exact rationals and on floats. *)
Example three_inches_in_feet :
  convert_units (Q2Qc 3) "in" "ft" = Ok (Q2Qc 0.25) /\
  Binary64.convert_units (PyFloat 3) "in" "ft" = Ok 0.24999999999999994%float.
Proof. split; [vm_compute; f_equal; apply Qc_is_canon; reflexivity | reflexivity]. Qed.
End ConvertUnitsOnFloats.

(** ** validate_json_export *)

(** The first element of a list that fails a decidable test. *)
Lemma first_missing (present : string -> Prop) `{!forall f, Decision (present f)}
    (fields : list string) :
  (exists g, g ∈ fields /\ ~ present g) ->
  exists pre f post,
    fields = (pre ++ f :: post)%list /\ (forall g, g ∈ pre -> present g) /\ ~ present f.
Proof.
  induction fields as [|a fields IH]; intros (g & Hg & Hn).
  - by apply elem_of_nil in Hg.
  - destruct (decide (present a)) as [Ha|Ha].
    + destruct IH as (pre & f & post & -> & Hpre & Hf).
      { apply elem_of_cons in Hg as [->|Hg]; [done|eauto]. }
      exists (a :: pre), f, post. split; [done|]. split; [|done].
      intros h [->|Hh]%elem_of_cons; auto.
    + exists [], a, fields. split; [done|]. split; [|done].
      intros h Hh. by apply elem_of_nil in Hh.
Qed.

Lemma check_required_first_missing pre f post kvs :
  (forall g, g ∈ pre -> is_Some (dict_lookup g kvs)) ->
  dict_lookup f kvs = None ->
  check_required (pre ++ f :: post)%list (JObj kvs) =
    Ok (Some (false, missing_field_message f)).
Proof.
  intros Hpre Hf. induction pre as [|a pre IH]; simpl.
  - rewrite Hf. rewrite bool_decide_eq_false_2; [done|]. by intros [? ?].
  - rewrite bool_decide_eq_true_2 by (apply Hpre; left). simpl.
    apply IH. intros g Hg. apply Hpre. by right.
Qed.

Lemma check_required_all_present fields kvs :
  (forall g, g ∈ fields -> is_Some (dict_lookup g kvs)) ->
  check_required fields (JObj kvs) = Ok None.
Proof.
  induction fields as [|a fields IH]; intros H; simpl; [done|].
  rewrite bool_decide_eq_true_2 by (apply H; left). simpl.
  apply IH. intros g Hg. apply H. by right.
Qed.

Lemma ordinary_check_required fields data : ordinary (check_required fields data).
Proof. induction fields as [|f fields IH]; simpl; repeat ordinary_step. Qed.

Section ValidateFacts.
Variable exn_str : exn -> string.
Variable py_repr : json -> string.
Variable fs : gmap string file.

Lemma ordinary_check_bodies bodies :
  forall i, ordinary (check_bodies py_repr i bodies).
Proof.
  induction bodies as [|b bodies IH]; intros i; simpl; repeat ordinary_step.
Qed.

Lemma ordinary_check_joints joints :
  forall i, ordinary (check_joints py_repr i joints).
Proof.
  induction joints as [|b joints IH]; intros i; simpl; repeat ordinary_step.
Qed.

#[local] Hint Resolve ordinary_check_required ordinary_check_bodies
  ordinary_check_joints : ordinary.

(** Every exception that the [try] block can raise derives from
    [Exception]. *)
Lemma ordinary_validate_try path : ordinary (validate_try py_repr fs path).
Proof. unfold validate_try. repeat ordinary_step. Qed.

Lemma validate_json_export_cases path :
  match validate_try py_repr fs path with
  | Ok out => validate_json_export exn_str py_repr fs path = Ok out
  | Raise e =>
      exists message,
        validate_json_export exn_str py_repr fs path = Ok (false, message)
  end.
Proof.
  unfold validate_json_export.
  pose proof (ordinary_validate_try path) as H.
  destruct (validate_try py_repr fs path) as [out|e]; [done|].
  specialize (H e eq_refl). rewrite H.
  destruct (caught_by e JSONDecodeError); [eauto|].
  destruct (caught_by e FileNotFoundError); eauto.
Qed.

(** C7. A document that lacks one of the keys model_name, bodies, joints,
    metadata fails validation, and the message names the first key, in
    that order, that is missing; the answer is fixed by that key alone,
    whatever the rest of the document holds. *)
Theorem missing_field_named_first (path : string) (kvs : list (string * json)) :
  fs !! path = Some (Document (JObj kvs)) ->
  (exists g, g ∈ required_fields /\ dict_lookup g kvs = None) ->
  exists pre field post,
    required_fields = (pre ++ field :: post)%list /\
    (forall g, g ∈ pre -> is_Some (dict_lookup g kvs)) /\
    dict_lookup field kvs = None /\
    validate_json_export exn_str py_repr fs path =
      Ok (false, "Missing required field: " +:+ field).
Proof.
  intros Hfile (g & Hg & Hnone).
  destruct (first_missing (fun f => is_Some (dict_lookup f kvs)) required_fields)
    as (pre & f & post & Heq & Hpre & Hf).
  { exists g. split; [done|]. rewrite Hnone. by intros [? ?]. }
  apply eq_None_not_Some in Hf.
  exists pre, f, post. repeat split; try done.
  unfold validate_json_export, validate_try, read_json. rewrite Hfile, Heq.
  cbn [mbind result_bind].
  by rewrite (check_required_first_missing pre f post kvs Hpre Hf).
Qed.

(** C8. A document that has the four required keys and whose bodies value
    is not a list fails validation with the message "bodies must be a
    list", which is none of the missing-field messages. *)
Theorem bodies_not_a_list (path : string) (kvs : list (string * json))
    (bodies : json) :
  fs !! path = Some (Document (JObj kvs)) ->
  (forall g, g ∈ required_fields -> is_Some (dict_lookup g kvs)) ->
  dict_lookup "bodies" kvs = Some bodies ->
  is_list bodies = false ->
  validate_json_export exn_str py_repr fs path = Ok (false, "bodies must be a list") /\
  forall field, "bodies must be a list" <> missing_field_message field.
Proof.
  intros Hfile Hall Hb Hl. split; [|intros field; discriminate].
  unfold validate_json_export, validate_try, read_json. rewrite Hfile.
  cbn [mbind result_bind].
  rewrite (check_required_all_present _ _ Hall). simpl. rewrite Hb.
  by destruct bodies.
Qed.

(** C10. [validate_json_export] returns a pair of a boolean and a message
    for every path and every state of the file, and lets no exception
    out: a missing file, text that is not JSON and a top-level value that
    is no container each give a failure pair. *)
Theorem validate_json_export_total (path : string) :
  (exists is_valid message,
      validate_json_export exn_str py_repr fs path = Ok (is_valid, message)) /\
  (fs !! path = None ->
   validate_json_export exn_str py_repr fs path =
     Ok (false, "File not found: " +:+ path)) /\
  (fs !! path = Some Malformed ->
   validate_json_export exn_str py_repr fs path =
     Ok (false, "JSON parsing error: " +:+ exn_str (Builtin JSONDecodeError))) /\
  (forall v, fs !! path = Some (Document v) ->
     match v with JNull | JBool _ | JNum _ => True | _ => False end ->
     validate_json_export exn_str py_repr fs path =
       Ok (false, "Validation error: " +:+ exn_str (Builtin TypeError))).
Proof.
  split; [|split; [|split]].
  - pose proof (validate_json_export_cases path) as H.
    destruct (validate_try py_repr fs path) as [[b m]|e]; [eauto|].
    destruct H as [m H]. eauto.
  - intros H. unfold validate_json_export, validate_try, read_json. by rewrite H.
  - intros H. unfold validate_json_export, validate_try, read_json. by rewrite H.
  - intros v H Hv. unfold validate_json_export, validate_try, read_json. rewrite H.
    destruct v; done.
Qed.
End ValidateFacts.

Lemma missing_field_named_first_witness :
  exists pre field post,
    required_fields = (pre ++ field :: post)%list /\
    (forall g, g ∈ pre -> is_Some (dict_lookup g no_joints_document)) /\
    dict_lookup field no_joints_document = None /\
    validate_json_export sample_exn_str sample_py_repr sample_fs "no_joints.json" =
      Ok (false, "Missing required field: " +:+ field).
Proof.
  apply (missing_field_named_first sample_exn_str sample_py_repr sample_fs).
  - reflexivity.
  - exists "joints". split; [|reflexivity]. unfold required_fields. set_solver.
Defined.

Lemma bodies_not_a_list_witness :
  validate_json_export sample_exn_str sample_py_repr sample_fs "bodies_object.json"
    = Ok (false, "bodies must be a list") /\
  forall field, "bodies must be a list" <> missing_field_message field.
Proof.
  apply (bodies_not_a_list sample_exn_str sample_py_repr sample_fs "bodies_object.json"
           bodies_object_document (JObj [])).
  - reflexivity.
  - intros g Hg. unfold required_fields in Hg.
    repeat (apply elem_of_cons in Hg as [->|Hg]; [by eexists|]).
    by apply elem_of_nil in Hg.
  - reflexivity.
  - reflexivity.
Defined.

Lemma validate_json_export_total_witness :
  (exists is_valid message,
      validate_json_export sample_exn_str sample_py_repr sample_fs "absent.json"
        = Ok (is_valid, message)) /\
  validate_json_export sample_exn_str sample_py_repr sample_fs "absent.json" =
    Ok (false, "File not found: absent.json") /\
  validate_json_export sample_exn_str sample_py_repr sample_fs "broken.json" =
    Ok (false, "JSON parsing error: <text of the exception>") /\
  validate_json_export sample_exn_str sample_py_repr sample_fs "scalar.json" =
    Ok (false, "Validation error: <text of the exception>").
Proof.
  split; [|split; [|split]].
  - apply (validate_json_export_total sample_exn_str sample_py_repr sample_fs "absent.json").
  - apply (validate_json_export_total sample_exn_str sample_py_repr sample_fs "absent.json").
    reflexivity.
  - apply (validate_json_export_total sample_exn_str sample_py_repr sample_fs "broken.json").
    reflexivity.
  - apply (validate_json_export_total sample_exn_str sample_py_repr sample_fs "scalar.json"
             ) with (v := num 42); [reflexivity | exact I].
Defined.

Example validate_pendulum :
  validate_json_export sample_exn_str sample_py_repr sample_fs "model.json" = Ok (true, "Valid").
Proof. reflexivity. Qed.

Example validate_no_joints :
  validate_json_export sample_exn_str sample_py_repr sample_fs "no_joints.json" =
    Ok (false, "Missing required field: joints").
Proof. reflexivity. Qed.

Example validate_broken :
  validate_json_export sample_exn_str sample_py_repr sample_fs "broken.json" =
    Ok (false, "JSON parsing error: <text of the exception>").
Proof. reflexivity. Qed.

Example validate_absent :
  validate_json_export sample_exn_str sample_py_repr sample_fs "absent.json" =
    Ok (false, "File not found: absent.json").
Proof. reflexivity. Qed.

(** A body entry that is a number is reported; one that is a list holding
    the two key names passes the membership tests. *)
Example validate_number_body :
  validate_json_export sample_exn_str sample_py_repr sample_fs "number_body.json" =
    Ok (false, "Validation error: <text of the exception>").
Proof. reflexivity. Qed.

Example validate_list_body :
  validate_json_export sample_exn_str sample_py_repr sample_fs "list_body.json" =
    Ok (true, "Valid").
Proof. reflexivity. Qed.

Example validate_scalar :
  validate_json_export sample_exn_str sample_py_repr sample_fs "scalar.json" =
    Ok (false, "Validation error: <text of the exception>").
Proof. reflexivity. Qed.

(** ** os.path *)

Example dirname_nested : path_dirname "out/run1/model.json" = "out/run1".
Proof. reflexivity. Qed.

Example dirname_plain : path_dirname "model.json" = EmptyString.
Proof. reflexivity. Qed.

Example dirname_root : path_dirname "/model.json" = "/".
Proof. reflexivity. Qed.

Example default_dir_nested :
  default_geometry_dir "out/run1/model.json" = "out/run1/geometries".
Proof. reflexivity. Qed.

Example default_dir_plain : default_geometry_dir "model.json" = "geometries".
Proof. reflexivity. Qed.

Example join_absolute : path_join "out" "/abs/a.stl" = "/abs/a.stl".
Proof. reflexivity. Qed.

(** ** The loader *)

Lemma float_1000_nonzero : float 1000.0 <> Q2Qc 0.
Proof. intros H. discriminate H. Qed.

Lemma mm_to_m_vector_numbers (d : list (string * json)) (x y z : Qc) :
  dict_lookup "x" d = Some (JNum x) ->
  dict_lookup "y" d = Some (JNum y) ->
  dict_lookup "z" d = Some (JNum z) ->
  mm_to_m_vector (JObj d) =
    Ok {| vx := x / float 1000.0; vy := y / float 1000.0; vz := z / float 1000.0 |}%Qc.
Proof.
  intros Hx Hy Hz. unfold mm_to_m_vector, py_get, py_truediv.
  rewrite Hx, Hy, Hz. cbn [default from_option id mbind result_bind as_number].
  by rewrite !(truediv_nonzero _ _ float_1000_nonzero).
Qed.

(** The position after the mass block. *)
Lemma set_mass_properties_pos (kvs : list (string * json)) (body body' : ChBody) :
  set_mass_properties body (default (JObj []) (dict_lookup "mass_properties" kvs))
    = Ok body' ->
  match center_of_mass_of kvs with
  | Some com => mm_to_m_vector com = Ok (body_pos body')
  | None => body_pos body' = body_pos body
  end.
Proof.
  unfold set_mass_properties, center_of_mass_of.
  destruct (dict_lookup "mass_properties" kvs) as [mp|]; cbn [default from_option id];
    [|intros [= <-]; reflexivity].
  destruct (truthy mp) eqn:Hmp.
  - destruct mp as [| | | | |mkvs]; try discriminate. rewrite !py_get_object.
    cbn [mbind result_bind]. intros H.
    bind_inv H as mass Hmass. bind_inv H as body1 Hcom.
    assert (Hpos : body_pos body' = body_pos body1).
    { destruct (truthy (default (JObj []) (dict_lookup "moments_of_inertia" mkvs)));
        [|by injection H as <-].
      repeat (apply bind_Ok in H as (? & _ & H)).
      by injection H as <-. }
    rewrite Hpos. clear H Hpos.
    destruct (dict_lookup "center_of_mass" mkvs) as [com|];
      cbn [default from_option id] in Hcom.
    + destruct (truthy com).
      * bind_inv Hcom as pos Hpos. by injection Hcom as <-.
      * by injection Hcom as <-.
    + by injection Hcom as <-.
  - intros [= <-]. destruct mp as [| | | | |mkvs]; try reflexivity.
    destruct mkvs; [reflexivity | discriminate Hmp].
Qed.

(** The mass block leaves the name alone. *)
Lemma set_mass_properties_name body mass_props body' :
  set_mass_properties body mass_props = Ok body' ->
  body_name body' = body_name body.
Proof.
  unfold set_mass_properties.
  destruct (truthy mass_props); [|by intros [= <-]].
  intros H.
  apply bind_Ok in H as (mass & _ & H). apply bind_Ok in H as (m & _ & H).
  apply bind_Ok in H as (com & _ & H). apply bind_Ok in H as (body1 & Hcom & H).
  apply bind_Ok in H as (inertia & _ & H).
  assert (Hname : body_name body1 = body_name body).
  { destruct (truthy com); [bind_inv Hcom as pos Hpos|]; by injection Hcom as <-. }
  destruct (truthy inertia); [repeat (apply bind_Ok in H as (? & _ & H))|];
    by injection H as <-.
Qed.

(** The position after the transformation block. *)
Lemma apply_transformation_pos (kvs : list (string * json)) (body body' : ChBody) :
  apply_transformation body (default (JObj []) (dict_lookup "transform" kvs)) = Ok body' ->
  match translation_of kvs with
  | Some translation => mm_to_m_vector translation = Ok (body_pos body')
  | None => body_pos body' = body_pos body
  end.
Proof.
  unfold apply_transformation, translation_of.
  destruct (dict_lookup "transform" kvs) as [tr|]; cbn [default from_option id];
    [|intros [= <-]; reflexivity].
  destruct (truthy tr) eqn:Htr.
  - destruct tr as [| | | | |tkvs]; try discriminate. rewrite py_get_object.
    cbn [mbind result_bind]. intros H.
    destruct (dict_lookup "translation" tkvs) as [t|]; cbn [default from_option id] in H.
    + destruct (truthy t).
      * bind_inv H as pos Hpos. by injection H as <-.
      * by injection H as <-.
    + by injection H as <-.
  - intros [= <-]. destruct tr as [| | | | |tkvs]; try reflexivity.
    destruct tkvs; [reflexivity | discriminate Htr].
Qed.

(** The transformation block touches nothing but the position. *)
Lemma apply_transformation_keeps body transform body' :
  apply_transformation body transform = Ok body' ->
  body_name body' = body_name body /\ body_mass body' = body_mass body /\
  body_inertiaXX body' = body_inertiaXX body.
Proof.
  unfold apply_transformation.
  destruct (truthy transform); [|by intros [= <-]].
  intros H. bind_inv H as translation Ht.
  destruct (truthy translation); [|by injection H as <-].
  bind_inv H as pos Hpos. by injection H as <-.
Qed.

Section LoaderFacts.
Variable has_LoadSTLMesh : bool.
Variable fs : gmap string file.

(** The geometry block touches neither name, mass, position nor inertia. *)
Lemma load_collision_geometry_keeps body geom_file geometry_dir body' :
  load_collision_geometry has_LoadSTLMesh fs body geom_file geometry_dir = Ok body' ->
  body_name body' = body_name body /\ body_mass body' = body_mass body /\
  body_pos body' = body_pos body /\ body_inertiaXX body' = body_inertiaXX body.
Proof.
  unfold load_collision_geometry.
  destruct (truthy geom_file); [|by intros [= <-]].
  intros H. bind_inv H as file Hfile.
  destruct (path_exists fs _); by injection H as <-.
Qed.

(** What [build_body] does, block by block. *)
Lemma build_body_Ok (kvs : list (string * json)) (geometry_dir : string)
    (body : ChBody) :
  build_body has_LoadSTLMesh fs (JObj kvs) geometry_dir = Ok body ->
  exists name body1 body2 body3,
    dict_lookup "name" kvs = Some (JStr name) /\
    set_mass_properties (SetName ChBody_new name)
      (default (JObj []) (dict_lookup "mass_properties" kvs)) = Ok body1 /\
    apply_transformation body1
      (default (JObj []) (dict_lookup "transform" kvs)) = Ok body2 /\
    load_collision_geometry has_LoadSTLMesh fs body2
      (default JNull (dict_lookup "geometry_file" kvs)) geometry_dir = Ok body3 /\
    body = (if truthy (default (JBool false) (dict_lookup "is_fixed" kvs))
            then SetBodyFixed body3 true else body3).
Proof.
  unfold build_body. rewrite !py_get_object. cbn [py_getitem].
  destruct (dict_lookup "name" kvs) as [v|]; [|discriminate].
  cbn [mbind result_bind]. intros H.
  bind_inv H as name Hname. destruct v; try discriminate. injection Hname as ->.
  bind_inv H as body1 H1. bind_inv H as body2 H2. bind_inv H as body3 H3.
  injection H as <-. eauto 10.
Qed.

(** The entity carries the name of its record. *)
Lemma build_body_name (body_data : json) (geometry_dir : string) (body : ChBody) :
  build_body has_LoadSTLMesh fs body_data geometry_dir = Ok body ->
  py_getitem body_data "name" = Ok (JStr (body_name body)).
Proof.
  intros H. destruct body_data as [| | | | |kvs]; try discriminate H.
  apply build_body_Ok in H as (name & body1 & body2 & body3 & Hn & H1 & H2 & H3 & ->).
  apply set_mass_properties_name in H1.
  apply apply_transformation_keeps in H2 as (H2 & _).
  apply load_collision_geometry_keeps in H3 as (H3 & _).
  cbn [py_getitem]. rewrite Hn. do 2 f_equal.
  transitivity (body_name body3); [|by destruct (truthy _)].
  by rewrite H3, H2, H1.
Qed.

(** A record with a name and none of the optional keys that the loader
    reads gives an entity. *)
Lemma bare_body_loads (kvs : list (string * json)) (name geometry_dir : string) :
  dict_lookup "name" kvs = Some (JStr name) ->
  dict_lookup "mass_properties" kvs = None ->
  dict_lookup "transform" kvs = None ->
  dict_lookup "geometry_file" kvs = None ->
  dict_lookup "is_fixed" kvs = None ->
  build_body has_LoadSTLMesh fs (JObj kvs) geometry_dir = Ok (SetName ChBody_new name).
Proof.
  intros Hn Hm Ht Hg Hf. unfold build_body. rewrite !py_get_object. cbn [py_getitem].
  by rewrite Hn, Hm, Ht, Hg, Hf.
Qed.

Lemma create_bodies_cons body_data rest geometry_dir body_map system name body :
  py_getitem body_data "name" = Ok (JStr name) ->
  build_body has_LoadSTLMesh fs body_data geometry_dir = Ok body ->
  create_bodies has_LoadSTLMesh fs (body_data :: rest) geometry_dir body_map system =
  create_bodies has_LoadSTLMesh fs rest geometry_dir
    (<[name := length (sys_bodies system)]> body_map) (add_body system body).2.
Proof.
  intros Hn Hb. simpl. unfold create_body_from_data. rewrite Hb. simpl.
  rewrite Hn. reflexivity.
Qed.
End LoaderFacts.

Section LoaderProperties.
Variable has_LoadSTLMesh : bool.
Variable fs : gmap string file.

(** C1. A document with two body records named "A" and "B" and one joint
    record of type "RevoluteJointType" from "A" to "B" loads into a system
    with one constraint: a revolute joint between the entities registered
    under "A" and "B", placed at the joint origin with each coordinate
    divided by 1000. *)
Theorem revolute_joint_between_A_and_B
    (json_path : string) (geometry_dir : option string)
    (document : list (string * json)) (bodyA bodyB : json) (entityA entityB : ChBody)
    (joint origin : list (string * json)) (joint_name : string) (x y z : Qc) :
  let dir := default (default_geometry_dir json_path) geometry_dir in
  fs !! json_path = Some (Document (JObj document)) ->
  dict_lookup "bodies" document = Some (JArr [bodyA; bodyB]) ->
  dict_lookup "joints" document = Some (JArr [JObj joint]) ->
  py_getitem bodyA "name" = Ok (JStr "A") ->
  py_getitem bodyB "name" = Ok (JStr "B") ->
  build_body has_LoadSTLMesh fs bodyA dir = Ok entityA ->
  build_body has_LoadSTLMesh fs bodyB dir = Ok entityB ->
  default (JStr EmptyString) (dict_lookup "name" joint) = JStr joint_name ->
  dict_lookup "type" joint = Some (JStr "RevoluteJointType") ->
  dict_lookup "body_one" joint = Some (JStr "A") ->
  dict_lookup "body_two" joint = Some (JStr "B") ->
  dict_lookup "origin" joint = Some (JObj origin) ->
  dict_lookup "x" origin = Some (JNum x) ->
  dict_lookup "y" origin = Some (JNum y) ->
  dict_lookup "z" origin = Some (JNum z) ->
  exists (body_map : gmap string nat) (system : ChSystem),
    create_bodies has_LoadSTLMesh fs [bodyA; bodyB] dir ∅
      (ChSystemNSC {| vx := float 0; vy := float (-9.81); vz := float 0 |})
      = Ok (body_map, system) /\
    body_map !! "A" = Some 0%nat /\ body_map !! "B" = Some 1%nat /\
    sys_bodies system = [entityA; entityB] /\
    body_name entityA = "A" /\ body_name entityB = "B" /\
    load_model_from_json true has_LoadSTLMesh fs json_path geometry_dir =
      Ok {| G_acc := G_acc system;
            sys_bodies := [entityA; entityB];
            sys_links :=
              [ {| link_class_of := ChLinkLockRevolute;
                   link_body_one := 0;
                   link_body_two := 1;
                   link_origin := {| vx := x / float 1000.0;
                                     vy := y / float 1000.0;
                                     vz := z / float 1000.0 |}%Qc;
                   link_name := joint_name |} ] |}.
Proof.
  intros dir Hfile Hbodies Hjoints HnA HnB HbA HbB Hname Htype Hone Htwo Horigin Hx Hy Hz.
  assert (Hdir : match geometry_dir with
                 | Some d => d
                 | None => default_geometry_dir json_path
                 end = dir) by (by destruct geometry_dir).
  eexists _, _.
  split.
  { rewrite (create_bodies_cons _ _ _ _ _ _ _ _ _ HnA HbA).
    rewrite (create_bodies_cons _ _ _ _ _ _ _ _ _ HnB HbB). reflexivity. }
  split; [reflexivity|]. split; [reflexivity|]. split; [reflexivity|].
  split. { apply build_body_name in HbA. rewrite HnA in HbA. by injection HbA as ->. }
  split. { apply build_body_name in HbB. rewrite HnB in HbB. by injection HbB as ->. }
  unfold load_model_from_json, read_json. rewrite Hfile.
  cbn [negb mbind result_bind py_get py_iter]. rewrite Hbodies, Hjoints.
  cbn [default from_option id].
  rewrite Hdir. cbn [mbind result_bind py_iter].
  rewrite (create_bodies_cons _ _ _ _ _ _ _ _ _ HnA HbA).
  rewrite (create_bodies_cons _ _ _ _ _ _ _ _ _ HnB HbB).
  cbn [create_bodies create_joints mbind result_bind].
  unfold create_joint_from_data. cbn [py_get mbind result_bind].
  rewrite Hname, Htype, Hone, Htwo, Horigin. cbn [default from_option id truthy].
  rewrite (mm_to_m_vector_numbers _ _ _ _ Hx Hy Hz).
  reflexivity.
Qed.

(** C2, as the code has it. The position of a loaded entity comes from one
    source: from transform.translation (divided by 1000) whenever the record
    has a translation that is not empty, whether or not it has a centre of
    mass; from the centre of mass (divided by 1000) only when there is no
    such translation; and it is the position of a fresh body when there is
    neither. *)
Theorem position_from_translation_else_center_of_mass
    (kvs : list (string * json)) (geometry_dir : string) (body : ChBody) :
  build_body has_LoadSTLMesh fs (JObj kvs) geometry_dir = Ok body ->
  match translation_of kvs, center_of_mass_of kvs with
  | Some translation, _ => mm_to_m_vector translation = Ok (body_pos body)
  | None, Some com => mm_to_m_vector com = Ok (body_pos body)
  | None, None => body_pos body = body_pos ChBody_new
  end.
Proof.
  intros (name & body1 & body2 & body3 & _ & H1 & H2 & H3 & ->)%build_body_Ok.
  apply set_mass_properties_pos in H1. apply apply_transformation_pos in H2.
  apply load_collision_geometry_keeps in H3 as (_ & _ & H3 & _).
  assert (Hpos : forall b : bool,
             body_pos (if b then SetBodyFixed body3 true else body3) = body_pos body2)
    by (by intros []).
  rewrite !Hpos.
  destruct (translation_of kvs); [done|].
  rewrite H2. destruct (center_of_mass_of kvs); done.
Qed.

(** C3. A body record whose key mass_properties is absent, or bound to the
    empty object, gives an entity of mass 1.0 and inertia diagonal
    (1, 1, 1). *)
Theorem default_mass_and_inertia
    (kvs : list (string * json)) (geometry_dir : string) (system system' : ChSystem)
    (ref : nat) :
  dict_lookup "mass_properties" kvs = None \/
    dict_lookup "mass_properties" kvs = Some (JObj []) ->
  create_body_from_data has_LoadSTLMesh fs (JObj kvs) geometry_dir system
    = Ok (ref, system') ->
  exists body,
    sys_bodies system' !! ref = Some body /\
    body_mass body = float 1.0 /\
    body_inertiaXX body = {| vx := float 1.0; vy := float 1.0; vz := float 1.0 |}.
Proof.
  intros Hmp H. unfold create_body_from_data in H. bind_inv H as a Ha.
  injection H as <- <-. exists a. split.
  { simpl. by rewrite lookup_app_r, Nat.sub_diag. }
  apply build_body_Ok in Ha as (name & body1 & body2 & body3 & _ & H1 & H2 & H3 & ->).
  assert (body1 = SetName ChBody_new name) as ->.
  { destruct Hmp as [Hmp|Hmp]; rewrite Hmp in H1; by injection H1 as <-. }
  apply load_collision_geometry_keeps in H3 as (_ & Hm & _ & Hi).
  apply apply_transformation_keeps in H2 as (_ & Hm2 & Hi2).
  rewrite Hm2 in Hm. rewrite Hi2 in Hi.
  destruct (truthy _); simpl; by rewrite ?Hm, ?Hi.
Qed.
End LoaderProperties.



Lemma revolute_joint_between_A_and_B_witness :
  exists (body_map : gmap string nat) (system : ChSystem),
    create_bodies true sample_fs [body_A; body_B] "geometries" ∅
      (ChSystemNSC {| vx := float 0; vy := float (-9.81); vz := float 0 |})
      = Ok (body_map, system) /\
    body_map !! "A" = Some 0%nat /\ body_map !! "B" = Some 1%nat /\
    sys_bodies system =
      [SetMass (SetName ChBody_new "A") (Q2Qc 2);
       SetMass (SetName ChBody_new "B") (Q2Qc 3)] /\
    body_name (SetMass (SetName ChBody_new "A") (Q2Qc 2)) = "A" /\
    body_name (SetMass (SetName ChBody_new "B") (Q2Qc 3)) = "B" /\
    load_model_from_json true true sample_fs "model.json" None =
      Ok {| G_acc := G_acc system;
            sys_bodies := [SetMass (SetName ChBody_new "A") (Q2Qc 2);
                           SetMass (SetName ChBody_new "B") (Q2Qc 3)];
            sys_links :=
              [ {| link_class_of := ChLinkLockRevolute;
                   link_body_one := 0;
                   link_body_two := 1;
                   link_origin := {| vx := Q2Qc 1000 / float 1000.0;
                                     vy := Q2Qc 2000 / float 1000.0;
                                     vz := Q2Qc 3000 / float 1000.0 |}%Qc;
                   link_name := "hinge" |} ] |}.
Proof.
  apply (revolute_joint_between_A_and_B true sample_fs "model.json" None pendulum
           body_A body_B _ _ hinge
           [("x", num 1000); ("y", num 2000); ("z", num 3000)]); reflexivity.
Defined.

(** The joint of the pendulum sits at (1, 2, 3) metres. *)
Example hinge_origin :
  mm_to_m_vector (JObj [("x", num 1000); ("y", num 2000); ("z", num 3000)]) =
    Ok {| vx := Q2Qc 1; vy := Q2Qc 2; vz := Q2Qc 3 |}.
Proof. vm_compute. f_equal. f_equal; apply Qc_is_canon; reflexivity. Qed.

(** C2, as the spec states it, does not hold: the record [occurrence_body] has its
    centre of mass at (1000, 0, 0) and its translation at (2000, 0, 0); the
    entity is placed at (2, 0, 0), not at the centre of mass (1, 0, 0). *)
Lemma center_of_mass_is_overridden :
  exists body com,
    center_of_mass_of occurrence_body = Some com /\
    build_body true ∅ (JObj occurrence_body) "geometries" = Ok body /\
    mm_to_m_vector com = Ok {| vx := Q2Qc 1; vy := Q2Qc 0; vz := Q2Qc 0 |} /\
    body_pos body = {| vx := Q2Qc 2; vy := Q2Qc 0; vz := Q2Qc 0 |} /\
    mm_to_m_vector com <> Ok (body_pos body).
Proof.
  eexists _, _. split; [reflexivity|]. split; [reflexivity|].
  split; [|split].
  - vm_compute. f_equal. f_equal; apply Qc_is_canon; reflexivity.
  - vm_compute. f_equal; apply Qc_is_canon; reflexivity.
  - intros H. vm_compute in H. discriminate H.
Qed.

Lemma position_from_translation_else_center_of_mass_witness :
  exists body,
    build_body true ∅ (JObj occurrence_body) "geometries" = Ok body /\
    match translation_of occurrence_body, center_of_mass_of occurrence_body with
    | Some translation, _ => mm_to_m_vector translation = Ok (body_pos body)
    | None, Some com => mm_to_m_vector com = Ok (body_pos body)
    | None, None => body_pos body = body_pos ChBody_new
    end.
Proof.
  eexists. split; [reflexivity|].
  apply (position_from_translation_else_center_of_mass true ∅ occurrence_body "geometries").
  reflexivity.
Defined.

Lemma default_mass_and_inertia_witness :
  exists body,
    sys_bodies
      {| G_acc := {| vx := float 0; vy := float (-9.81); vz := float 0 |};
         sys_bodies := [SetName ChBody_new "bare"];
         sys_links := [] |} !! 0%nat = Some body /\
    body_mass body = float 1.0 /\
    body_inertiaXX body = {| vx := float 1.0; vy := float 1.0; vz := float 1.0 |}.
Proof.
  apply (default_mass_and_inertia true ∅ bare_body "geometries"
           (ChSystemNSC {| vx := float 0; vy := float (-9.81); vz := float 0 |})
           _ 0%nat).
  - left. reflexivity.
  - reflexivity.
Defined.


(** The dangling joint of [pendulum_with_dangling] is dropped and the hinge
    after it is still created. *)
Example load_pendulum_with_dangling :
  sys_links <$> load_model_from_json true true sample_fs "dangling.json" None =
  sys_links <$> load_model_from_json true true sample_fs "model.json" None.
Proof. reflexivity. Qed.

Example load_without_engine :
  load_model_from_json false true sample_fs "model.json" None =
    Raise (User ImportError "PyChrono is not installed. Please install it first.").
Proof. reflexivity. Qed.

Example load_absent :
  load_model_from_json true true sample_fs "absent.json" None =
    Raise (Builtin FileNotFoundError).
Proof. reflexivity. Qed.

(** ** The cable export *)

Lemma whole_float_repr_spec (z : Z) :
  (0 <= z < 10 ^ 16)%Z -> whole_float_repr (Q2Qc (inject_Z z)) = pretty z +:+ ".0".
Proof.
  intros _. unfold whole_float_repr. f_equal. f_equal.
  simpl. rewrite Qred_identity; [reflexivity|]. simpl. apply Z.gcd_1_r.
Qed.

Ltac whole_quotient := apply Qc_is_canon; reflexivity.

Section CableFacts.
Variable float_repr : Qc -> string.
Variable format_exc : string.

(** A float with a whole value from 0 up to, not including, 10^16 prints
    as its digits followed by [.0]. *)
Hypothesis float_repr_whole :
  forall z : Z, (0 <= z < 10 ^ 16)%Z ->
    float_repr (Q2Qc (inject_Z z)) = pretty z +:+ ".0".

(** C9. Exporting one selected line from (100, 200, 300) to
    (400, 500, 600) writes the header line and then the row
    1.0,2.0,3.0,4.0,5.0,6.0: each coordinate divided by 100. *)
Theorem cable_row_in_meters (filename : string) :
  run float_repr format_exc [cable] (DialogOK filename) true =
    [WriteFile filename
       ("StartX,StartY,StartZ,EndX,EndY,EndZ" +:+ newline +:+
        "1.0,2.0,3.0,4.0,5.0,6.0" +:+ newline);
     MessageBox ("Success! Coordinates of 1 cables exported to:" +:+ newline +:+
                 filename)].
Proof.
  unfold run, cable. cbn [write_rows]. unfold csv_row. cbn [px py pz].
  replace (Q2Qc 100 / float 100.0)%Qc with (Q2Qc (inject_Z 1)) by whole_quotient.
  replace (Q2Qc 200 / float 100.0)%Qc with (Q2Qc (inject_Z 2)) by whole_quotient.
  replace (Q2Qc 300 / float 100.0)%Qc with (Q2Qc (inject_Z 3)) by whole_quotient.
  replace (Q2Qc 400 / float 100.0)%Qc with (Q2Qc (inject_Z 4)) by whole_quotient.
  replace (Q2Qc 500 / float 100.0)%Qc with (Q2Qc (inject_Z 5)) by whole_quotient.
  replace (Q2Qc 600 / float 100.0)%Qc with (Q2Qc (inject_Z 6)) by whole_quotient.
  rewrite !float_repr_whole by lia. reflexivity.
Qed.
End CableFacts.

Lemma cable_row_in_meters_witness :
  run whole_float_repr EmptyString [cable] (DialogOK "cables.csv") true =
    [WriteFile "cables.csv"
       ("StartX,StartY,StartZ,EndX,EndY,EndZ" +:+ newline +:+
        "1.0,2.0,3.0,4.0,5.0,6.0" +:+ newline);
     MessageBox ("Success! Coordinates of 1 cables exported to:" +:+ newline +:+
                 "cables.csv")].
Proof.
  apply (cable_row_in_meters whole_float_repr EmptyString whole_float_repr_spec).
Defined.

(** * Further properties of the code *)

(** ** Strings, paths and dictionaries *)

Lemma string_app_cons (c : ascii) (a b : string) :
  String c a +:+ b = String c (a +:+ b).
Proof. reflexivity. Qed.

Lemma string_app_nil_l (b : string) : EmptyString +:+ b = b.
Proof. reflexivity. Qed.

Lemma string_app_nil_r (s : string) : s +:+ EmptyString = s.
Proof. induction s as [|c s IH]; [done|]. by rewrite string_app_cons, IH. Qed.

Lemma string_app_assoc (a b c : string) : (a +:+ b) +:+ c = a +:+ (b +:+ c).
Proof. induction a as [|x a IH]; [done|]. by rewrite !string_app_cons, IH. Qed.

Lemma string_rev_app_spec (a b : string) : String.rev_app a b = String.rev a +:+ b.
Proof.
  revert b. induction a as [|x a IH]; intros b; [done|].
  unfold String.rev. cbn [String.rev_app].
  rewrite (IH (String x b)), (IH (String x EmptyString)).
  by rewrite string_app_assoc.
Qed.

Lemma string_rev_cons (c : ascii) (s : string) :
  String.rev (String c s) = String.rev s +:+ String c EmptyString.
Proof. unfold String.rev at 1. cbn [String.rev_app]. apply string_rev_app_spec. Qed.

Lemma string_rev_app_distr (a b : string) :
  String.rev (a +:+ b) = String.rev b +:+ String.rev a.
Proof.
  induction a as [|x a IH].
  - by rewrite string_app_nil_l, string_app_nil_r.
  - by rewrite string_app_cons, !string_rev_cons, IH, string_app_assoc.
Qed.

Lemma string_rev_involutive (s : string) : String.rev (String.rev s) = s.
Proof.
  induction s as [|c s IH]; [done|].
  by rewrite string_rev_cons, string_rev_app_distr, IH.
Qed.

Lemma string_app_not_empty (a b : string) : b <> EmptyString -> a +:+ b <> EmptyString.
Proof. destruct a; [done|discriminate]. Qed.

(** A string without separator. *)
Lemma no_sep_cons (c : ascii) (s : string) :
  is_substring "/" (String c s) = false ->
  c <> "/"%char /\ is_substring "/" s = false.
Proof.
  cbn [is_substring String.prefix]. intros [H1 H2]%orb_false_iff. split; [|done].
  intros ->. destruct (ascii_dec "/" "/"); [|done]. by destruct s.
Qed.

Lemma no_sep_app (a b : string) :
  is_substring "/" a = false -> is_substring "/" b = false ->
  is_substring "/" (a +:+ b) = false.
Proof.
  intros Ha Hb. induction a as [|c a IH]; [done|].
  apply no_sep_cons in Ha as [Hc Ha]. rewrite string_app_cons.
  cbn [is_substring String.prefix]. rewrite (IH Ha).
  by destruct (ascii_dec "/" c) as [<-|].
Qed.

Lemma drop_to_sep_rev (s t : string) :
  is_substring "/" s = false ->
  drop_to_sep (String.rev s +:+ t) = drop_to_sep t.
Proof.
  revert t. induction s as [|c s IH]; intros t Hs; [done|].
  apply no_sep_cons in Hs as [Hc Hs].
  rewrite string_rev_cons, string_app_assoc, string_app_cons, string_app_nil_l.
  rewrite (IH _ Hs). cbn [drop_to_sep]. by rewrite bool_decide_eq_false_2.
Qed.

(** [dirname] undoes [join] for a directory that is not empty and does not
    end with the separator, and a file name without separator. *)
Lemma path_dirname_join (dir file : string) :
  dir <> EmptyString -> ends_with "/" dir = false ->
  is_substring "/" file = false ->
  path_dirname (path_join dir file) = dir.
Proof.
  intros Hdir Hend Hfile.
  assert (Hjoin : path_join dir file = dir +:+ String "/" file).
  { unfold path_join. rewrite Hend. rewrite bool_decide_eq_false_2 by exact Hdir.
    cbn [orb]. rewrite string_app_cons, string_app_nil_l.
    destruct file as [|c file]; [reflexivity|].
    apply no_sep_cons in Hfile as [Hc _]. cbn [String.prefix].
    by destruct (ascii_dec "/" c) as [<-|]. }
  rewrite Hjoin. unfold path_dirname.
  rewrite string_rev_app_distr, string_rev_cons, string_app_assoc,
    string_app_cons, string_app_nil_l.
  rewrite (drop_to_sep_rev _ _ Hfile).
  cbn [drop_to_sep]. rewrite !(bool_decide_eq_true_2 ("/"%char = "/"%char)) by done.
  cbn [lstrip_sep]. rewrite !(bool_decide_eq_true_2 ("/"%char = "/"%char)) by done.
  unfold ends_with in Hend. change (String.rev "/") with "/" in Hend.
  destruct (String.rev dir) as [|c r] eqn:Hrev.
  { exfalso. apply Hdir. by rewrite <- (string_rev_involutive dir), Hrev. }
  cbn [String.prefix] in Hend. cbn [lstrip_sep].
  destruct (ascii_dec "/" c) as [<-|Hc]; [by destruct r|].
  rewrite !(bool_decide_eq_false_2 (c = "/"%char)) by congruence.
  rewrite bool_decide_eq_false_2 by discriminate.
  by rewrite <- Hrev, string_rev_involutive.
Qed.

Lemma prefix_trans (a b c : string) :
  String.prefix a b = true -> String.prefix b c = true -> String.prefix a c = true.
Proof.
  revert b c. induction a as [|x a IH]; intros b c; [by destruct c|].
  destruct b as [|y b]; [discriminate|].
  destruct c as [|z c]; [intros _; discriminate|]. simpl.
  destruct (ascii_dec x y) as [->|]; [|discriminate].
  destruct (ascii_dec y z) as [->|]; [|intros _; discriminate].
  apply IH.
Qed.

Lemma is_substring_nil (sub : string) :
  is_substring sub EmptyString = String.prefix sub EmptyString || false.
Proof. reflexivity. Qed.

Lemma is_substring_cons (sub : string) (c : ascii) (s : string) :
  is_substring sub (String c s) = String.prefix sub (String c s) || is_substring sub s.
Proof. reflexivity. Qed.

(** A string that holds [long] holds every prefix of [long]. *)
Lemma is_substring_prefix (short long s : string) :
  String.prefix short long = true ->
  is_substring long s = true -> is_substring short s = true.
Proof.
  intros Hp. induction s as [|c s IH].
  - rewrite !is_substring_nil, !orb_false_r. by apply prefix_trans.
  - rewrite !is_substring_cons.
    intros [H|H]%orb_true_iff; apply orb_true_iff.
    + left. by eapply prefix_trans.
    + right. by apply IH.
Qed.

Lemma ascii_lower_idemp (c : ascii) : ascii_lower (ascii_lower c) = ascii_lower c.
Proof.
  unfold ascii_lower.
  destruct ((65 <=? nat_of_ascii c)%nat && (nat_of_ascii c <=? 90)%nat) eqn:H.
  - apply andb_true_iff in H as [H1 H2].
    apply Nat.leb_le in H1, H2.
    rewrite nat_ascii_embedding by lia.
    replace ((nat_of_ascii c + 32 <=? 90)%nat) with false
      by (symmetry; apply Nat.leb_gt; lia).
    by rewrite andb_false_r.
  - by rewrite H.
Qed.

Lemma lower_idemp (s : string) : lower (lower s) = lower s.
Proof.
  induction s as [|c s IH]; [done|]. cbn [lower]. by rewrite ascii_lower_idemp, IH.
Qed.

Lemma dict_lookup_cons (k k' : string) (v : json) (rest : list (string * json)) :
  dict_lookup k ((k', v) :: rest) =
    if String.eqb k' k then Some v else dict_lookup k rest.
Proof.
  cbn [dict_lookup]. destruct (String.eqb_spec k' k).
  - by rewrite bool_decide_eq_true_2.
  - by rewrite bool_decide_eq_false_2.
Qed.

(** Looks a literal key up in a dictionary whose keys are literals. *)
Ltac lookup_keys :=
  repeat (rewrite dict_lookup_cons; cbn [String.eqb Ascii.eqb Bool.eqb]);
  cbn [dict_lookup].

(** Membership in a list that is written out. *)
Ltac list_member :=
  repeat first [apply list_elem_of_here | apply list_elem_of_further].

(** Every field of [required_fields] is a key of a dictionary that has the
    four keys. *)
Ltac required_present :=
  let f := fresh "f" in
  let Hf := fresh "Hf" in
  intros f Hf; unfold required_fields in Hf;
  repeat (apply elem_of_cons in Hf as [->|Hf]; [by eexists|]);
  by apply elem_of_nil in Hf.

(** ** convert_units *)






(** ** validate_json_export: what is accepted and what is reported *)

Lemma check_required_None (fields : list string) (data : json) :
  check_required fields data = Ok None <->
  forall f, f ∈ fields -> py_in f data = Ok true.
Proof.
  induction fields as [|a fields IH]; simpl.
  - split; [|done]. intros _ f Hf. by apply elem_of_nil in Hf.
  - destruct (py_in a data) as [[]|e] eqn:Ha; simpl.
    + rewrite IH. split.
      * intros H f [->|Hf]%elem_of_cons; auto.
      * intros H f Hf. apply H. by right.
    + split; [discriminate|]. intros H.
      assert (Hin : a ∈ a :: fields) by (by left). specialize (H a Hin). congruence.
    + split; [discriminate|]. intros H.
      assert (Hin : a ∈ a :: fields) by (by left). specialize (H a Hin). congruence.
Qed.

Lemma check_required_Some fields data out :
  check_required fields data = Ok (Some out) -> out.1 = false.
Proof.
  induction fields as [|a fields IH]; simpl; [discriminate|].
  destruct (py_in a data) as [[]|e]; simpl; [done| |discriminate].
  by intros [= <-].
Qed.

Section ValidateMore.
Variable exn_str : exn -> string.
Variable py_repr : json -> string.
Variable fs : gmap string file.

Lemma check_bodies_None (bodies : list json) (i : nat) :
  check_bodies py_repr i bodies = Ok None <->
  Forall (fun body => py_in "name" body = Ok true /\
                      py_in "mass_properties" body = Ok true) bodies.
Proof.
  revert i. induction bodies as [|b bodies IH]; intros i; simpl.
  - split; [constructor|done].
  - rewrite Forall_cons.
    destruct (py_in "name" b) as [[]|e]; simpl;
      [|split; [discriminate|intros [[[=] _] _]]..].
    destruct (py_in "mass_properties" b) as [[]|e]; simpl.
    + rewrite IH. tauto.
    + split; [|intros [[_ [=]] _]].
      destruct (py_getitem b "name"); discriminate.
    + split; [discriminate|intros [[_ [=]] _]].
Qed.

Lemma check_joints_None (joints : list json) (i : nat) :
  check_joints py_repr i joints = Ok None <->
  Forall (fun joint => py_in "name" joint = Ok true /\
                       py_in "type" joint = Ok true) joints.
Proof.
  revert i. induction joints as [|b joints IH]; intros i; simpl.
  - split; [constructor|done].
  - rewrite Forall_cons.
    destruct (py_in "name" b) as [[]|e]; simpl;
      [|split; [discriminate|intros [[[=] _] _]]..].
    destruct (py_in "type" b) as [[]|e]; simpl.
    + rewrite IH. tauto.
    + split; [|intros [[_ [=]] _]].
      destruct (py_get b "name" _); discriminate.
    + split; [discriminate|intros [[_ [=]] _]].
Qed.

Lemma check_bodies_Some bodies i out :
  check_bodies py_repr i bodies = Ok (Some out) -> out.1 = false.
Proof.
  revert i. induction bodies as [|b bodies IH]; intros i; simpl; [discriminate|].
  destruct (py_in "name" b) as [[]|e]; simpl; [|by intros [= <-]|discriminate].
  destruct (py_in "mass_properties" b) as [[]|e]; simpl; [apply IH| |discriminate].
  destruct (py_getitem b "name"); simpl; [by intros [= <-]|discriminate].
Qed.

Lemma check_joints_Some joints i out :
  check_joints py_repr i joints = Ok (Some out) -> out.1 = false.
Proof.
  revert i. induction joints as [|b joints IH]; intros i; simpl; [discriminate|].
  destruct (py_in "name" b) as [[]|e]; simpl; [|by intros [= <-]|discriminate].
  destruct (py_in "type" b) as [[]|e]; simpl; [apply IH| |discriminate].
  destruct (py_get b "name" _); simpl; [by intros [= <-]|discriminate].
Qed.

(** The entries that pass are skipped; the index goes on counting. *)
Lemma check_bodies_app (pre rest : list json) (i : nat) :
  Forall (fun body => py_in "name" body = Ok true /\
                      py_in "mass_properties" body = Ok true) pre ->
  check_bodies py_repr i (pre ++ rest)%list = check_bodies py_repr (i + length pre) rest.
Proof.
  intros H. revert i. induction H as [|b pre [Hn Hm] _ IH]; intros i; simpl.
  - by rewrite Nat.add_0_r.
  - rewrite Hn, Hm. simpl. rewrite IH. f_equal. lia.
Qed.

Lemma check_joints_app (pre rest : list json) (i : nat) :
  Forall (fun joint => py_in "name" joint = Ok true /\
                       py_in "type" joint = Ok true) pre ->
  check_joints py_repr i (pre ++ rest)%list = check_joints py_repr (i + length pre) rest.
Proof.
  intros H. revert i. induction H as [|b pre [Hn Hm] _ IH]; intros i; simpl.
  - by rewrite Nat.add_0_r.
  - rewrite Hn, Hm. simpl. rewrite IH. f_equal. lia.
Qed.

(** When the [try] block ends with success. *)
Lemma validate_try_true (path : string) (message : string) :
  validate_try py_repr fs path = Ok (true, message) <->
  message = "Valid" /\
  exists kvs bodies joints,
    fs !! path = Some (Document (JObj kvs)) /\
    (forall f, f ∈ required_fields -> is_Some (dict_lookup f kvs)) /\
    dict_lookup "bodies" kvs = Some (JArr bodies) /\
    dict_lookup "joints" kvs = Some (JArr joints) /\
    Forall (fun body => py_in "name" body = Ok true /\
                        py_in "mass_properties" body = Ok true) bodies /\
    Forall (fun joint => py_in "name" joint = Ok true /\
                         py_in "type" joint = Ok true) joints.
Proof.
  unfold validate_try, read_json. split.
  - destruct (fs !! path) as [[| | |data]|]; try discriminate.
    cbn [mbind result_bind].
    destruct (check_required required_fields data) as [[out|]|e] eqn:Hreq;
      cbn [mbind result_bind]; [|..|discriminate].
    { intros [= ->]. by apply check_required_Some in Hreq. }
    pose proof (proj1 (check_required_None _ _) Hreq) as Hreq'. clear Hreq.
    destruct data as [| | | | |kvs]; try discriminate. cbn [py_getitem].
    destruct (dict_lookup "bodies" kvs) as [[| | | |bodies|]|] eqn:Hb; try discriminate.
    cbn [mbind result_bind].
    destruct (check_bodies py_repr 0 bodies) as [[out|]|e] eqn:Hbs;
      cbn [mbind result_bind]; [|..|discriminate].
    { intros [= ->]. by apply check_bodies_Some in Hbs. }
    apply (proj1 (check_bodies_None _ _)) in Hbs.
    destruct (dict_lookup "joints" kvs) as [[| | | |joints|]|] eqn:Hj; try discriminate.
    cbn [mbind result_bind].
    destruct (check_joints py_repr 0 joints) as [[out|]|e] eqn:Hjs;
      cbn [mbind result_bind]; [|..|discriminate].
    { intros [= ->]. by apply check_joints_Some in Hjs. }
    apply (proj1 (check_joints_None _ _)) in Hjs.
    intros [= <-]. split; [done|]. exists kvs, bodies, joints.
    repeat split; try done.
    intros f Hf. specialize (Hreq' f Hf). cbn [py_in] in Hreq'.
    injection Hreq' as Hreq'. by apply bool_decide_eq_true_1 in Hreq'.
  - intros (-> & kvs & bodies & joints & Hfile & Hreq & Hb & Hj & Hbs & Hjs).
    rewrite Hfile. cbn [mbind result_bind].
    rewrite (check_required_all_present _ _ Hreq). cbn [mbind result_bind py_getitem].
    rewrite Hb. cbn [mbind result_bind].
    apply (proj2 (check_bodies_None bodies 0)) in Hbs. rewrite Hbs. cbn [mbind result_bind].
    rewrite Hj. cbn [mbind result_bind].
    apply (proj2 (check_joints_None joints 0)) in Hjs. rewrite Hjs. reflexivity.
Qed.

(** X5. The validator accepts a file exactly when it holds a JSON object
    with the four required keys, whose bodies and joints are lists, where
    every body passes the tests for [name] and [mass_properties] and every
    joint those for [name] and [type]; the message is then [Valid]. *)
Theorem valid_iff_well_formed (path : string) (message : string) :
  validate_json_export exn_str py_repr fs path = Ok (true, message) <->
  message = "Valid" /\
  exists kvs bodies joints,
    fs !! path = Some (Document (JObj kvs)) /\
    (forall f, f ∈ required_fields -> is_Some (dict_lookup f kvs)) /\
    dict_lookup "bodies" kvs = Some (JArr bodies) /\
    dict_lookup "joints" kvs = Some (JArr joints) /\
    Forall (fun body => py_in "name" body = Ok true /\
                        py_in "mass_properties" body = Ok true) bodies /\
    Forall (fun joint => py_in "name" joint = Ok true /\
                         py_in "type" joint = Ok true) joints.
Proof.
  rewrite <- validate_try_true. unfold validate_json_export.
  destruct (validate_try py_repr fs path) as [out|e]; [done|].
  split; [|discriminate].
  destruct (caught_by e JSONDecodeError); [discriminate|].
  destruct (caught_by e FileNotFoundError); [discriminate|].
  destruct (caught_by e Exception); discriminate.
Qed.

(** X6. The first body object that lacks a key is the one reported: by
    its position in the list when [name] is missing, by its name when only
    [mass_properties] is missing. Bodies after it are not looked at. *)
Theorem first_invalid_body_reported
    (path : string) (kvs body : list (string * json)) (pre post : list json) :
  fs !! path = Some (Document (JObj kvs)) ->
  (forall f, f ∈ required_fields -> is_Some (dict_lookup f kvs)) ->
  dict_lookup "bodies" kvs = Some (JArr (pre ++ JObj body :: post)%list) ->
  Forall (fun body => py_in "name" body = Ok true /\
                      py_in "mass_properties" body = Ok true) pre ->
  dict_lookup "name" body = None \/ dict_lookup "mass_properties" body = None ->
  validate_json_export exn_str py_repr fs path =
    Ok (false,
        match dict_lookup "name" body with
        | None => "Body " +:+ pretty (length pre) +:+ " missing 'name' field"
        | Some name => "Body " +:+ py_format py_repr name +:+ " missing 'mass_properties'"
        end).
Proof.
  intros Hfile Hreq Hb Hpre Hbad.
  unfold validate_json_export, validate_try, read_json. rewrite Hfile.
  cbn [mbind result_bind].
  rewrite (check_required_all_present _ _ Hreq). cbn [mbind result_bind py_getitem].
  rewrite Hb. cbn [mbind result_bind].
  rewrite (check_bodies_app _ _ _ Hpre). cbn [check_bodies py_in py_getitem Nat.add].
  destruct (dict_lookup "name" body) as [name|] eqn:Hn.
  - destruct Hbad as [[=]|Hm]. rewrite Hm. reflexivity.
  - reflexivity.
Qed.

(** X7. When the bodies pass, the first joint object that lacks a key is
    the one reported: by its position when [name] is missing, by its name
    when only [type] is missing. *)
Theorem first_invalid_joint_reported
    (path : string) (kvs joint : list (string * json)) (bodies pre post : list json) :
  fs !! path = Some (Document (JObj kvs)) ->
  (forall f, f ∈ required_fields -> is_Some (dict_lookup f kvs)) ->
  dict_lookup "bodies" kvs = Some (JArr bodies) ->
  Forall (fun body => py_in "name" body = Ok true /\
                      py_in "mass_properties" body = Ok true) bodies ->
  dict_lookup "joints" kvs = Some (JArr (pre ++ JObj joint :: post)%list) ->
  Forall (fun joint => py_in "name" joint = Ok true /\
                       py_in "type" joint = Ok true) pre ->
  dict_lookup "name" joint = None \/ dict_lookup "type" joint = None ->
  validate_json_export exn_str py_repr fs path =
    Ok (false,
        match dict_lookup "name" joint with
        | None => "Joint " +:+ pretty (length pre) +:+ " missing 'name' field"
        | Some name => "Joint " +:+ py_format py_repr name +:+ " missing 'type' field"
        end).
Proof.
  intros Hfile Hreq Hb Hbodies Hj Hpre Hbad.
  unfold validate_json_export, validate_try, read_json. rewrite Hfile.
  cbn [mbind result_bind].
  rewrite (check_required_all_present _ _ Hreq). cbn [mbind result_bind py_getitem].
  rewrite Hb. cbn [mbind result_bind].
  pose proof (check_bodies_app bodies [] 0 Hbodies) as Hcb.
  rewrite app_nil_r in Hcb. rewrite Hcb. cbn [check_bodies mbind result_bind].
  rewrite Hj. cbn [mbind result_bind].
  rewrite (check_joints_app _ _ _ Hpre). cbn [check_joints py_in py_get Nat.add].
  destruct (dict_lookup "name" joint) as [name|] eqn:Hn.
  - destruct Hbad as [[=]|Hm]. rewrite Hm. reflexivity.
  - reflexivity.
Qed.
End ValidateMore.

Lemma first_invalid_body_reported_witness :
  validate_json_export sample_exn_str sample_py_repr faulty_fs "massless.json" =
    Ok (false,
        match dict_lookup "name" bare_body with
        | None => "Body " +:+ pretty (length [body_A]) +:+ " missing 'name' field"
        | Some name =>
            "Body " +:+ py_format sample_py_repr name +:+ " missing 'mass_properties'"
        end).
Proof.
  apply (first_invalid_body_reported sample_exn_str sample_py_repr faulty_fs
           "massless.json" massless_document bare_body [body_A] []).
  - reflexivity.
  - required_present.
  - reflexivity.
  - repeat constructor.
  - right. reflexivity.
Defined.

Lemma first_invalid_joint_reported_witness :
  validate_json_export sample_exn_str sample_py_repr faulty_fs "typeless.json" =
    Ok (false,
        match dict_lookup "name" [("name", JStr "loose")] with
        | None => "Joint " +:+ pretty (length [JObj hinge]) +:+ " missing 'name' field"
        | Some name =>
            "Joint " +:+ py_format sample_py_repr name +:+ " missing 'type' field"
        end).
Proof.
  apply (first_invalid_joint_reported sample_exn_str sample_py_repr faulty_fs
           "typeless.json" typeless_document [("name", JStr "loose")]
           [body_A; body_B] [JObj hinge] []).
  - reflexivity.
  - required_present.
  - reflexivity.
  - repeat constructor.
  - reflexivity.
  - repeat constructor.
  - right. reflexivity.
Defined.

Example validate_massless :
  validate_json_export sample_exn_str sample_py_repr faulty_fs "massless.json" =
    Ok (false, "Body bare missing 'mass_properties'").
Proof. reflexivity. Qed.

Example validate_typeless :
  validate_json_export sample_exn_str sample_py_repr faulty_fs "typeless.json" =
    Ok (false, "Joint loose missing 'type' field").
Proof. reflexivity. Qed.

(** ** get_model_summary *)

Lemma ordinary_py_len v : ordinary (py_len v).
Proof. intros e. destruct v; simpl; intros [= <-]; reflexivity. Qed.

Lemma ordinary_py_iter v : ordinary (py_iter v).
Proof. intros e. destruct v; simpl; intros [= <-]; reflexivity. Qed.

Lemma ordinary_as_number v : ordinary (as_number v).
Proof. intros e. destruct v; simpl; intros [= <-]; reflexivity. Qed.

#[local] Hint Resolve ordinary_py_len ordinary_py_iter ordinary_as_number : ordinary.

Lemma ordinary_py_getitem_each items key : ordinary (py_getitem_each items key).
Proof. induction items as [|x items IH]; simpl; repeat ordinary_step. Qed.

Lemma ordinary_sum_masses bodies : forall t, ordinary (sum_masses bodies t).
Proof. induction bodies as [|b bodies IH]; intros t; simpl; repeat ordinary_step. Qed.

#[local] Hint Resolve ordinary_py_getitem_each ordinary_sum_masses : ordinary.

Lemma py_getitem_each_Ok (items names : list json) (key : string) :
  Forall2 (fun item name => py_getitem item key = Ok name) items names ->
  py_getitem_each items key = Ok names.
Proof.
  intros H. induction H as [|x n items names Hx _ IH]; [done|].
  cbn. rewrite Hx. cbn. by rewrite IH.
Qed.

Lemma sum_masses_spec (bodies : list json) (masses : list Qc) (t : Qc) :
  Forall2 (fun body m => summary_mass body = Ok m) bodies masses ->
  sum_masses bodies t = Ok (t + Qc_sum masses)%Qc.
Proof.
  intros H. revert t. induction H as [|b m bodies masses Hm _ IH]; intros t.
  - cbn. f_equal. unfold Qc_sum. cbn. ring.
  - cbn [sum_masses]. unfold summary_mass in Hm.
    bind_inv Hm as mp Hmp. bind_inv Hm as mv Hmv.
    rewrite Hmp. cbn [mbind result_bind]. rewrite Hmv. cbn [mbind result_bind].
    rewrite Hm. cbn [mbind result_bind]. rewrite IH. f_equal. unfold Qc_sum. cbn. ring.
Qed.

Lemma sum_masses_Ok (bodies : list json) (t r : Qc) :
  sum_masses bodies t = Ok r ->
  exists masses, Forall2 (fun body m => summary_mass body = Ok m) bodies masses /\
                 r = (t + Qc_sum masses)%Qc.
Proof.
  revert t. induction bodies as [|b bodies IH]; intros t H.
  - injection H as <-. exists []. split; [constructor|]. unfold Qc_sum. cbn. ring.
  - cbn [sum_masses] in H. bind_inv H as mp Hmp. bind_inv H as mv Hmv. bind_inv H as m Hm.
    apply IH in H as (masses & Hms & ->). exists (m :: masses). split.
    + constructor; [|done]. unfold summary_mass. rewrite Hmp. cbn [mbind result_bind].
      rewrite Hmv. done.
    + unfold Qc_sum. cbn. ring.
Qed.

Section SummaryFacts.
Variable exn_str : exn -> string.
Variable fs : gmap string file.

Lemma ordinary_summary_try path : ordinary (summary_try fs path).
Proof. unfold summary_try. repeat ordinary_step. Qed.

Lemma get_model_summary_Ok (json_path : string) :
  exists d, get_model_summary exn_str fs json_path = Ok d.
Proof.
  unfold get_model_summary. pose proof (ordinary_summary_try json_path) as H.
  destruct (summary_try fs json_path) as [s|e]; [eauto|].
  rewrite (H e eq_refl). eauto.
Qed.

Lemma get_model_summary_unreadable (json_path : string) (e : exn) :
  read_json fs json_path = Raise e ->
  get_model_summary exn_str fs json_path = Ok (SummaryError (exn_str e)).
Proof.
  intros He. unfold get_model_summary.
  pose proof (ordinary_read_json fs json_path e He) as Hc.
  unfold summary_try. rewrite He. cbn [mbind result_bind]. by rewrite Hc.
Qed.

(** The summary of a document that is an object. *)
Lemma summary_try_document
    (json_path : string) (document : list (string * json))
    (bodies joints body_names joint_names : list json) (masses : list Qc)
    (units : json) :
  fs !! json_path = Some (Document (JObj document)) ->
  default (JArr []) (dict_lookup "bodies" document) = JArr bodies ->
  default (JArr []) (dict_lookup "joints" document) = JArr joints ->
  py_get (default (JObj []) (dict_lookup "metadata" document)) "units" (JStr "unknown")
    = Ok units ->
  Forall2 (fun body name => py_getitem body "name" = Ok name) bodies body_names ->
  Forall2 (fun joint name => py_getitem joint "name" = Ok name) joints joint_names ->
  Forall2 (fun body m => summary_mass body = Ok m) bodies masses ->
  summary_try fs json_path =
    Ok {| summary_model_name := default (JStr "Unknown") (dict_lookup "model_name" document);
          summary_num_bodies := length bodies;
          summary_num_joints := length joints;
          summary_units := units;
          summary_bodies := body_names;
          summary_joints := joint_names;
          summary_total_mass := Qc_sum masses |}.
Proof.
  intros Hfile Hb Hj Hunits Hbn Hjn Hms.
  unfold summary_try, read_json. rewrite Hfile.
  cbn [mbind result_bind]. rewrite !py_get_object. rewrite Hb, Hj.
  cbn [mbind result_bind py_len py_iter]. rewrite Hunits. cbn [mbind result_bind].
  rewrite (py_getitem_each_Ok _ _ _ Hbn), (py_getitem_each_Ok _ _ _ Hjn).
  cbn [mbind result_bind].
  rewrite (sum_masses_spec _ _ _ Hms). cbn [mbind result_bind].
  do 2 f_equal. change (float 0) with (Q2Qc 0). apply Qcplus_0_l.
Qed.

(** X8. [get_model_summary] never raises an exception of the classes
    under [Exception]: it always returns a dictionary, and for a file that
    cannot be read or parsed the dictionary is the single entry [error]
    with the text of the exception. *)
Theorem get_model_summary_total (json_path : string) :
  (exists d, get_model_summary exn_str fs json_path = Ok d) /\
  (forall e, read_json fs json_path = Raise e ->
             get_model_summary exn_str fs json_path = Ok (SummaryError (exn_str e))).
Proof. split; [apply get_model_summary_Ok | apply get_model_summary_unreadable]. Qed.

(** X9. For a document whose bodies and joints are lists of named records
    with numeric masses, the summary counts the bodies and the joints, lists
    their names in document order, and its total mass is the sum of the
    masses, a body without a mass entry counting as zero. Missing
    [model_name] and [units] read [Unknown] and [unknown]. *)
Theorem summary_counts_and_total
    (json_path : string) (document : list (string * json))
    (bodies joints body_names joint_names : list json) (masses : list Qc)
    (units : json) :
  fs !! json_path = Some (Document (JObj document)) ->
  default (JArr []) (dict_lookup "bodies" document) = JArr bodies ->
  default (JArr []) (dict_lookup "joints" document) = JArr joints ->
  py_get (default (JObj []) (dict_lookup "metadata" document)) "units" (JStr "unknown")
    = Ok units ->
  Forall2 (fun body name => py_getitem body "name" = Ok name) bodies body_names ->
  Forall2 (fun joint name => py_getitem joint "name" = Ok name) joints joint_names ->
  Forall2 (fun body m => summary_mass body = Ok m) bodies masses ->
  get_model_summary exn_str fs json_path =
    Ok (Summary
          {| summary_model_name :=
               default (JStr "Unknown") (dict_lookup "model_name" document);
             summary_num_bodies := length bodies;
             summary_num_joints := length joints;
             summary_units := units;
             summary_bodies := body_names;
             summary_joints := joint_names;
             summary_total_mass := Qc_sum masses |}).
Proof.
  intros Hfile Hb Hj Hunits Hbn Hjn Hms. unfold get_model_summary.
  by rewrite (summary_try_document _ _ _ _ _ _ _ _ Hfile Hb Hj Hunits Hbn Hjn Hms).
Qed.
End SummaryFacts.

Lemma summary_counts_and_total_witness :
  get_model_summary sample_exn_str sample_fs "model.json" =
    Ok (Summary
          {| summary_model_name := default (JStr "Unknown") (dict_lookup "model_name" pendulum);
             summary_num_bodies := length [body_A; body_B];
             summary_num_joints := length [JObj hinge];
             summary_units := JStr "mm";
             summary_bodies := [JStr "A"; JStr "B"];
             summary_joints := [JStr "hinge"];
             summary_total_mass := Qc_sum [Q2Qc (inject_Z 2); Q2Qc (inject_Z 3)] |}).
Proof.
  apply (summary_counts_and_total sample_exn_str sample_fs "model.json" pendulum);
    repeat first [reflexivity | constructor].
Defined.

Example summary_of_absent_file :
  get_model_summary sample_exn_str sample_fs "absent.json" =
    Ok (SummaryError "<text of the exception>").
Proof. reflexivity. Qed.

(** A body list that holds a number: the summary is the error entry. *)
Example summary_of_number_body :
  get_model_summary sample_exn_str sample_fs "number_body.json" =
    Ok (SummaryError "<text of the exception>").
Proof. reflexivity. Qed.

(** ** The command line of utils.py *)

Section CommandLineFacts.
Variable exn_str : exn -> string.
Variable py_repr : json -> string.
Variable format_2f : Qc -> result string.
Variable stdout : list action -> string -> option exn.
Variable fs : gmap string file.
Variable writable : string -> bool.

(** A run of [print] calls adds printed lines and nothing else. *)
Lemma print_lines_done (texts : list string) (done : list action) :
  exists printed, (print_lines stdout texts done).1 = (done ++ map PrintLine printed)%list.
Proof.
  revert done. induction texts as [|text texts IH]; intros done; cbn [print_lines].
  - exists []. by rewrite app_nil_r.
  - destruct (stdout done text); [exists []; by rewrite app_nil_r|].
    destruct (IH (done ++ [PrintLine text])%list) as [printed ->].
    exists (text :: printed). by rewrite <- app_assoc.
Qed.

Lemma print_lines_others (texts : list string) (done : list action) (a : action) :
  (forall text, a <> PrintLine text) ->
  a ∈ (print_lines stdout texts done).1 -> a ∈ done.
Proof.
  intros Ha. destruct (print_lines_done texts done) as [printed ->].
  intros [H|H]%elem_of_app; [done|].
  apply list_elem_of_fmap in H as (text & -> & _). by destruct (Ha text).
Qed.

(** On a standard output that takes every line, a run prints all its lines. *)
Lemma print_lines_all (texts : list string) (done : list action) :
  (forall done text, stdout done text = None) ->
  print_lines stdout texts done = ((done ++ map PrintLine texts)%list, None).
Proof.
  intros Hout. revert done. induction texts as [|text texts IH]; intros done;
    cbn [print_lines map].
  - by rewrite app_nil_r.
  - rewrite Hout, IH. by rewrite <- app_assoc.
Qed.

Lemma ends_done (step : list action * option exn) (otherwise : termination) :
  (ends step otherwise).1 = step.1.
Proof. by destruct step as [done [e|]]. Qed.


Lemma print_model_summary_others (json_path : string) (done : list action) (a : action) :
  (forall text, a <> PrintLine text) ->
  a ∈ (print_model_summary exn_str py_repr format_2f stdout fs json_path done).1 ->
  a ∈ done.
Proof.
  intros Ha. unfold print_model_summary.
  destruct (get_model_summary exn_str fs json_path) as [[s|message]|e]; [| |done].
  - destruct (print_lines stdout _ done) as [done1 failed] eqn:H1.
    assert (Hdone1 : a ∈ done1 -> a ∈ done).
    { intros H. eapply (print_lines_others _ done a Ha). by erewrite H1. }
    destruct failed as [e|]; [done|].
    destruct (format_2f (summary_total_mass s)) as [total_mass|e]; [|done].
    intros H. apply Hdone1. by eapply (print_lines_others _ done1 a Ha).
  - by apply print_lines_others.
Qed.


(** X11. The command [summary] with a path, in any letter case, on a
    standard output that takes every line and for a total mass that can be
    formatted: the script runs to the end with exit status 0 whatever the
    file holds. A file that cannot be opened or parsed is reported by one
    printed line after the banner, not by the exit status. *)
Theorem summary_command_finishes
    (prog command json_path : string) (rest : list string) :
  lower command = "summary" ->
  (forall done text, stdout done text = None) ->
  (forall s, get_model_summary exn_str fs json_path = Ok (Summary s) ->
             exists text, format_2f (summary_total_mass s) = Ok text) ->
  (main exn_str py_repr format_2f stdout fs writable
     (prog :: command :: json_path :: rest)).2 = Finished /\
  forall e, read_json fs json_path = Raise e ->
    main exn_str py_repr format_2f stdout fs writable
      (prog :: command :: json_path :: rest) =
    (map PrintLine (banner ++ ["Error reading model: " +:+ exn_str e]), Finished).
Proof.
  intros Hc Hout Hformat. unfold main. rewrite Hc.
  rewrite bool_decide_eq_false_2 by discriminate.
  rewrite bool_decide_eq_true_2 by done.
  rewrite (print_lines_all _ _ Hout). cbn [app].
  unfold print_model_summary. split.
  - destruct (get_model_summary_Ok exn_str fs json_path) as [d Hd]. rewrite Hd.
    destruct d as [s|message].
    + rewrite (print_lines_all _ _ Hout).
      destruct (Hformat s Hd) as [text ->]. by rewrite (print_lines_all _ _ Hout).
    + by rewrite (print_lines_all _ _ Hout).
  - intros e He. rewrite (get_model_summary_unreadable exn_str fs _ _ He).
    rewrite (print_lines_all _ _ Hout). by rewrite map_app.
Qed.

(** X12. The command word is matched without regard to letter case: the
    script behaves the same on a command and on its lower-case form. *)
Theorem command_is_case_insensitive (prog command : string) (rest : list string) :
  main exn_str py_repr format_2f stdout fs writable (prog :: command :: rest) =
  main exn_str py_repr format_2f stdout fs writable (prog :: lower command :: rest).
Proof. unfold main. by rewrite lower_idemp. Qed.

(** X13. The script writes a file only for the command [config]: the file
    is the default configuration, at the path given as argument, or at
    [export_config.json] when none is given. *)
Theorem only_config_writes (argv : list string) (path : string) (value : json) :
  DumpJson path value ∈ (main exn_str py_repr format_2f stdout fs writable argv).1 ->
  exists prog command rest,
    argv = prog :: command :: rest /\ lower command = "config" /\
    path = default "export_config.json" (head rest) /\
    value = default_config /\ writable path = true.
Proof.
  assert (Ha : forall text, DumpJson path value <> PrintLine text) by done.
  assert (Hprint : forall texts done t,
             DumpJson path value ∈ (ends (print_lines stdout texts done) t).1 ->
             DumpJson path value ∈ done).
  { intros texts done t. rewrite ends_done. by apply print_lines_others. }
  unfold main.
  destruct (print_lines stdout banner []) as [done failed] eqn:Hb.
  assert (Hdone : DumpJson path value ∉ done).
  { intros H. assert (H' : DumpJson path value ∈ (print_lines stdout banner []).1)
      by (by rewrite Hb).
    apply (print_lines_others _ _ _ Ha) in H'. by apply elem_of_nil in H'. }
  destruct failed as [e|]; [done|].
  destruct argv as [|prog [|command rest]]; [by intros ?%Hprint..|].
  cbn zeta.
  destruct (bool_decide (lower command = "validate")).
  { destruct rest as [|json_path rest]; [by intros ?%Hprint|].
    destruct (validate_json_export _ _ _ _) as [[[] m]|e];
      [by intros ?%Hprint | by intros ?%Hprint | done]. }
  destruct (bool_decide (lower command = "summary")).
  { destruct rest as [|json_path rest]; [by intros ?%Hprint|].
    rewrite ends_done. by intros ?%(print_model_summary_others _ _ _ Ha). }
  destruct (bool_decide (lower command = "config")) eqn:Hc; [|by intros ?%Hprint].
  apply bool_decide_eq_true_1 in Hc.
  rewrite ends_done. unfold create_export_config.
  set (output_path := match rest with | [] => _ | p :: _ => p end).
  destruct (writable output_path) eqn:Hw; [|done].
  intros H%(print_lines_others _ _ _ Ha).
  apply elem_of_app in H as [H|H]; [done|].
  apply list_elem_of_singleton in H. injection H as -> ->.
  exists prog, command, rest. repeat split; try done. by destruct rest.
Qed.
End CommandLineFacts.


Lemma summary_command_finishes_witness :
  (main sample_exn_str sample_py_repr sample_format_2f any_stdout sample_fs
     (fun _ => true) ["utils.py"; "SUMMARY"; "absent.json"]).2 = Finished /\
  forall e, read_json sample_fs "absent.json" = Raise e ->
    main sample_exn_str sample_py_repr sample_format_2f any_stdout sample_fs
      (fun _ => true) ["utils.py"; "SUMMARY"; "absent.json"] =
    (map PrintLine (banner ++ ["Error reading model: " +:+ sample_exn_str e]), Finished).
Proof.
  apply (summary_command_finishes sample_exn_str sample_py_repr sample_format_2f
           any_stdout sample_fs (fun _ => true) "utils.py" "SUMMARY" "absent.json" []).
  - reflexivity.
  - reflexivity.
  - intros s _. by eexists.
Defined.

Lemma only_config_writes_witness :
  exists prog command rest,
    ["utils.py"; "config"] = prog :: command :: rest /\ lower command = "config" /\
    "export_config.json" = default "export_config.json" (head rest) /\
    default_config = default_config /\ (fun _ : string => true) "export_config.json" = true.
Proof.
  apply (only_config_writes sample_exn_str sample_py_repr sample_format_2f any_stdout
           sample_fs (fun _ => true) ["utils.py"; "config"] "export_config.json"
           default_config).
  cbn. list_member.
Defined.

Example validate_command_rejects :
  main sample_exn_str sample_py_repr sample_format_2f any_stdout sample_fs (fun _ => true)
    ["utils.py"; "validate"; "no_joints.json"] =
  (map PrintLine (banner ++ ["✗ Invalid export file: Missing required field: joints"]),
   SysExit 1).
Proof. reflexivity. Qed.

(** A valid file on a standard output that cannot encode the check mark:
    the banner is printed and the script ends with the exception of
    [print], exit status 1. *)
Example validate_command_cannot_print :
  main sample_exn_str sample_py_repr sample_format_2f ascii_stdout sample_fs (fun _ => true)
    ["utils.py"; "validate"; "model.json"] =
  (map PrintLine banner, Uncaught (Builtin UnicodeEncodeError)).
Proof. reflexivity. Qed.

(** A total mass that cannot be formatted ends the summary after five
    lines, with the exception. *)
Example summary_command_cannot_format :
  main sample_exn_str sample_py_repr (fun _ => Raise (Builtin OverflowError)) any_stdout
    sample_fs (fun _ => true) ["utils.py"; "summary"; "model.json"] =
  (map PrintLine
     (banner ++ [py_str_mul "=" 60; "Model Summary"; py_str_mul "=" 60;
                 "Model Name: pendulum"; "Units: mm"]),
   Uncaught (Builtin OverflowError)).
Proof. reflexivity. Qed.

Example unknown_command :
  main sample_exn_str sample_py_repr sample_format_2f any_stdout sample_fs (fun _ => true)
    ["utils.py"; "Export"] =
  (map PrintLine (banner ++ ["Error: Unknown command 'export'"]), SysExit 1).
Proof. reflexivity. Qed.

(** A configuration file that cannot be written ends the script with the
    exception. *)
Example config_not_writable :
  main sample_exn_str sample_py_repr sample_format_2f any_stdout sample_fs (fun _ => false)
    ["utils.py"; "config"; "/proc/config.json"] =
  (map PrintLine banner, Uncaught (Builtin OSError)).
Proof. reflexivity. Qed.

(** ** The loader: the two passes *)

Lemma body_map_get_Some body_map key i :
  body_map_get body_map key = Ok (Some i) ->
  exists name, key = JStr name /\ body_map !! name = Some i.
Proof. destruct key; simpl; intros [= H]; eauto. Qed.

Lemma py_in_or_string (short long s : string) :
  String.prefix short long = true ->
  py_in_or short long (JStr s) = Ok (is_substring short s).
Proof.
  intros Hp. unfold py_in_or. cbn [py_in mbind result_bind].
  destruct (is_substring short s) eqn:Hs; [done|].
  f_equal. destruct (is_substring long s) eqn:Hl; [|done].
  apply (is_substring_prefix _ _ _ Hp) in Hl. congruence.
Qed.

(** A joint that is created joins two bodies of the name table, and the
    system gains that joint and nothing else. *)
Lemma create_joint_from_data_inv joint_data body_map system joint system' :
  create_joint_from_data joint_data body_map system = Ok (joint, system') ->
  sys_bodies system' = sys_bodies system /\ G_acc system' = G_acc system /\
  match joint with
  | Some l =>
      sys_links system' = (sys_links system ++ [l])%list /\
      exists one two,
        body_map !! one = Some (link_body_one l) /\
        body_map !! two = Some (link_body_two l)
  | None => sys_links system' = sys_links system
  end.
Proof.
  unfold create_joint_from_data. intros H.
  bind_inv H as joint_type Htype. bind_inv H as one Hone. bind_inv H as two Htwo.
  destruct (negb (truthy one) || negb (truthy two)); [by injection H as <- <-|].
  bind_inv H as body_one Hb1. bind_inv H as body_two Hb2.
  destruct body_one as [i|]; [|by injection H as <- <-].
  destruct body_two as [j|]; [|by injection H as <- <-].
  apply body_map_get_Some in Hb1 as (n1 & -> & Hn1).
  apply body_map_get_Some in Hb2 as (n2 & -> & Hn2).
  bind_inv H as origin Horigin. bind_inv H as origin_pos Hpos.
  bind_inv H as is_revolute Hrev. bind_inv H as class Hclass.
  destruct class as [class|]; [|by injection H as <- <-].
  bind_inv H as name Hname. bind_inv H as n Hn. injection H as <- <-.
  cbn. repeat split; eauto.
Qed.

Lemma create_joints_spec (joints : list json) (body_map : gmap string nat) :
  forall system system',
  create_joints joints body_map system = Ok system' ->
  sys_bodies system' = sys_bodies system /\ G_acc system' = G_acc system /\
  exists new : list ChLink,
    sys_links system' = (sys_links system ++ new)%list /\
    (length new <= length joints)%nat /\
    Forall (fun l => exists one two,
                body_map !! one = Some (link_body_one l) /\
                body_map !! two = Some (link_body_two l)) new.
Proof.
  induction joints as [|joint_data rest IH]; intros system system' H.
  - injection H as <-. repeat split. exists []. by rewrite app_nil_r.
  - cbn [create_joints] in H. bind_inv H as r Hr. destruct r as [joint system1].
    apply create_joint_from_data_inv in Hr as (Hb & Hg & Hj).
    apply IH in H as (Hb' & Hg' & new & Hl & Hlen & Hnew).
    split; [congruence|]. split; [congruence|].
    destruct joint as [l|].
    + destruct Hj as [Hj Hl1]. exists (l :: new).
      split; [by rewrite Hl, Hj, <- app_assoc|]. split; [cbn; lia|]. by constructor.
    + exists new. split; [by rewrite Hl, Hj|]. split; [cbn; lia|done].
Qed.

(** The mass after the mass block. *)
Lemma set_mass_properties_mass body mass_props body' :
  set_mass_properties body mass_props = Ok body' ->
  if truthy mass_props then
    exists v, py_get mass_props "mass" (JNum (float 1.0)) = Ok v /\
              as_number v = Ok (body_mass body')
  else body_mass body' = body_mass body.
Proof.
  unfold set_mass_properties.
  destruct (truthy mass_props); [|by intros [= <-]].
  intros H. bind_inv H as v Hv. bind_inv H as m Hm.
  apply bind_Ok in H as (com & _ & H). apply bind_Ok in H as (body1 & Hcom & H).
  apply bind_Ok in H as (inertia & _ & H).
  exists v. split; [done|]. rewrite Hm. f_equal.
  assert (Hb1 : body_mass body1 = m).
  { destruct (truthy com); [bind_inv Hcom as pos Hpos|]; by injection Hcom as <-. }
  destruct (truthy inertia); [repeat (apply bind_Ok in H as (? & _ & H))|];
    injection H as <-; by rewrite <- Hb1.
Qed.

Section LoaderPasses.
Variable has_LoadSTLMesh : bool.
Variable fs : gmap string file.

Lemma create_bodies_inv body_data rest geometry_dir body_map system body_map' system' :
  create_bodies has_LoadSTLMesh fs (body_data :: rest) geometry_dir body_map system
    = Ok (body_map', system') ->
  exists name body,
    py_getitem body_data "name" = Ok (JStr name) /\
    build_body has_LoadSTLMesh fs body_data geometry_dir = Ok body /\
    create_bodies has_LoadSTLMesh fs rest geometry_dir
      (<[name := length (sys_bodies system)]> body_map) (add_body system body).2
      = Ok (body_map', system').
Proof.
  cbn [create_bodies]. unfold create_body_from_data. intros H.
  bind_inv H as r Hr. bind_inv Hr as body Hbody. injection Hr as <-.
  cbn [add_body] in H.
  bind_inv H as name Hname. bind_inv H as n Hn.
  destruct name; try discriminate. injection Hn as ->.
  exists n, body. by repeat split.
Qed.

(** The body pass, for any starting table and system: the bodies built from
    the records are appended in order, and a name leads to the last record
    that carries it, or to what the table held before when no record does. *)
Lemma create_bodies_spec (bodies : list json) (geometry_dir : string) :
  forall (body_map : gmap string nat) (system : ChSystem)
         (body_map' : gmap string nat) (system' : ChSystem),
  create_bodies has_LoadSTLMesh fs bodies geometry_dir body_map system
    = Ok (body_map', system') ->
  exists (names : list string) (built : list ChBody),
    Forall2 (fun body_data name => py_getitem body_data "name" = Ok (JStr name))
      bodies names /\
    Forall2 (fun body_data body =>
               build_body has_LoadSTLMesh fs body_data geometry_dir = Ok body)
      bodies built /\
    G_acc system' = G_acc system /\
    sys_bodies system' = (sys_bodies system ++ built)%list /\
    sys_links system' = sys_links system /\
    forall (name : string) (i : nat),
      body_map' !! name = Some i <->
      (exists k, i = (length (sys_bodies system) + k)%nat /\ names !! k = Some name /\
                 forall j, (k < j)%nat -> names !! j <> Some name) \/
      (body_map !! name = Some i /\ name ∉ names).
Proof.
  induction bodies as [|body_data rest IH]; intros body_map system body_map' system' H.
  - injection H as <- <-. exists [], [].
    split; [constructor|]. split; [constructor|]. split; [done|].
    split; [by rewrite app_nil_r|]. split; [done|].
    intros name i. split.
    + intros Hn. right. split; [done|]. apply not_elem_of_nil.
    + intros [(k & _ & Hk & _)|[Hn _]]; [by rewrite lookup_nil in Hk|done].
  - apply create_bodies_inv in H as (name0 & body & Hname & Hbody & H).
    apply IH in H as (names & built & Hnames & Hbuilt & Hg & Hb & Hl & Hmap).
    exists (name0 :: names), (body :: built).
    split; [by constructor|]. split; [by constructor|].
    cbn [add_body snd G_acc sys_bodies sys_links] in *.
    split; [done|]. split; [by rewrite Hb, <- app_assoc|]. split; [done|].
    intros name i. rewrite Hmap. rewrite length_app. cbn [length].
    split.
    + intros [(k & -> & Hk & Hlater)|[Hins Hnot]].
      * left. exists (S k). split; [lia|]. split; [done|].
        intros [|j] Hj; [lia|]. cbn. apply Hlater. lia.
      * destruct (decide (name0 = name)) as [->|Hne].
        -- rewrite lookup_insert_eq in Hins. injection Hins as <-.
           left. exists 0%nat. split; [lia|]. split; [done|].
           intros [|j] Hj; [lia|]. cbn. intros Hj'.
           apply Hnot. by apply list_elem_of_lookup_2 in Hj'.
        -- rewrite lookup_insert_ne in Hins by done.
           right. split; [done|]. by apply not_elem_of_cons.
    + intros [(k & -> & Hk & Hlater)|[Hold Hnot]].
      * destruct k as [|k].
        -- injection Hk as ->. right. split.
           ++ rewrite lookup_insert_eq. f_equal. lia.
           ++ intros [j Hj]%list_elem_of_lookup_1. by apply (Hlater (S j)); [lia|].
        -- left. exists k. split; [lia|]. split; [done|].
           intros j Hj. apply (Hlater (S j)). lia.
      * apply not_elem_of_cons in Hnot as [Hne Hnot].
        right. split; [|done]. by rewrite lookup_insert_ne.
Qed.

(** Records that build are passed over. *)
Lemma create_bodies_app (pre rest : list json) (geometry_dir : string) :
  forall body_map system,
  Forall (fun body_data => exists name body,
              py_getitem body_data "name" = Ok (JStr name) /\
              build_body has_LoadSTLMesh fs body_data geometry_dir = Ok body) pre ->
  exists body_map' system',
    create_bodies has_LoadSTLMesh fs (pre ++ rest)%list geometry_dir body_map system =
    create_bodies has_LoadSTLMesh fs rest geometry_dir body_map' system'.
Proof.
  induction pre as [|b pre IH]; intros body_map system H.
  - by exists body_map, system.
  - apply Forall_cons in H as [(name & body & Hn & Hb) H].
    cbn [app]. rewrite (create_bodies_cons _ _ _ _ _ _ _ _ _ Hn Hb).
    by apply IH.
Qed.

(** The geometry block fails or not whatever files exist. *)
Lemma load_collision_geometry_any_fs has' fs' body geom_file geometry_dir :
  match load_collision_geometry has_LoadSTLMesh fs body geom_file geometry_dir with
  | Ok b =>
      exists b', load_collision_geometry has' fs' body geom_file geometry_dir = Ok b' /\
                 body_name b' = body_name b /\ body_mass b' = body_mass b /\
                 body_pos b' = body_pos b /\ body_inertiaXX b' = body_inertiaXX b /\
                 body_fixed b' = body_fixed b
  | Raise e => load_collision_geometry has' fs' body geom_file geometry_dir = Raise e
  end.
Proof.
  unfold load_collision_geometry.
  destruct (truthy geom_file); [|eauto 10].
  destruct (as_str geom_file) as [file|e]; cbn [mbind result_bind]; [|done].
  destruct (path_exists fs _), (path_exists fs' _); eauto 10.
Qed.

(** The mass of an entity is the mass that the summary counts for its
    record, plus the loader's default when the record has no mass entry. *)
Lemma loaded_mass_of_record (body_data : json) (geometry_dir : string)
    (body : ChBody) (m : Qc) :
  build_body has_LoadSTLMesh fs body_data geometry_dir = Ok body ->
  summary_mass body_data = Ok m ->
  body_mass body = (m + mass_added_by_loader body_data)%Qc.
Proof.
  intros Hb Hm. destruct body_data as [| | | | |kvs]; try discriminate Hb.
  apply build_body_Ok in Hb as (name & body1 & body2 & body3 & _ & H1 & H2 & H3 & ->).
  apply load_collision_geometry_keeps in H3 as (_ & H3 & _).
  apply apply_transformation_keeps in H2 as (_ & H2 & _).
  apply set_mass_properties_mass in H1.
  assert (Hmass : forall b : bool,
             body_mass (if b then SetBodyFixed body3 true else body3) = body_mass body1).
  { intros []; cbn; congruence. }
  rewrite Hmass. clear Hmass H2 H3 body2 body3.
  assert (Hfresh : body_mass (SetName ChBody_new name) =
                   (float 0 + body_mass ChBody_new)%Qc).
  { cbn [body_mass SetName]. change (float 0) with (Q2Qc 0). by rewrite Qcplus_0_l. }
  unfold summary_mass in Hm. rewrite py_get_object in Hm. cbn [mbind result_bind] in Hm.
  unfold mass_added_by_loader, has_mass, loader_default_mass.
  destruct (dict_lookup "mass_properties" kvs) as [mp|]; cbn [default from_option id] in *.
  - destruct mp as [| | | | |mkvs]; try discriminate Hm.
    rewrite py_get_object in Hm. cbn [mbind result_bind] in Hm.
    destruct (truthy (JObj mkvs)) eqn:Ht.
    + destruct H1 as (v & Hv & Hnum).
      rewrite py_get_object in Hv. injection Hv as <-.
      destruct (dict_lookup "mass" mkvs) as [v|]; cbn [default from_option id] in *.
      * rewrite bool_decide_eq_true_2 by (by eexists).
        assert (body_mass body1 = m) as -> by congruence. ring.
      * rewrite bool_decide_eq_false_2 by (by intros [? ?]).
        cbn in Hnum, Hm. injection Hnum as <-. injection Hm as <-.
        apply Qc_is_canon. reflexivity.
    + destruct mkvs; [|discriminate Ht].
      cbn in Hm. injection Hm as <-. by rewrite H1.
  - cbn in Hm. injection Hm as <-. by rewrite H1.
Qed.

Lemma loaded_masses_total (bodies : list json) (geometry_dir : string)
    (built : list ChBody) (masses : list Qc) :
  Forall2 (fun body_data body =>
             build_body has_LoadSTLMesh fs body_data geometry_dir = Ok body)
    bodies built ->
  Forall2 (fun body_data m => summary_mass body_data = Ok m) bodies masses ->
  Qc_sum (map body_mass built) =
    (Qc_sum masses + Qc_sum (map mass_added_by_loader bodies))%Qc.
Proof.
  intros Hb. revert masses. induction Hb as [|rec b bodies built Hrec _ IH]; intros masses Hm.
  - apply Forall2_nil_inv_l in Hm as ->. apply Qc_is_canon. reflexivity.
  - apply Forall2_cons_inv_l in Hm as (m & masses' & Hm & Hms & ->).
    cbn [map]. unfold Qc_sum in *. cbn [foldr].
    rewrite (IH _ Hms), (loaded_mass_of_record _ _ _ _ Hrec Hm). ring.
Qed.

(** X14. The body pass adds one entity for each record, in the order of
    the document, each built from its record and carrying the record's name;
    it adds no constraint and leaves gravity as it was set. *)
Theorem bodies_built_in_order (bodies : list json) (geometry_dir : string)
    (g : ChVectorD) (body_map : gmap string nat) (system : ChSystem) :
  create_bodies has_LoadSTLMesh fs bodies geometry_dir ∅ (ChSystemNSC g)
    = Ok (body_map, system) ->
  Forall2 (fun body_data body =>
             build_body has_LoadSTLMesh fs body_data geometry_dir = Ok body /\
             py_getitem body_data "name" = Ok (JStr (body_name body)))
    bodies (sys_bodies system) /\
  sys_links system = [] /\ G_acc system = g.
Proof.
  intros (names & built & _ & Hbuilt & Hg & Hb & Hl & _)%create_bodies_spec.
  cbn in Hb. subst built. repeat split; try done.
  eapply Forall2_impl; [exact Hbuilt|].
  intros body_data body Hbody. split; [done|]. by apply build_body_name in Hbody.
Qed.

(** X15. When several body records carry the same name, the name table
    keeps the last of them: a name leads to the entity at position [i]
    exactly when record [i] has that name and no later record has it. *)
Theorem name_table_last_record_wins (bodies : list json) (geometry_dir : string)
    (g : ChVectorD) (body_map : gmap string nat) (system : ChSystem) :
  create_bodies has_LoadSTLMesh fs bodies geometry_dir ∅ (ChSystemNSC g)
    = Ok (body_map, system) ->
  exists names : list string,
    Forall2 (fun body_data name => py_getitem body_data "name" = Ok (JStr name))
      bodies names /\
    forall (name : string) (i : nat),
      body_map !! name = Some i <->
      names !! i = Some name /\ forall j, (i < j)%nat -> names !! j <> Some name.
Proof.
  intros (names & built & Hnames & _ & _ & _ & _ & Hmap)%create_bodies_spec.
  exists names. split; [done|]. intros name i. rewrite Hmap. cbn.
  split.
  - intros [(k & -> & Hk)|[Hempty _]]; [done|by rewrite lookup_empty in Hempty].
  - intros H. left. by exists i.
Qed.

(** X16. The loader reads five keys of a body record and five keys of a
    joint record and nothing else: two records that agree on these keys give
    the same entity, the same constraint and the same failure. *)
Theorem loader_reads_only_its_keys :
  (forall (body body' : list (string * json)) (geometry_dir : string),
      (forall key, key ∈ ["name"; "mass_properties"; "transform"; "geometry_file"; "is_fixed"] ->
                   dict_lookup key body = dict_lookup key body') ->
      build_body has_LoadSTLMesh fs (JObj body) geometry_dir =
      build_body has_LoadSTLMesh fs (JObj body') geometry_dir) /\
  (forall (joint joint' : list (string * json)) (body_map : gmap string nat)
          (system : ChSystem),
      (forall key, key ∈ ["type"; "body_one"; "body_two"; "origin"; "name"] ->
                   dict_lookup key joint = dict_lookup key joint') ->
      create_joint_from_data (JObj joint) body_map system =
      create_joint_from_data (JObj joint') body_map system).
Proof.
  split.
  - intros body body' geometry_dir H.
    unfold build_body. rewrite !py_get_object. cbn [py_getitem].
    rewrite !(H "name"), !(H "mass_properties"), !(H "transform"),
      !(H "geometry_file"), !(H "is_fixed") by list_member.
    reflexivity.
  - intros joint joint' body_map system H.
    unfold create_joint_from_data. rewrite !py_get_object.
    rewrite !(H "type"), !(H "body_one"), !(H "body_two"),
      !(H "origin"), !(H "name") by list_member.
    reflexivity.
Qed.

(** X17. Whether mesh files exist, and which mesh reader the engine has,
    never decides whether a body record loads: with other files and another
    engine the same record fails with the same exception, or gives an entity
    with the same name, mass, position, inertia and fixed flag. *)
Theorem missing_mesh_is_not_fatal
    (has' : bool) (fs' : gmap string file) (body_data : json) (geometry_dir : string) :
  match build_body has_LoadSTLMesh fs body_data geometry_dir with
  | Ok b =>
      exists b', build_body has' fs' body_data geometry_dir = Ok b' /\
                 body_name b' = body_name b /\ body_mass b' = body_mass b /\
                 body_pos b' = body_pos b /\ body_inertiaXX b' = body_inertiaXX b /\
                 body_fixed b' = body_fixed b
  | Raise e => build_body has' fs' body_data geometry_dir = Raise e
  end.
Proof.
  unfold build_body.
  destruct (py_getitem body_data "name") as [name|e]; cbn [mbind result_bind]; [|done].
  destruct (as_str name) as [n|e]; cbn [mbind result_bind]; [|done].
  destruct (py_get body_data "mass_properties" _) as [mp|e]; cbn [mbind result_bind]; [|done].
  destruct (set_mass_properties _ mp) as [b1|e]; cbn [mbind result_bind]; [|done].
  destruct (py_get body_data "transform" _) as [tr|e]; cbn [mbind result_bind]; [|done].
  destruct (apply_transformation b1 tr) as [b2|e]; cbn [mbind result_bind]; [|done].
  destruct (py_get body_data "geometry_file" _) as [gf|e]; cbn [mbind result_bind]; [|done].
  pose proof (load_collision_geometry_any_fs has' fs' b2 gf geometry_dir) as H.
  destruct (load_collision_geometry has_LoadSTLMesh fs b2 gf geometry_dir) as [b3|e].
  - destruct H as (b3' & -> & Hn & Hm & Hp & Hi & Hf). cbn [mbind result_bind].
    destruct (py_get body_data "is_fixed" _) as [fx|e]; cbn [mbind result_bind]; [|done].
    eexists. split; [reflexivity|]. by destruct (truthy fx).
  - by rewrite H.
Qed.

(** X18. A body record without the key [name] ends the load with a
    [KeyError], when the records before it build; nothing after it is
    read and no system is returned. *)
Theorem body_without_name_aborts_load
    (json_path : string) (geometry_dir : option string)
    (document record : list (string * json)) (pre post : list json) :
  fs !! json_path = Some (Document (JObj document)) ->
  dict_lookup "bodies" document = Some (JArr (pre ++ JObj record :: post)%list) ->
  Forall (fun body_data => exists name body,
              py_getitem body_data "name" = Ok (JStr name) /\
              build_body has_LoadSTLMesh fs body_data
                (default (default_geometry_dir json_path) geometry_dir) = Ok body) pre ->
  dict_lookup "name" record = None ->
  load_model_from_json true has_LoadSTLMesh fs json_path geometry_dir =
    Raise (Builtin KeyError).
Proof.
  intros Hfile Hbodies Hpre Hname.
  unfold load_model_from_json, read_json. rewrite Hfile.
  cbn [negb mbind result_bind py_get py_iter]. rewrite Hbodies.
  cbn [default from_option id].
  assert (Hdir : match geometry_dir with
                 | Some d => d
                 | None => default_geometry_dir json_path
                 end = default (default_geometry_dir json_path) geometry_dir)
    by (by destruct geometry_dir).
  rewrite Hdir. cbn [mbind result_bind py_iter].
  destruct (create_bodies_app pre (JObj record :: post) _ ∅
              (ChSystemNSC {| vx := float 0; vy := float (-9.81); vz := float 0 |}) Hpre)
    as (bm & sys & ->).
  cbn [create_bodies]. unfold create_body_from_data, build_body. cbn [py_getitem].
  by rewrite Hname.
Qed.
End LoaderPasses.

(** X19. For a joint whose two body names are in the name table, the
    constraint class follows from the type text alone: revolute when it
    holds [Revolute], else locked when it holds [Rigid], else prismatic
    when it holds [Slider], else no constraint is made and the system is
    unchanged. The constraint joins the two named bodies at the origin in
    metres, under the joint's name. *)
Theorem joint_class_from_type_string
    (joint : list (string * json)) (body_map : gmap string nat) (system : ChSystem)
    (one two type name : string) (i j : nat) (origin_pos : ChVectorD) :
  dict_lookup "body_one" joint = Some (JStr one) -> one <> EmptyString ->
  dict_lookup "body_two" joint = Some (JStr two) -> two <> EmptyString ->
  body_map !! one = Some i -> body_map !! two = Some j ->
  mm_to_m_vector (default (JObj []) (dict_lookup "origin" joint)) = Ok origin_pos ->
  default (JStr EmptyString) (dict_lookup "type" joint) = JStr type ->
  default (JStr EmptyString) (dict_lookup "name" joint) = JStr name ->
  let link class :=
    {| link_class_of := class; link_body_one := i; link_body_two := j;
       link_origin := origin_pos; link_name := name |} in
  create_joint_from_data (JObj joint) body_map system =
    Ok (if is_substring "Revolute" type then
          (Some (link ChLinkLockRevolute), add_link system (link ChLinkLockRevolute))
        else if is_substring "Rigid" type then
          (Some (link ChLinkLockLock), add_link system (link ChLinkLockLock))
        else if is_substring "Slider" type then
          (Some (link ChLinkLockPrismatic), add_link system (link ChLinkLockPrismatic))
        else (None, system)).
Proof.
  intros Hone Hone' Htwo Htwo' Hi Hj Horigin Htype Hname link.
  unfold create_joint_from_data. rewrite !py_get_object.
  rewrite Htype, Hname, Hone, Htwo. cbn [default from_option id mbind result_bind truthy].
  rewrite !bool_decide_eq_false_2 by done. cbn [negb orb body_map_get].
  rewrite Hi, Hj. cbn [mbind result_bind].
  cbn [default from_option id] in Horigin. rewrite Horigin. cbn [mbind result_bind].
  rewrite !py_in_or_string by reflexivity.
  destruct (is_substring "Revolute" type); [reflexivity|]. cbn [mbind result_bind].
  destruct (is_substring "Rigid" type); [reflexivity|]. cbn [mbind result_bind].
  destruct (is_substring "Slider" type); reflexivity.
Qed.

Section LoadedSystem.
Variable exn_str : exn -> string.
Variable PYCHRONO_AVAILABLE : bool.
Variable has_LoadSTLMesh : bool.
Variable fs : gmap string file.

(** X20. A system that the loader returns is consistent with its
    document: it has one entity for each body record, at most one
    constraint for each joint record, and every constraint joins two
    entities of the system. *)
Theorem loaded_system_is_consistent (json_path : string) (geometry_dir : option string)
    (system : ChSystem) :
  load_model_from_json PYCHRONO_AVAILABLE has_LoadSTLMesh fs json_path geometry_dir
    = Ok system ->
  exists (document : list (string * json)) (bodies joints : list json),
    fs !! json_path = Some (Document (JObj document)) /\
    py_iter (default (JArr []) (dict_lookup "bodies" document)) = Ok bodies /\
    py_iter (default (JArr []) (dict_lookup "joints" document)) = Ok joints /\
    length (sys_bodies system) = length bodies /\
    (length (sys_links system) <= length joints)%nat /\
    Forall (fun l => (link_body_one l < length (sys_bodies system))%nat /\
                     (link_body_two l < length (sys_bodies system))%nat)
      (sys_links system).
Proof.
  unfold load_model_from_json, read_json.
  destruct PYCHRONO_AVAILABLE; [|discriminate]. cbn [negb].
  destruct (fs !! json_path) as [[| | |data]|]; try discriminate.
  cbn [mbind result_bind]. intros H.
  bind_inv H as bodies_v Hbv. bind_inv H as bodies Hbodies.
  bind_inv H as r Hr. destruct r as [body_map system1].
  bind_inv H as joints_v Hjv. bind_inv H as joints Hjoints.
  destruct data as [| | | | |document]; try discriminate.
  rewrite py_get_object in Hbv, Hjv. injection Hbv as <-. injection Hjv as <-.
  exists document, bodies, joints. split; [done|]. split; [done|]. split; [done|].
  apply create_bodies_spec in Hr as (names & built & Hnames & Hbuilt & _ & Hb & Hl & Hmap).
  apply create_joints_spec in H as (Hb' & _ & new & Hl' & Hlen & Hnew).
  cbn in Hb, Hl. rewrite Hl in Hl'. cbn in Hl'. rewrite Hl', Hb', Hb.
  apply Forall2_length in Hbuilt as Hlb. apply Forall2_length in Hnames as Hln.
  split; [done|]. split; [done|].
  eapply Forall_impl; [exact Hnew|].
  intros l (one & two & H1 & H2).
  apply Hmap in H1 as [(k1 & -> & Hk1 & _)|[Hk1 _]]; [|by rewrite lookup_empty in Hk1].
  apply Hmap in H2 as [(k2 & -> & Hk2 & _)|[Hk2 _]]; [|by rewrite lookup_empty in Hk2].
  apply lookup_lt_Some in Hk1, Hk2. cbn. lia.
Qed.

(** X21. The loader and the summary disagree on bodies without a mass
    entry: the summary counts such a body as 0, the loader gives it its
    default mass. So the masses of the loaded entities add up to the
    summary's total mass plus the loader's default for each body record
    without a mass entry. *)
Theorem loaded_mass_is_summary_mass_plus_defaults
    (json_path : string) (geometry_dir : option string)
    (document : list (string * json)) (bodies : list json)
    (system : ChSystem) (s : summary) :
  fs !! json_path = Some (Document (JObj document)) ->
  py_iter (default (JArr []) (dict_lookup "bodies" document)) = Ok bodies ->
  load_model_from_json PYCHRONO_AVAILABLE has_LoadSTLMesh fs json_path geometry_dir
    = Ok system ->
  get_model_summary exn_str fs json_path = Ok (Summary s) ->
  Qc_sum (map body_mass (sys_bodies system)) =
    (summary_total_mass s + Qc_sum (map mass_added_by_loader bodies))%Qc.
Proof.
  intros Hfile Hbodies Hload Hsum.
  unfold load_model_from_json, read_json in Hload.
  destruct PYCHRONO_AVAILABLE; [|discriminate]. cbn [negb] in Hload.
  rewrite Hfile in Hload. cbn [mbind result_bind] in Hload.
  rewrite !py_get_object in Hload. cbn [mbind result_bind] in Hload.
  rewrite Hbodies in Hload. cbn [mbind result_bind] in Hload.
  bind_inv Hload as r Hr. destruct r as [body_map system1].
  bind_inv Hload as joints Hjoints.
  apply create_bodies_spec in Hr as (names & built & _ & Hbuilt & _ & Hb & _).
  apply create_joints_spec in Hload as (Hb' & _).
  cbn in Hb. rewrite Hb', Hb.
  unfold get_model_summary in Hsum.
  destruct (summary_try fs json_path) as [s'|e] eqn:Htry;
    [|by destruct (caught_by e Exception)].
  injection Hsum as ->.
  unfold summary_try, read_json in Htry. rewrite Hfile in Htry.
  cbn [mbind result_bind] in Htry. rewrite !py_get_object in Htry.
  cbn [mbind result_bind] in Htry. rewrite Hbodies in Htry.
  bind_inv Htry as nb Hnb. bind_inv Htry as nj Hnj. bind_inv Htry as units Hunits.
  cbn [mbind result_bind] in Htry.
  bind_inv Htry as body_names Hbn. bind_inv Htry as js Hjs.
  bind_inv Htry as joint_names Hjn. bind_inv Htry as t Ht.
  injection Htry as <-. cbn [summary_total_mass].
  apply sum_masses_Ok in Ht as (masses & Hms & ->).
  rewrite (loaded_masses_total _ _ _ _ _ _ Hbuilt Hms).
  change (float 0) with (Q2Qc 0). ring.
Qed.
End LoadedSystem.

Lemma bodies_built_in_order_witness :
  exists (body_map : gmap string nat) (system : ChSystem),
    create_bodies true ∅ [body_A; JObj occurrence_body] "geometries" ∅
      (ChSystemNSC {| vx := float 0; vy := float (-9.81); vz := float 0 |})
      = Ok (body_map, system) /\
    Forall2 (fun body_data body =>
               build_body true ∅ body_data "geometries" = Ok body /\
               py_getitem body_data "name" = Ok (JStr (body_name body)))
      [body_A; JObj occurrence_body] (sys_bodies system) /\
    sys_links system = [] /\
    G_acc system = {| vx := float 0; vy := float (-9.81); vz := float 0 |}.
Proof.
  eexists _, _. split; [reflexivity|].
  eapply (bodies_built_in_order true ∅ [body_A; JObj occurrence_body] "geometries"
            {| vx := float 0; vy := float (-9.81); vz := float 0 |}).
  reflexivity.
Defined.

Lemma name_table_last_record_wins_witness :
  exists (body_map : gmap string nat) (system : ChSystem),
    create_bodies true ∅ [body_A; body_B; body_A] "geometries" ∅
      (ChSystemNSC {| vx := float 0; vy := float (-9.81); vz := float 0 |})
      = Ok (body_map, system) /\
    body_map !! "A" = Some 2%nat /\
    exists names : list string,
      Forall2 (fun body_data name => py_getitem body_data "name" = Ok (JStr name))
        [body_A; body_B; body_A] names /\
      forall (name : string) (i : nat),
        body_map !! name = Some i <->
        names !! i = Some name /\ forall j, (i < j)%nat -> names !! j <> Some name.
Proof.
  eexists _, _. split; [reflexivity|]. split; [reflexivity|].
  eapply (name_table_last_record_wins true ∅ [body_A; body_B; body_A] "geometries"
            {| vx := float 0; vy := float (-9.81); vz := float 0 |}).
  reflexivity.
Defined.

Lemma body_without_name_aborts_load_witness :
  load_model_from_json true true faulty_fs "nameless.json" None =
    Raise (Builtin KeyError).
Proof.
  apply (body_without_name_aborts_load true faulty_fs "nameless.json" None
           nameless_document [("mass_properties", JObj [("mass", num 5)])]
           [body_A] [body_B]).
  - reflexivity.
  - reflexivity.
  - constructor; [|constructor]. eexists _, _. split; reflexivity.
  - reflexivity.
Defined.

Lemma joint_class_from_type_string_witness :
  create_joint_from_data (JObj hinge) {[ "A" := 0%nat; "B" := 1%nat ]}
    (ChSystemNSC {| vx := float 0; vy := float (-9.81); vz := float 0 |}) =
    Ok (Some {| link_class_of := ChLinkLockRevolute;
                link_body_one := 0;
                link_body_two := 1;
                link_origin := {| vx := Q2Qc 1000 / float 1000.0;
                                  vy := Q2Qc 2000 / float 1000.0;
                                  vz := Q2Qc 3000 / float 1000.0 |}%Qc;
                link_name := "hinge" |},
        add_link (ChSystemNSC {| vx := float 0; vy := float (-9.81); vz := float 0 |})
          {| link_class_of := ChLinkLockRevolute;
             link_body_one := 0;
             link_body_two := 1;
             link_origin := {| vx := Q2Qc 1000 / float 1000.0;
                               vy := Q2Qc 2000 / float 1000.0;
                               vz := Q2Qc 3000 / float 1000.0 |}%Qc;
             link_name := "hinge" |}).
Proof.
  apply (joint_class_from_type_string hinge {[ "A" := 0%nat; "B" := 1%nat ]}
           (ChSystemNSC {| vx := float 0; vy := float (-9.81); vz := float 0 |})
           "A" "B" "RevoluteJointType" "hinge" 0 1
           {| vx := Q2Qc 1000 / float 1000.0;
              vy := Q2Qc 2000 / float 1000.0;
              vz := Q2Qc 3000 / float 1000.0 |}%Qc);
    first [reflexivity | discriminate].
Defined.

Lemma loaded_system_is_consistent_witness :
  exists system (document : list (string * json)) (bodies joints : list json),
    load_model_from_json true true sample_fs "dangling.json" None = Ok system /\
    sample_fs !! "dangling.json" = Some (Document (JObj document)) /\
    py_iter (default (JArr []) (dict_lookup "bodies" document)) = Ok bodies /\
    py_iter (default (JArr []) (dict_lookup "joints" document)) = Ok joints /\
    length (sys_bodies system) = length bodies /\
    (length (sys_links system) <= length joints)%nat /\
    Forall (fun l => (link_body_one l < length (sys_bodies system))%nat /\
                     (link_body_two l < length (sys_bodies system))%nat)
      (sys_links system).
Proof.
  eexists.
  destruct (loaded_system_is_consistent true true sample_fs "dangling.json" None _ eq_refl)
    as (document & bodies & joints & Hrest).
  exists document, bodies, joints. split; [reflexivity|]. exact Hrest.
Defined.

Lemma loaded_mass_is_summary_mass_plus_defaults_witness :
  exists system s,
    load_model_from_json true true faulty_fs "massless.json" None = Ok system /\
    get_model_summary sample_exn_str faulty_fs "massless.json" = Ok (Summary s) /\
    Qc_sum (map body_mass (sys_bodies system)) =
      (summary_total_mass s +
       Qc_sum (map mass_added_by_loader [body_A; JObj bare_body]))%Qc.
Proof.
  eexists _, _. split; [reflexivity|]. split; [reflexivity|].
  apply (loaded_mass_is_summary_mass_plus_defaults sample_exn_str true true faulty_fs
           "massless.json" None massless_document [body_A; JObj bare_body]);
    reflexivity.
Defined.

(** The entities of [massless.json] weigh 2 and 1; the summary reports 2. *)
Example massless_totals :
  Qc_sum (map body_mass [SetMass (SetName ChBody_new "A") (Q2Qc 2); SetName ChBody_new "bare"])
    = Q2Qc 3 /\
  summary_total_mass <$> summary_try faulty_fs "massless.json" = Ok (Q2Qc 2).
Proof. split; [apply Qc_is_canon; reflexivity|]. vm_compute. by f_equal. Qed.

(** ** The cable export: what is written *)

Section CableMore.
Variable float_repr : Qc -> string.
Variable format_exc : string.

Lemma write_rows_spec (sel : list entity) (count : nat) :
  write_rows float_repr sel count =
    (foldr (fun line text => csv_row float_repr line.1 line.2 +:+ text)
       EmptyString (sketch_lines sel),
     (count + length (sketch_lines sel))%nat).
Proof.
  revert count. induction sel as [|[s e|] sel IH]; intros count; cbn [write_rows sketch_lines].
  - cbn. f_equal. lia.
  - rewrite IH. cbn. f_equal. lia.
  - apply IH.
Qed.

(** X22. When the save dialog is confirmed and the file can be written,
    the file holds the header and then one row for each sketch line of the
    selection, in selection order; entities that are not sketch lines give
    no row, and the message counts the sketch lines only. *)
Theorem cable_export_one_row_per_line
    (sel : list entity) (filename : string) :
  sel <> [] ->
  run float_repr format_exc sel (DialogOK filename) true =
    [WriteFile filename
       (csv_header +:+ newline +:+
        foldr (fun line text => csv_row float_repr line.1 line.2 +:+ text)
          EmptyString (sketch_lines sel));
     MessageBox ("Success! Coordinates of " +:+ pretty (length (sketch_lines sel)) +:+
                 " cables exported to:" +:+ newline +:+ filename)].
Proof.
  intros Hsel. unfold run. destruct sel as [|x sel]; [done|].
  by rewrite write_rows_spec.
Qed.

(** X23. The cable export writes a file only when something is selected,
    the save dialog is confirmed and the file can be opened; the file is
    then the one chosen in the dialog, written once, and the success message
    follows it. *)
Theorem cable_export_writes_only_on_confirmed_save
    (sel : list entity) (dialog : dialog_result) (writable : bool)
    (filename content : string) :
  WriteFile filename content ∈ run float_repr format_exc sel dialog writable ->
  sel <> [] /\ dialog = DialogOK filename /\ writable = true /\
  run float_repr format_exc sel dialog writable =
    [WriteFile filename content;
     MessageBox ("Success! Coordinates of " +:+ pretty (length (sketch_lines sel)) +:+
                 " cables exported to:" +:+ newline +:+ filename)].
Proof.
  unfold run. destruct sel as [|x sel].
  { intros [=]%list_elem_of_singleton. }
  destruct dialog as [f|]; [|by intros ?%elem_of_nil].
  destruct writable; [|by intros [=]%list_elem_of_singleton].
  rewrite write_rows_spec.
  intros [H|H]%elem_of_cons; [|by apply list_elem_of_singleton in H].
  injection H as -> ->. done.
Qed.

End CableMore.

Lemma cable_export_one_row_per_line_witness :
  run whole_float_repr EmptyString [OtherEntity; cable; OtherEntity]
    (DialogOK "cables.csv") true =
    [WriteFile "cables.csv"
       (csv_header +:+ newline +:+
        foldr (fun line text => csv_row whole_float_repr line.1 line.2 +:+ text)
          EmptyString (sketch_lines [OtherEntity; cable; OtherEntity]));
     MessageBox ("Success! Coordinates of " +:+
                 pretty (length (sketch_lines [OtherEntity; cable; OtherEntity])) +:+
                 " cables exported to:" +:+ newline +:+ "cables.csv")].
Proof.
  apply (cable_export_one_row_per_line whole_float_repr EmptyString
           [OtherEntity; cable; OtherEntity] "cables.csv").
  discriminate.
Defined.

Lemma cable_export_writes_only_on_confirmed_save_witness :
  [OtherEntity; cable] <> [] /\ DialogOK "cables.csv" = DialogOK "cables.csv" /\
  true = true /\
  run whole_float_repr EmptyString [OtherEntity; cable] (DialogOK "cables.csv") true =
    [WriteFile "cables.csv"
       (csv_header +:+ newline +:+ (write_rows whole_float_repr [OtherEntity; cable] 0).1);
     MessageBox ("Success! Coordinates of " +:+
                 pretty (length (sketch_lines [OtherEntity; cable])) +:+
                 " cables exported to:" +:+ newline +:+ "cables.csv")].
Proof.
  apply (cable_export_writes_only_on_confirmed_save whole_float_repr EmptyString
           [OtherEntity; cable] (DialogOK "cables.csv") true "cables.csv").
  apply list_elem_of_here.
Defined.

(** A selection without sketch lines gives a file with the header alone. *)
Example cable_export_no_lines :
  run whole_float_repr EmptyString [OtherEntity] (DialogOK "cables.csv") true =
    [WriteFile "cables.csv" (csv_header +:+ newline);
     MessageBox ("Success! Coordinates of 0 cables exported to:" +:+ newline +:+
                 "cables.csv")].
Proof. reflexivity. Qed.

(** ** The exporter and what reads its document *)

Lemma mm_to_m_vector_point (p : Point3D) :
  mm_to_m_vector (point_to_json p) =
    Ok {| vx := px p / float 1000.0; vy := py p / float 1000.0;
          vz := pz p / float 1000.0 |}%Qc.
Proof. by apply mm_to_m_vector_numbers. Qed.

Lemma mm_to_m_vector_empty :
  exists v, mm_to_m_vector (JObj []) = Ok v.
Proof.
  unfold mm_to_m_vector, py_truediv. rewrite !py_get_object.
  cbn [dict_lookup default from_option id mbind result_bind as_number].
  rewrite !(truediv_nonzero _ _ float_1000_nonzero). cbn [mbind result_bind]. eauto.
Qed.

Lemma py_in_or_str (k1 k2 s : string) :
  py_in_or k1 k2 (JStr s) = Ok (is_substring k1 s || is_substring k2 s).
Proof. unfold py_in_or. cbn [py_in mbind result_bind]. by destruct (is_substring k1 s). Qed.

(** The mass block succeeds on what the exporter writes. *)
Lemma set_mass_properties_exported (body : ChBody) (p : physical_properties) :
  exists body',
    set_mass_properties body (mass_properties_to_json p) = Ok body' /\
    body_name body' = body_name body /\ body_collide body' = body_collide body.
Proof.
  destruct p as [| |mass volume area density com inertia]; [by exists body..|].
  unfold set_mass_properties, mass_properties_to_json.
  cbn [app truthy]. rewrite !py_get_object.
  destruct inertia; lookup_keys;
    cbn [default from_option id mbind result_bind as_number truthy point_to_json];
    rewrite mm_to_m_vector_point; cbn [mbind result_bind]; eauto.
Qed.

Lemma extract_body_data_name (b : BRepBody) (occurrence : option Occurrence) :
  py_getitem (extract_body_data b occurrence) "name" = Ok (JStr (brep_name b)).
Proof. reflexivity. Qed.

Lemma summary_mass_exported (b : BRepBody) (occurrence : option Occurrence) :
  summary_mass (extract_body_data b occurrence) = Ok (exported_mass b).
Proof.
  unfold summary_mass, extract_body_data, exported_mass. rewrite py_get_object.
  cbn [app]. lookup_keys. cbn [default from_option id mbind result_bind].
  by destruct (brep_physicalProperties b).
Qed.

Lemma exported_document_lookups (rootComp : Component) :
  (forall f, f ∈ required_fields ->
             is_Some (dict_lookup f
                        match extract_model_data rootComp with
                        | JObj kvs => kvs
                        | _ => []
                        end)) /\
  py_get (extract_model_data rootComp) "bodies" (JArr []) =
    Ok (JArr (map (fun b => extract_body_data b.1 b.2) (solid_bodies rootComp))) /\
  py_get (extract_model_data rootComp) "joints" (JArr []) =
    Ok (JArr (map extract_joint_data (comp_allJoints rootComp))).
Proof.
  split; [|split; reflexivity].
  cbn [extract_model_data]. required_present.
Qed.

(** The joint pass never fails on a joint that the exporter wrote, and it
    creates a constraint only between two bodies that are registered under
    the names of the joint's occurrences. *)
Lemma create_joint_exported (j : Joint) (body_map : gmap string nat) (system : ChSystem) :
  exists joint system',
    create_joint_from_data (extract_joint_data j) body_map system = Ok (joint, system') /\
    forall l, joint = Some l ->
      exists one two,
        joint_occurrenceOne j = Some one /\ joint_occurrenceTwo j = Some two /\
        body_map !! one = Some (link_body_one l) /\
        body_map !! two = Some (link_body_two l).
Proof.
  unfold create_joint_from_data, extract_joint_data. rewrite !py_get_object.
  cbn [app].
  destruct (joint_occurrenceOne j) as [one|], (joint_occurrenceTwo j) as [two|],
    (joint_origin j) as [origin|];
    cbn [app]; lookup_keys;
    cbn [default from_option id mbind result_bind truthy negb orb];
    try (eexists _, _; split; [reflexivity|]; discriminate);
    try (rewrite orb_true_r; eexists _, _; split; [reflexivity|]; discriminate).
  - destruct (negb (negb (bool_decide (one = EmptyString))) ||
              negb (negb (bool_decide (two = EmptyString))));
      [eexists _, _; split; [reflexivity|]; discriminate|].
    cbn [body_map_get mbind result_bind].
    destruct (body_map !! one) as [i|] eqn:Hi;
      [|eexists _, _; split; [reflexivity|]; discriminate].
    destruct (body_map !! two) as [k|] eqn:Hk;
      [|eexists _, _; split; [reflexivity|]; discriminate].
    cbn [point_to_json]. fold (point_to_json origin).
    rewrite mm_to_m_vector_point. cbn [mbind result_bind].
    rewrite !py_in_or_str.
    destruct (is_substring "Revolute" (joint_type j) || _);
      cbn [mbind result_bind as_str];
      [eexists _, _; split; [reflexivity|]; intros l [= <-]; cbn; eauto 10|].
    destruct (is_substring "Rigid" (joint_type j) || _);
      cbn [mbind result_bind as_str];
      [eexists _, _; split; [reflexivity|]; intros l [= <-]; cbn; eauto 10|].
    destruct (is_substring "Slider" (joint_type j) || _);
      cbn [mbind result_bind as_str];
      [eexists _, _; split; [reflexivity|]; intros l [= <-]; cbn; eauto 10|].
    eexists _, _; split; [reflexivity|]; discriminate.
  - destruct (negb (negb (bool_decide (one = EmptyString))) ||
              negb (negb (bool_decide (two = EmptyString))));
      [eexists _, _; split; [reflexivity|]; discriminate|].
    cbn [body_map_get mbind result_bind].
    destruct (body_map !! one) as [i|] eqn:Hi;
      [|eexists _, _; split; [reflexivity|]; discriminate].
    destruct (body_map !! two) as [k|] eqn:Hk;
      [|eexists _, _; split; [reflexivity|]; discriminate].
    destruct mm_to_m_vector_empty as [v ->]. cbn [mbind result_bind].
    rewrite !py_in_or_str.
    destruct (is_substring "Revolute" (joint_type j) || _);
      cbn [mbind result_bind as_str];
      [eexists _, _; split; [reflexivity|]; intros l [= <-]; cbn; eauto 10|].
    destruct (is_substring "Rigid" (joint_type j) || _);
      cbn [mbind result_bind as_str];
      [eexists _, _; split; [reflexivity|]; intros l [= <-]; cbn; eauto 10|].
    destruct (is_substring "Slider" (joint_type j) || _);
      cbn [mbind result_bind as_str];
      [eexists _, _; split; [reflexivity|]; intros l [= <-]; cbn; eauto 10|].
    eexists _, _; split; [reflexivity|]; discriminate.
Qed.

(** The joint pass on the joints of the exporter. *)
Lemma create_joints_exported (joints : list Joint) (body_map : gmap string nat) :
  forall system,
  exists system' new,
    create_joints (map extract_joint_data joints) body_map system = Ok system' /\
    sys_bodies system' = sys_bodies system /\
    sys_links system' = (sys_links system ++ new)%list /\
    Forall (fun l => exists j one two,
                j ∈ joints /\
                joint_occurrenceOne j = Some one /\ joint_occurrenceTwo j = Some two /\
                body_map !! one = Some (link_body_one l) /\
                body_map !! two = Some (link_body_two l)) new.
Proof.
  induction joints as [|j joints IH]; intros system.
  - exists system, []. by rewrite app_nil_r.
  - cbn [map create_joints].
    destruct (create_joint_exported j body_map system) as (joint & system1 & Hj & Hl).
    pose proof Hj as Hinv. apply create_joint_from_data_inv in Hinv as (Hb1 & _ & Hl1).
    rewrite Hj. cbn [mbind result_bind].
    destruct (IH system1) as (system' & new & -> & Hb & Hlinks & Hnew).
    assert (Hnew' : Forall (fun l => exists j0 one two,
                j0 ∈ j :: joints /\
                joint_occurrenceOne j0 = Some one /\ joint_occurrenceTwo j0 = Some two /\
                body_map !! one = Some (link_body_one l) /\
                body_map !! two = Some (link_body_two l)) new).
    { eapply Forall_impl; [exact Hnew|].
      intros l (j0 & one & two & Hin & H). exists j0, one, two.
      split; [by right|done]. }
    destruct joint as [l|].
    + destruct Hl1 as [Hl1 _]. exists system', (l :: new).
      split; [done|]. split; [congruence|].
      split; [by rewrite Hlinks, Hl1, <- app_assoc|].
      constructor; [|done].
      destruct (Hl l eq_refl) as (one & two & H1 & H2 & H3 & H4).
      exists j, one, two. split; [by left|]. by repeat split; eauto.
    + exists system', new. split; [done|]. split; [congruence|].
      split; [by rewrite Hlinks, Hl1|done].
Qed.

Section Exported.
Variable exn_str : exn -> string.
Variable py_repr : json -> string.
Variable has_LoadSTLMesh : bool.
Variable fs : gmap string file.

(** A body that the exporter wrote builds; it collides exactly when its
    mesh file is found. *)
Lemma build_body_exported (b : BRepBody) (occurrence : option Occurrence)
    (geometry_dir : string) :
  exists body,
    build_body has_LoadSTLMesh fs (extract_body_data b occurrence) geometry_dir = Ok body /\
    body_name body = brep_name b /\
    body_collide body = path_exists fs (path_join geometry_dir (brep_name b +:+ ".stl")).
Proof.
  unfold build_body, extract_body_data. rewrite !py_get_object.
  cbn [py_getitem app]. lookup_keys.
  cbn [default from_option id mbind result_bind as_str].
  destruct (set_mass_properties_exported (SetName ChBody_new (brep_name b))
              (brep_physicalProperties b)) as (body1 & -> & Hn1 & Hc1).
  cbn [mbind result_bind].
  assert (Hgeom : forall body2 : ChBody,
             load_collision_geometry has_LoadSTLMesh fs body2
               (JStr (brep_name b +:+ ".stl")) geometry_dir =
             Ok (if path_exists fs (path_join geometry_dir (brep_name b +:+ ".stl"))
                 then attach_mesh body2
                        (load_mesh has_LoadSTLMesh
                           (path_join geometry_dir (brep_name b +:+ ".stl")))
                 else body2)).
  { intros body2. unfold load_collision_geometry. cbn [truthy as_str mbind result_bind].
    rewrite bool_decide_eq_false_2 by (by apply string_app_not_empty). cbn [negb].
    by destruct (path_exists fs _). }
  destruct occurrence as [occ|]; lookup_keys;
    cbn [default from_option id apply_transformation truthy mbind result_bind].
  - rewrite py_get_object. lookup_keys.
    cbn [default from_option id mbind result_bind truthy point_to_json].
    rewrite mm_to_m_vector_point. cbn [mbind result_bind].
    rewrite Hgeom. cbn [mbind result_bind truthy].
    eexists. split; [reflexivity|]. destruct (path_exists fs _); cbn; by rewrite ?Hn1, ?Hc1.
  - rewrite Hgeom. cbn [mbind result_bind truthy].
    eexists. split; [reflexivity|]. destruct (path_exists fs _); cbn; by rewrite ?Hn1, ?Hc1.
Qed.

(** The body pass succeeds on the records of the exporter. *)
Lemma create_bodies_exported (l : list (BRepBody * option Occurrence))
    (geometry_dir : string) :
  forall body_map system,
  exists body_map' system',
    create_bodies has_LoadSTLMesh fs (map (fun b => extract_body_data b.1 b.2) l)
      geometry_dir body_map system = Ok (body_map', system').
Proof.
  induction l as [|[b occ] l IH]; intros body_map system; [by eexists _, _|].
  destruct (build_body_exported b occ geometry_dir) as (body & Hbody & _).
  cbn [map fst snd].
  rewrite (create_bodies_cons _ _ _ _ _ _ _ _ _ (extract_body_data_name b occ) Hbody).
  apply IH.
Qed.

(** The body pass on the records of the exporter, from the empty table. *)
Lemma create_bodies_exported_spec (l : list (BRepBody * option Occurrence))
    (geometry_dir : string) (g : ChVectorD) :
  exists body_map system,
    create_bodies has_LoadSTLMesh fs (map (fun b => extract_body_data b.1 b.2) l)
      geometry_dir ∅ (ChSystemNSC g) = Ok (body_map, system) /\
    sys_links system = [] /\
    Forall2 (fun b body =>
               body_name body = brep_name b.1 /\
               body_collide body =
                 path_exists fs (path_join geometry_dir (brep_name b.1 +:+ ".stl")))
      l (sys_bodies system) /\
    forall name i, body_map !! name = Some i ->
                   body_name <$> sys_bodies system !! i = Some name.
Proof.
  destruct (create_bodies_exported l geometry_dir ∅ (ChSystemNSC g))
    as (body_map & system & H).
  exists body_map, system. split; [done|].
  apply create_bodies_spec in H as (names & built & Hnames & Hbuilt & _ & Hb & Hl & Hmap).
  cbn in Hb, Hl. subst built. split; [done|]. split.
  - apply Forall2_fmap_l in Hbuilt. eapply Forall2_impl; [exact Hbuilt|].
    intros [b occ] body Hbody. cbn [fst snd] in *.
    destruct (build_body_exported b occ geometry_dir) as (body' & Hbody' & Hn & Hc).
    rewrite Hbody in Hbody'. by injection Hbody' as <-.
  - intros name i [(k & -> & Hk & _)|[Hempty _]]%Hmap;
      [|by rewrite lookup_empty in Hempty].
    cbn [ChSystemNSC sys_bodies length Nat.add].
    destruct (Forall2_lookup_r _ _ _ _ _ Hnames Hk) as (body_data & Hd & Hgetname).
    destruct (Forall2_lookup_l _ _ _ _ _ Hbuilt Hd) as (body & Hbd & Hbuild).
    rewrite Hbd. cbn. apply build_body_name in Hbuild.
    rewrite Hgetname in Hbuild. by injection Hbuild as ->.
Qed.

(** X25. The validator accepts every document that the exporter writes,
    whatever the design holds. *)
Theorem exported_document_is_valid (rootComp : Component) (json_path : string) :
  fs !! json_path = Some (Document (extract_model_data rootComp)) ->
  validate_json_export exn_str py_repr fs json_path = Ok (true, "Valid").
Proof.
  intros Hfile. unfold validate_json_export.
  assert (validate_try py_repr fs json_path = Ok (true, "Valid")) as ->; [|done].
  apply validate_try_true. split; [done|].
  eexists _, _, _. split; [exact Hfile|].
  split; [apply (exported_document_lookups rootComp)|].
  split; [reflexivity|]. split; [reflexivity|]. split.
  - apply Forall_forall. intros body (b & -> & _)%list_elem_of_fmap. by split.
  - apply Forall_forall. intros joint (j & -> & _)%list_elem_of_fmap. by split.
Qed.

(** X26. The loader never fails on a document that the exporter wrote:
    it returns a system with one entity for each solid body of the design,
    in export order and under the body's name, and each constraint comes
    from a joint with two occurrences and joins the entities whose names are
    the names of those occurrences. *)
Theorem exported_document_loads (rootComp : Component) (json_path : string)
    (geometry_dir : option string) :
  fs !! json_path = Some (Document (extract_model_data rootComp)) ->
  exists system,
    load_model_from_json true has_LoadSTLMesh fs json_path geometry_dir = Ok system /\
    map body_name (sys_bodies system) =
      map (fun b => brep_name b.1) (solid_bodies rootComp) /\
    Forall (fun l => exists j one two,
                j ∈ comp_allJoints rootComp /\
                joint_occurrenceOne j = Some one /\ joint_occurrenceTwo j = Some two /\
                body_name <$> sys_bodies system !! link_body_one l = Some one /\
                body_name <$> sys_bodies system !! link_body_two l = Some two)
      (sys_links system).
Proof.
  intros Hfile. unfold load_model_from_json, read_json. rewrite Hfile.
  cbn [negb mbind result_bind].
  destruct (exported_document_lookups rootComp) as (_ & -> & ->).
  cbn [mbind result_bind py_iter].
  destruct (create_bodies_exported_spec (solid_bodies rootComp)
              match geometry_dir with
              | Some d => d
              | None => default_geometry_dir json_path
              end {| vx := float 0; vy := float (-9.81); vz := float 0 |})
    as (body_map & system & -> & Hl & Hbodies & Hmap).
  cbn [mbind result_bind].
  destruct (create_joints_exported (comp_allJoints rootComp) body_map system)
    as (system' & new & -> & Hb' & Hl' & Hnew).
  exists system'. split; [done|]. rewrite Hb'. split.
  - clear -Hbodies. induction Hbodies as [|b body l bodies [Hn _] _ IH]; [done|].
    cbn [map]. by rewrite Hn, IH.
  - rewrite Hl', Hl. cbn [app]. eapply Forall_impl; [exact Hnew|].
    intros l (j & one & two & Hj & H1 & H2 & H3 & H4).
    exists j, one, two. repeat split; auto.
Qed.

(** X27. The exporter and the loader agree on where the meshes are: when
    the document and the mesh files that an export into a folder asks for
    are there, loading the document with no geometry directory given finds
    a mesh for every body, so every entity collides. Paths are POSIX paths;
    the folder name is not empty and does not end with the separator, and
    the design name holds no separator. *)
Theorem exported_meshes_are_found (rootComp : Component) (output_dir : string) :
  output_dir <> EmptyString ->
  ends_with "/" output_dir = false ->
  is_substring "/" (comp_name rootComp) = false ->
  fs !! export_json_path rootComp output_dir =
    Some (Document (extract_model_data rootComp)) ->
  (forall stl_path, stl_path ∈ export_geometries rootComp output_dir ->
                    is_Some (fs !! stl_path)) ->
  exists system,
    load_model_from_json true has_LoadSTLMesh fs
      (export_json_path rootComp output_dir) None = Ok system /\
    length (sys_bodies system) = length (solid_bodies rootComp) /\
    Forall (fun body => body_collide body = true) (sys_bodies system).
Proof.
  intros Hdir Hend Hname Hfile Hstl.
  assert (Hgeom : default_geometry_dir (export_json_path rootComp output_dir) =
                  path_join output_dir "geometries").
  { unfold default_geometry_dir, export_json_path.
    rewrite path_dirname_join; [done..|]. by apply no_sep_app. }
  unfold load_model_from_json, read_json. rewrite Hfile.
  cbn [negb mbind result_bind].
  destruct (exported_document_lookups rootComp) as (_ & -> & ->).
  cbn [mbind result_bind py_iter]. rewrite Hgeom.
  destruct (create_bodies_exported_spec (solid_bodies rootComp)
              (path_join output_dir "geometries")
              {| vx := float 0; vy := float (-9.81); vz := float 0 |})
    as (body_map & system & -> & Hl & Hbodies & Hmap).
  cbn [mbind result_bind].
  destruct (create_joints_exported (comp_allJoints rootComp) body_map system)
    as (system' & new & -> & Hb' & Hl' & Hnew).
  exists system'. split; [done|]. rewrite Hb'.
  split; [symmetry; by eapply Forall2_length|].
  apply Forall_forall. intros body [i Hi]%list_elem_of_lookup_1.
  destruct (Forall2_lookup_r _ _ _ _ _ Hbodies Hi) as (b & Hb & _ & Hc).
  rewrite Hc. apply bool_decide_eq_true_2, Hstl.
  unfold export_geometries. apply list_elem_of_fmap. exists b.
  split; [done|]. by eapply list_elem_of_lookup_2.
Qed.

(** X28. The summary of a document that the exporter wrote shows the
    design: its name, the unit [mm], the solid bodies and the joints by
    number and by name in export order, and as total mass the sum of the
    masses of the solid bodies whose physical properties could be read. *)
Theorem exported_document_summary (rootComp : Component) (json_path : string) :
  fs !! json_path = Some (Document (extract_model_data rootComp)) ->
  get_model_summary exn_str fs json_path =
    Ok (Summary
          {| summary_model_name := JStr (comp_name rootComp);
             summary_num_bodies := length (solid_bodies rootComp);
             summary_num_joints := length (comp_allJoints rootComp);
             summary_units := JStr "mm";
             summary_bodies := map (fun b => JStr (brep_name b.1)) (solid_bodies rootComp);
             summary_joints := map (fun j => JStr (joint_name j)) (comp_allJoints rootComp);
             summary_total_mass :=
               Qc_sum (map (fun b => exported_mass b.1) (solid_bodies rootComp)) |}).
Proof.
  intros Hfile. unfold get_model_summary.
  rewrite (summary_try_document fs json_path _
             (map (fun b => extract_body_data b.1 b.2) (solid_bodies rootComp))
             (map extract_joint_data (comp_allJoints rootComp))
             (map (fun b => JStr (brep_name b.1)) (solid_bodies rootComp))
             (map (fun j => JStr (joint_name j)) (comp_allJoints rootComp))
             (map (fun b => exported_mass b.1) (solid_bodies rootComp))
             (JStr "mm") Hfile); try reflexivity.
  - by rewrite !length_map.
  - induction (solid_bodies rootComp) as [|[b occ] l IH]; constructor; done.
  - induction (comp_allJoints rootComp) as [|j l IH]; constructor; done.
  - induction (solid_bodies rootComp) as [|[b occ] l IH]; constructor; [|done].
    apply summary_mass_exported.
Qed.
End Exported.

Lemma exported_document_is_valid_witness :
  validate_json_export sample_exn_str sample_py_repr exported_fs "out/crank_pychrono.json"
    = Ok (true, "Valid").
Proof.
  apply (exported_document_is_valid sample_exn_str sample_py_repr exported_fs crank
           "out/crank_pychrono.json").
  reflexivity.
Defined.

Lemma exported_document_loads_witness :
  exists system,
    load_model_from_json true true exported_fs "out/crank_pychrono.json"
      (Some "elsewhere") = Ok system /\
    map body_name (sys_bodies system) =
      map (fun b => brep_name b.1) (solid_bodies crank) /\
    Forall (fun l => exists j one two,
                j ∈ comp_allJoints crank /\
                joint_occurrenceOne j = Some one /\ joint_occurrenceTwo j = Some two /\
                body_name <$> sys_bodies system !! link_body_one l = Some one /\
                body_name <$> sys_bodies system !! link_body_two l = Some two)
      (sys_links system).
Proof.
  apply (exported_document_loads true exported_fs crank "out/crank_pychrono.json"
           (Some "elsewhere")).
  reflexivity.
Defined.

Lemma exported_meshes_are_found_witness :
  exists system,
    load_model_from_json true true exported_fs (export_json_path crank "out") None
      = Ok system /\
    length (sys_bodies system) = length (solid_bodies crank) /\
    Forall (fun body => body_collide body = true) (sys_bodies system).
Proof.
  apply (exported_meshes_are_found true exported_fs crank "out").
  - discriminate.
  - reflexivity.
  - reflexivity.
  - reflexivity.
  - intros stl_path Hp. cbn in Hp.
    repeat (apply elem_of_cons in Hp as [->|Hp]; [by eexists|]).
    by apply elem_of_nil in Hp.
Defined.

Lemma exported_document_summary_witness :
  get_model_summary sample_exn_str exported_fs "out/crank_pychrono.json" =
    Ok (Summary
          {| summary_model_name := JStr (comp_name crank);
             summary_num_bodies := length (solid_bodies crank);
             summary_num_joints := length (comp_allJoints crank);
             summary_units := JStr "mm";
             summary_bodies := map (fun b => JStr (brep_name b.1)) (solid_bodies crank);
             summary_joints := map (fun j => JStr (joint_name j)) (comp_allJoints crank);
             summary_total_mass :=
               Qc_sum (map (fun b => exported_mass b.1) (solid_bodies crank)) |}).
Proof.
  apply (exported_document_summary sample_exn_str exported_fs crank
           "out/crank_pychrono.json").
  reflexivity.
Defined.

(** The export of [crank]: two solid bodies, the surface body left out; the
    joint becomes a revolute constraint between the entities [arm] and
    [base]. *)
Example crank_paths :
  export_json_path crank "out" = "out/crank_pychrono.json" /\
  export_geometries crank "out" = ["out/geometries/arm.stl"; "out/geometries/base.stl"].
Proof. split; reflexivity. Qed.

Example crank_loaded :
  (fun system => (map body_name (sys_bodies system),
                  map (fun l => (link_class_of l, link_body_one l, link_body_two l))
                    (sys_links system)))
    <$> load_model_from_json true true exported_fs "out/crank_pychrono.json" None =
  Ok (["arm"; "base"], [(ChLinkLockRevolute, 0%nat, 1%nat)]).
Proof. reflexivity. Qed.
